(** * Universal Exam Info Fetcher: a shallow embedding of [webscraper/scrapy.py]

    The Python module queries Wikipedia, a video search API, a books API and
    two paper-archive sites, and merges what it finds into one record.  The
    embedding below follows the module function by function.  Everything the
    module obtains from outside (HTTP replies, decoded JSON, the parsed HTML
    tree, the API key) is supplied by a [world]; the calls the module issues
    are logged in a trace, and a Python exception is an explicit outcome. *)

From Stdlib Require Import ZArith List String Ascii Bool.
Import ListNotations.
Open Scope string_scope.
Open Scope list_scope.
Open Scope Z_scope.

Set Implicit Arguments.
Set Warnings "-register-all".

(* ================================================================== *)
(** * Python strings *)
(* ================================================================== *)

(** A Python [str] is modelled as a Rocq [string]; a character is a code
    point below 256. *)
Module PyStr.

Definition code (c : ascii) : N := N_of_ascii c.

(** [str.isspace] on one character: the whitespace code points below 256. *)
Definition is_space (c : ascii) : bool :=
  let n := code c in
  ((9 <=? n) && (n <=? 13) || (28 <=? n) && (n <=? 32)
   || (n =? 133) || (n =? 160))%N.

(** [str.lower] on one character: A-Z, and the Latin-1 capitals. *)
Definition lower_char (c : ascii) : ascii :=
  let n := code c in
  if ((65 <=? n) && (n <=? 90)
      || (192 <=? n) && (n <=? 222) && negb (n =? 215))%N
  then ascii_of_N (n + 32) else c.

Fixpoint lower (s : string) : string :=
  match s with
  | EmptyString => EmptyString
  | String c t => String (lower_char c) (lower t)
  end.

(** [s.startswith(p)] *)
Definition startswith (s p : string) : bool := String.prefix p s.

(** [needle in hay] *)
Fixpoint contains (needle hay : string) : bool :=
  String.prefix needle hay ||
  match hay with
  | EmptyString => false
  | String _ t => contains needle t
  end.

(** [any(word in s for word in words)] *)
Definition contains_any (words : list string) (s : string) : bool :=
  existsb (fun w => contains w s) words.

(** Removal of the leading characters that satisfy [p]. *)
Fixpoint lstrip_by (p : ascii -> bool) (s : string) : string :=
  match s with
  | EmptyString => EmptyString
  | String c t => if p c then lstrip_by p t else s
  end.

Fixpoint rev_onto (s acc : string) : string :=
  match s with
  | EmptyString => acc
  | String c t => rev_onto t (String c acc)
  end.

Definition rev (s : string) : string := rev_onto s EmptyString.

Definition rstrip_by (p : ascii -> bool) (s : string) : string :=
  rev (lstrip_by p (rev s)).

(** [s.strip()] *)
Definition strip (s : string) : string :=
  rstrip_by is_space (lstrip_by is_space s).

Definition is_slash (c : ascii) : bool := (code c =? 47)%N.

(** [s.rstrip("/")] and [s.lstrip("/")] *)
Definition rstrip_slash (s : string) : string := rstrip_by is_slash s.
Definition lstrip_slash (s : string) : string := lstrip_by is_slash s.

(** [sep.join(parts)] *)
Fixpoint join (sep : string) (parts : list string) : string :=
  match parts with
  | [] => EmptyString
  | [p] => p
  | p :: rest => (p ++ sep ++ join sep rest)%string
  end.

(** [s.replace(" ", "_")]: the pattern is a single character. *)
Fixpoint replace_space (s : string) : string :=
  match s with
  | EmptyString => EmptyString
  | String c t =>
      String (if (code c =? 32)%N then "_"%char else c) (replace_space t)
  end.

(** [s[:n]] for a non-negative [n]. *)
Fixpoint take (n : nat) (s : string) : string :=
  match n, s with
  | O, _ => EmptyString
  | _, EmptyString => EmptyString
  | S k, String c t => String c (take k t)
  end.

(** The characters of a string, as one-character strings (iteration). *)
Fixpoint chars (s : string) : list string :=
  match s with
  | EmptyString => []
  | String c t => String c EmptyString :: chars t
  end.

(** Truth value of a string. *)
Definition truthy (s : string) : bool :=
  match s with EmptyString => false | _ => true end.

End PyStr.

(* ================================================================== *)
(** * Python dicts with string keys *)
(* ================================================================== *)

(** A dict keeps its keys in insertion order, and [sections.items()] is
    iterated in that order, so a dict is an association list without
    repeated keys. *)
Module PyDict.

Definition dict (V : Type) : Type := list (string * V).

Section Ops.
Variable V : Type.

(** [d.get(k)] *)
Fixpoint get (k : string) (d : dict V) : option V :=
  match d with
  | [] => None
  | (k', v) :: rest => if String.eqb k k' then Some v else get k rest
  end.

(** [k in d] *)
Definition mem (k : string) (d : dict V) : bool :=
  match get k d with Some _ => true | None => false end.

(** [d[k] = v]: an existing key keeps its position, a new key goes last. *)
Fixpoint set (k : string) (v : V) (d : dict V) : dict V :=
  match d with
  | [] => [(k, v)]
  | (k', v') :: rest =>
      if String.eqb k k' then (k', v) :: rest else (k', v') :: set k v rest
  end.

(** [d.setdefault(k, v)], for its effect on [d]. *)
Definition setdefault (k : string) (v : V) (d : dict V) : dict V :=
  if mem k d then d else set k v d.

Definition keys (d : dict V) : list string := map fst d.

End Ops.

End PyDict.

Import PyDict.

(* ================================================================== *)
(** * Python values decoded from JSON *)
(* ================================================================== *)

(** What [r.json()] and the video API client hand back.  A float is kept as
    its IEEE-754 binary64 bit pattern; the module only ever asks for the
    truth value of such a number. *)
Inductive pyval : Type :=
| PNone
| PBool (b : bool)
| PInt (z : Z)
| PFloat (bits : Z)
| PStr (s : string)
| PList (l : list pyval)
| PDict (d : list (string * pyval)).

(** The exceptions the module can meet; every one of them is an [Exception],
    so [except Exception] catches them all. *)
Inductive exn : Type :=
| AttributeError
| KeyError
| IndexError
| TypeError
| ValueError
| HTTPError
| RequestException
| EOFError
| OtherException (name : string).

Inductive result (A : Type) : Type :=
| Ok (a : A)
| Raise (e : exn).

Arguments Ok {A} a.
Arguments Raise {A} e.

Module PyVal.

(** [bool(v)] *)
Definition truthy (v : pyval) : bool :=
  match v with
  | PNone => false
  | PBool b => b
  | PInt z => negb (z =? 0)
  | PFloat bits => negb (Z.land bits (2 ^ 63 - 1) =? 0)
  | PStr s => PyStr.truthy s
  | PList l => match l with [] => false | _ => true end
  | PDict d => match d with [] => false | _ => true end
  end.

(** [v.get(k, default)]: only a dict has the method. *)
Definition get (v : pyval) (k : string) (default : pyval) : result pyval :=
  match v with
  | PDict d => Ok (match PyDict.get k d with Some x => x | None => default end)
  | _ => Raise AttributeError
  end.

(** [v[k]] with a string key. *)
Definition getitem (v : pyval) (k : string) : result pyval :=
  match v with
  | PDict d => match PyDict.get k d with Some x => Ok x | None => Raise KeyError end
  | _ => Raise TypeError
  end.

(** [v[0]] *)
Definition first (v : pyval) : result pyval :=
  match v with
  | PList [] => Raise IndexError
  | PList (x :: _) => Ok x
  | PStr EmptyString => Raise IndexError
  | PStr (String c _) => Ok (PStr (String c EmptyString))
  | PDict _ => Raise KeyError
  | _ => Raise TypeError
  end.

(** How many items [x[:n]] keeps of [len] items: a negative [n] counts
    from the end. *)
Definition slice_len (n : Z) (len : nat) : nat :=
  if 0 <=? n then Z.to_nat n else (len - Z.to_nat (- n))%nat.

(** [v[:n]] *)
Definition slice_to (n : Z) (v : pyval) : result pyval :=
  match v with
  | PList l => Ok (PList (firstn (slice_len n (List.length l)) l))
  | PStr s => Ok (PStr (PyStr.take (slice_len n (String.length s)) s))
  | PDict _ => Raise KeyError
  | _ => Raise TypeError
  end.

(** The items a [for] loop over [v] visits. *)
Definition iter (v : pyval) : result (list pyval) :=
  match v with
  | PList l => Ok l
  | PStr s => Ok (map PStr (PyStr.chars s))
  | PDict d => Ok (map (fun kv => PStr (fst kv)) d)
  | _ => Raise TypeError
  end.

(** [v.replace(" ", "_")]: only a string has the method. *)
Definition replace_space (v : pyval) : result string :=
  match v with
  | PStr s => Ok (PyStr.replace_space s)
  | _ => Raise AttributeError
  end.

Definition is_none (v : pyval) : bool :=
  match v with PNone => true | _ => false end.

Definition is_str_or_none (v : pyval) : bool :=
  match v with PNone | PStr _ => true | _ => false end.

End PyVal.

(* ================================================================== *)
(** * The parsed HTML tree *)
(* ================================================================== *)

(** What the HTML parser builds: text, text that [get_text] does not report
    (comments, script and style bodies, declarations), and elements. *)
Inductive node : Type :=
| NText (s : string)
| NHidden (s : string)
| NElem (name : string) (attrs : list (string * string)) (children : list node).

Module Soup.

Definition tag_name (n : node) : option string :=
  match n with NElem name _ _ => Some name | _ => None end.

Definition has_name (name : string) (n : node) : bool :=
  match n with NElem nm _ _ => String.eqb nm name | _ => false end.

(** [tb.decompose()] for every [table]: the tables leave the tree. *)
Fixpoint remove_tables_node (n : node) : list node :=
  match n with
  | NElem name attrs children =>
      if String.eqb name "table" then []
      else [NElem name attrs
              (flat_map remove_tables_node children)]
  | _ => [n]
  end.

Definition remove_tables (forest : list node) : list node :=
  flat_map remove_tables_node forest.

(** The strings [get_text] collects below a node, in document order. *)
Fixpoint strings (n : node) : list string :=
  match n with
  | NText s => [s]
  | NHidden _ => []
  | NElem _ _ children => flat_map strings children
  end.

(** [n.get_text(separator=" ")] *)
Definition get_text_sep (n : node) : string := PyStr.join " " (strings n).

(** [n.get_text(strip=True)]: every string stripped, the empty ones left
    out, no separator. *)
Definition get_text_strip (n : node) : string :=
  PyStr.join ""
    (filter PyStr.truthy (map PyStr.strip (strings n))).

(** All elements of a forest in document order (parents before children). *)
Fixpoint elements_node (n : node) : list node :=
  match n with
  | NElem _ _ children => n :: flat_map elements_node children
  | _ => []
  end.

Definition elements (forest : list node) : list node :=
  flat_map elements_node forest.

(** [soup.find(name)] *)
Definition find (name : string) (forest : list node) : option node :=
  List.find (has_name name) (elements forest).

Definition attr (k : string) (n : node) : option string :=
  match n with NElem _ attrs _ => PyDict.get k attrs | _ => None end.

(** [soup.find_all("a", href=True)] *)
Definition find_all_a_href (forest : list node) : list node :=
  filter (fun n => has_name "a" n &&
                   match attr "href" n with Some _ => true | None => false end)
         (elements forest).

(** The regular expression [^h[1-6]$], matched against a tag name; [$]
    also matches just before a final newline. *)
Definition is_heading_name (s : string) : bool :=
  match s with
  | String h (String d rest) =>
      (PyStr.code h =? 104)%N
      && (49 <=? PyStr.code d)%N && (PyStr.code d <=? 54)%N
      && match rest with
         | EmptyString => true
         | String nl EmptyString => (PyStr.code nl =? 10)%N
         | _ => false
         end
  | _ => false
  end.

Definition is_heading (n : node) : bool :=
  match n with NElem name _ _ => is_heading_name name | _ => false end.

(** [soup.find_all(re.compile("^h[1-6]$"))], each heading paired with its
    [next_siblings]. *)
Fixpoint headers_node (n : node) (sibs : list node) : list (node * list node) :=
  match n with
  | NElem name _ children =>
      (if is_heading_name name then [(n, sibs)] else []) ++
      (fix walk (l : list node) : list (node * list node) :=
         match l with
         | [] => []
         | c :: cs => headers_node c cs ++ walk cs
         end) children
  | _ => []
  end.

Fixpoint headers (forest : list node) : list (node * list node) :=
  match forest with
  | [] => []
  | n :: rest => headers_node n rest ++ headers rest
  end.

End Soup.

(* ================================================================== *)
(** * Effects: the trace of external calls, and exceptions *)
(* ================================================================== *)

(** What the module does to the outside, in the order it does it. *)
Inductive event : Type :=
| HttpGet (url : string) (params : list (string * pyval))
| YoutubeSearch (q : string) (max_results : Z) (kind : string)
| Print (line : string)
| Input (prompt : string).

(** [exit(code)] raises [SystemExit], which is not an [Exception]. *)
Inductive signal : Type :=
| Exc (e : exn)
| SystemExit (code : Z).

Inductive outcome (A : Type) : Type :=
| Returns (a : A)
| Throws (s : signal).

Arguments Returns {A} a.
Arguments Throws {A} s.

(** A computation reads the trace so far and extends it. *)
Definition M (A : Type) : Type := list event -> outcome A * list event.

Definition ret {A} (a : A) : M A := fun t => (Returns a, t).

Definition bind {A B} (c : M A) (k : A -> M B) : M B :=
  fun t =>
    match c t with
    | (Returns a, t') => k a t'
    | (Throws s, t') => (Throws s, t')
    end.

Definition raise {A} (e : exn) : M A := fun t => (Throws (Exc e), t).

Definition exit {A} (code : Z) : M A := fun t => (Throws (SystemExit code), t).

(** A pure operation that may raise. *)
Definition lift {A} (r : result A) : M A :=
  match r with Ok a => ret a | Raise e => raise e end.

(** [try: body except Exception: handler].  What the body did before it
    raised stays done. *)
Definition try_except {A} (body handler : M A) : M A :=
  fun t =>
    match body t with
    | (Throws (Exc _), t') => handler t'
    | other => other
    end.

Definition emit (e : event) : M unit := fun t => (Returns tt, t ++ [e]).

Notation "x <- c ;; k" := (bind c (fun x => k))
  (at level 61, c at next level, right associativity).
Notation "c ;;; k" := (bind c (fun _ => k))
  (at level 61, right associativity).

(** The loop [for x in xs: acc = body(acc, x)]. *)
Fixpoint for_each {A S} (xs : list A) (body : S -> A -> M S) (acc : S) : M S :=
  match xs with
  | [] => ret acc
  | x :: rest => acc' <- body acc x ;; for_each rest body acc'
  end.

(* ================================================================== *)
(** * The outside world *)
(* ================================================================== *)

(** [requests.Response]: the status, the body, and what [r.json()] gives. *)
Record response : Type := {
  status_code : Z;
  text : string;
  json : result pyval
}.

(** Every reply may depend on all that happened before it. *)
Record world : Type := {
  (** [import googleapiclient.discovery] succeeded *)
  HAVE_YT : bool;
  (** [config.get("YOUTUBE_API_KEY", "")] *)
  YOUTUBE_API_KEY : option string;
  (** [requests.get(url, params=params, timeout=12)] *)
  requests_get : list event -> string -> list (string * pyval) -> result response;
  (** building the video API client and executing one search request *)
  youtube_execute : list event -> string -> Z -> string -> result pyval;
  (** [BeautifulSoup(html, "html.parser")], the top-level nodes of the tree
      it builds from markup it accepts *)
  html_parser : string -> list node;
  (** the exception [BeautifulSoup(html, "html.parser")] raises on markup it
      rejects, such as an unknown marked section *)
  parser_rejects : string -> option exn;
  (** [str(v)] for a value that is not a string *)
  py_repr : pyval -> string;
  (** the line [input(prompt)] reads *)
  stdin_line : list event -> result string
}.

Definition nl : string := String (ascii_of_nat 10) EmptyString.

Definition GOOGLE_BOOKS_BASE : string := "https://www.googleapis.com/books/v1/volumes".
Definition WIKIPEDIA_SEARCH_API : string := "https://en.wikipedia.org/w/api.php".
(** The template [".../page/html/{}"] applied to a slug. *)
Definition WIKIPEDIA_REST_PAGE (slug : string) : string :=
  ("https://en.wikipedia.org/api/rest_v1/page/html/" ++ slug)%string.
Arguments WIKIPEDIA_REST_PAGE : simpl never.

(** [r.raise_for_status()] *)
Definition raise_for_status (r : response) : M unit :=
  if (400 <=? status_code r) && (status_code r <? 600)
  then raise HTTPError else ret tt.

(* ================================================================== *)
(** * The records the module builds *)
(* ================================================================== *)

(** [{"title", "summary", "syllabus", "pattern", "other_sections"}] *)
Record wiki_info : Type := {
  wiki_title : pyval;
  wiki_summary : option string;
  wiki_syllabus : option string;
  wiki_pattern : option string;
  wiki_other_sections : dict string
}.

(** [{"title", "videoId", "url"}] *)
Record video : Type := {
  video_title : pyval;
  video_videoId : pyval;
  video_url : string
}.

(** [{"title", "playlistId", "url"}] *)
Record playlist : Type := {
  playlist_title : pyval;
  playlist_playlistId : pyval;
  playlist_url : string
}.

(** [{"title", "authors", "publisher", "infoLink"}] *)
Record book : Type := {
  book_title : pyval;
  book_authors : pyval;
  book_publisher : pyval;
  book_infoLink : pyval
}.

(** A registered archive page, [{"site", "exam", "link"}]. *)
Record archive : Type := {
  archive_site : string;
  archive_exam : string;
  archive_link : string
}.

(** A scraped paper link, [{"site", "exam", "title", "link"}]. *)
Record pyq : Type := {
  pyq_site : string;
  pyq_exam : string;
  pyq_title : string;
  pyq_link : string
}.

(** [{"query", "wikipedia", "videos", "playlist", "books", "free_pyqs"}] *)
Record exam_info : Type := {
  info_query : string;
  info_wikipedia : wiki_info;
  info_videos : list video;
  info_playlist : option playlist;
  info_books : list book;
  info_free_pyqs : list pyq
}.

(** Truth value of an [Optional[str]]. *)
Definition opt_truthy (o : option string) : bool :=
  match o with Some s => PyStr.truthy s | None => false end.

(** [a or b] on [Optional[str]] values. *)
Definition opt_or (a b : option string) : option string :=
  if opt_truthy a then a else b.

(* ================================================================== *)
(** * Wikipedia: section extraction (pure) *)
(* ================================================================== *)

(** [getattr(sib, "name", None) in ("p", "ul", "ol", "div")] *)
Definition is_content_tag (n : node) : bool :=
  match n with
  | NElem name _ _ =>
      existsb (String.eqb name) ["p"; "ul"; "ol"; "div"]
  | _ => false
  end.

(** The inner loop over [header.next_siblings]: stop at the next heading,
    keep the non-empty text of every p, ul, ol and div met before it. *)
Fixpoint content_parts (sibs : list node) : list string :=
  match sibs with
  | [] => []
  | sib :: rest =>
      if Soup.is_heading sib then []
      else
        let found :=
          if is_content_tag sib then
            let txt := PyStr.strip (Soup.get_text_sep sib) in
            if PyStr.truthy txt then [txt] else []
          else [] in
        found ++ content_parts rest
  end.

(** One turn of the loop over the headings. *)
Definition add_section (sections : dict string) (h : node * list node)
  : dict string :=
  let head_text := PyStr.strip (Soup.get_text_sep (fst h)) in
  let parts := content_parts (snd h) in
  match parts with
  | [] => sections
  | _ => PyDict.set (PyStr.lower head_text)
                    (PyStr.join (nl ++ nl)%string parts) sections
  end.

(** The mapping after the loop over the headings, before the summary
    fallback. *)
Definition heading_sections (soup : list node) : dict string :=
  fold_left add_section (Soup.headers soup) [].

(** [first_p.get_text(strip=True) if first_p else ""] *)
Definition lead_para (soup : list node) : string :=
  match Soup.find "p" soup with
  | Some first_p => Soup.get_text_strip first_p
  | None => ""
  end.

(** [extract_sections_from_wiki_html], from the parsed tree on. *)
Definition sections_of_soup (parsed : list node) : dict string :=
  let soup := Soup.remove_tables parsed in
  let sections := heading_sections soup in
  PyDict.setdefault "summary" (lead_para soup) sections.

Definition syllabus_keys : list string :=
  ["syllabus"; "curriculum"; "exam syllabus"; "syllabus and exam pattern";
   "syllabus and structure"].
Definition pattern_keys : list string :=
  ["exam pattern"; "pattern"; "format"; "structure"; "scheme"].
Definition syllabus_words : list string :=
  ["syllabus"; "curriculum"; "subjects"; "paper"; "exam"].
Definition pattern_words : list string :=
  ["pattern"; "structure"; "format"; "scheme"; "paper"].

(** [for k in keys: if k in sections: out[field] = sections[k]; break],
    starting from the value [current] of the field. *)
Fixpoint exact_match (keys : list string) (sections : dict string)
    (current : option string) : option string :=
  match keys with
  | [] => current
  | k :: rest =>
      if PyDict.mem k sections then PyDict.get k sections
      else exact_match rest sections current
  end.

(** [for secname, content in sections.items():
       if any(word in secname for word in words): out[field] = content; break] *)
Fixpoint substring_match (words : list string) (items : dict string)
    (current : option string) : option string :=
  match items with
  | [] => current
  | (secname, content) :: rest =>
      if PyStr.contains_any words secname then Some content
      else substring_match words rest current
  end.

(** Lines 95 to 119 of the module: the record built from the title and the
    section mapping. *)
Definition classify (title : pyval) (sections : dict string) : wiki_info :=
  let summary :=
    opt_or (opt_or (PyDict.get "summary" sections)
                   (PyDict.get "introduction" sections)) None in
  let syllabus := exact_match syllabus_keys sections None in
  let pattern := exact_match pattern_keys sections None in
  let syllabus :=
    if negb (opt_truthy syllabus)
    then substring_match syllabus_words sections syllabus else syllabus in
  let pattern :=
    if negb (opt_truthy pattern)
    then substring_match pattern_words sections pattern else pattern in
  {| wiki_title := title;
     wiki_summary := summary;
     wiki_syllabus := syllabus;
     wiki_pattern := pattern;
     wiki_other_sections := sections |}.

(** The initial [out] of [find_relevant_wiki_info]. *)
Definition empty_wiki_info : wiki_info :=
  {| wiki_title := PNone;
     wiki_summary := None;
     wiki_syllabus := None;
     wiki_pattern := None;
     wiki_other_sections := [] |}.

Definition with_title (title : pyval) (out : wiki_info) : wiki_info :=
  {| wiki_title := title;
     wiki_summary := wiki_summary out;
     wiki_syllabus := wiki_syllabus out;
     wiki_pattern := wiki_pattern out;
     wiki_other_sections := wiki_other_sections out |}.

(* ================================================================== *)
(** * The module's functions *)
(* ================================================================== *)

Section Program.

Variable w : world.

(** [requests.get(url, params=params, timeout=12)]: the request is logged,
    the world answers. *)
Definition http_get (url : string) (params : list (string * pyval))
  : M response :=
  fun t =>
    match requests_get w t url params with
    | Ok r => (Returns r, t ++ [HttpGet url params])
    | Raise e => (Throws (Exc e), t ++ [HttpGet url params])
    end.

(** Building the client and [request.execute()]. *)
Definition youtube_search (q : string) (max_results : Z) (kind : string)
  : M pyval :=
  fun t =>
    match youtube_execute w t q max_results kind with
    | Ok r => (Returns r, t ++ [YoutubeSearch q max_results kind])
    | Raise e => (Throws (Exc e), t ++ [YoutubeSearch q max_results kind])
    end.

(** [str(v)], as an f-string or [print] applies it. *)
Definition py_str (v : pyval) : string :=
  match v with PStr s => s | _ => py_repr w v end.

(** ** Wikipedia search and fetch *)

Definition wiki_search_title (query : string) : M pyval :=
  let params :=
    [("action", PStr "query"); ("list", PStr "search");
     ("srsearch", PStr query); ("format", PStr "json");
     ("srlimit", PInt 5)] in
  try_except
    (r <- http_get WIKIPEDIA_SEARCH_API params ;;
     raise_for_status r ;;;
     body <- lift (json r) ;;
     q <- lift (PyVal.get body "query" (PDict [])) ;;
     results <- lift (PyVal.get q "search" (PList [])) ;;
     if negb (PyVal.truthy results) then ret PNone
     else
       hit <- lift (PyVal.first results) ;;
       lift (PyVal.getitem hit "title"))
    (ret PNone).

Definition wiki_get_html (title : pyval) : M (option string) :=
  slug <- lift (PyVal.replace_space title) ;;
  let url := WIKIPEDIA_REST_PAGE slug in
  try_except
    (r <- http_get url [] ;;
     ret (if status_code r =? 200 then Some (text r) else None))
    (ret None).

(** [BeautifulSoup(html, "html.parser")] *)
Definition BeautifulSoup (html : string) : result (list node) :=
  match parser_rejects w html with
  | Some e => Raise e
  | None => Ok (html_parser w html)
  end.

(** The mapping [extract_sections_from_wiki_html(html)] returns on a body
    the parser accepts, built from the tree of the parser; the call of the
    function, which the parser can make raise, is [extract_sections]
    below. *)
Definition extract_sections_from_wiki_html (html : string) : dict string :=
  sections_of_soup (html_parser w html).

(** The call [extract_sections_from_wiki_html(html)]: the parser runs first
    and under no [try], so what it raises leaves the function. *)
Definition extract_sections (html : string) : M (dict string) :=
  soup <- lift (BeautifulSoup html) ;;
  ret (sections_of_soup soup).

Definition find_relevant_wiki_info (query : string) : M wiki_info :=
  let out := empty_wiki_info in
  first <- wiki_search_title (query ++ " exam")%string ;;
  title <- (if PyVal.truthy first then ret first
            else wiki_search_title query) ;;
  if PyVal.is_none title then ret out
  else
    let out := with_title title out in
    html <- wiki_get_html title ;;
    match html with
    | None => ret out
    | Some html =>
        sections <- extract_sections html ;;
        ret (classify title sections)
    end.

(** ** Videos and playlist *)

Definition no_youtube : bool :=
  negb (HAVE_YT w) || negb (opt_truthy (YOUTUBE_API_KEY w)).

(** The dict appended for one search item. *)
Definition video_of_item (item : pyval) : result video :=
  match PyVal.getitem item "snippet" with
  | Raise e => Raise e
  | Ok snippet =>
  match PyVal.getitem snippet "title" with
  | Raise e => Raise e
  | Ok title =>
  match PyVal.getitem item "id" with
  | Raise e => Raise e
  | Ok id =>
  match PyVal.getitem id "videoId" with
  | Raise e => Raise e
  | Ok videoId =>
      Ok {| video_title := title;
            video_videoId := videoId;
            video_url :=
              ("https://www.youtube.com/watch?v=" ++ py_str videoId)%string |}
  end end end end.

Definition search_youtube_videos (query : string) (max_results : Z)
  : M (list video) :=
  if no_youtube then ret []
  else
    try_except
      (resp <- youtube_search (query ++ " preparation")%string
                              max_results "video" ;;
       items <- lift (PyVal.get resp "items" (PList [])) ;;
       its <- lift (PyVal.iter items) ;;
       for_each its
         (fun videos item => v <- lift (video_of_item item) ;;
                             ret (videos ++ [v]))
         [])
      (ret []).

Definition playlist_of_item (item : pyval) : result playlist :=
  match PyVal.getitem item "id" with
  | Raise e => Raise e
  | Ok id =>
  match PyVal.getitem id "playlistId" with
  | Raise e => Raise e
  | Ok playlist_id =>
  match PyVal.getitem item "snippet" with
  | Raise e => Raise e
  | Ok snippet =>
  match PyVal.getitem snippet "title" with
  | Raise e => Raise e
  | Ok title =>
      Ok {| playlist_title := title;
            playlist_playlistId := playlist_id;
            playlist_url :=
              ("https://www.youtube.com/playlist?list="
               ++ py_str playlist_id)%string |}
  end end end end.

Definition search_youtube_playlist (query : string) : M (option playlist) :=
  if no_youtube then ret None
  else
    try_except
      (resp <- youtube_search (query ++ " preparation playlist")%string
                              1 "playlist" ;;
       items <- lift (PyVal.get resp "items" (PList [])) ;;
       if negb (PyVal.truthy items) then ret None
       else
         item <- lift (PyVal.first items) ;;
         p <- lift (playlist_of_item item) ;;
         ret (Some p))
      (ret None).

(** ** Books *)

Definition book_of_item (it : pyval) : result book :=
  match PyVal.get it "volumeInfo" (PDict []) with
  | Raise e => Raise e
  | Ok info =>
  match PyVal.get info "title" PNone with
  | Raise e => Raise e
  | Ok title =>
  match PyVal.get info "authors" PNone with
  | Raise e => Raise e
  | Ok authors =>
  match PyVal.get info "publisher" PNone with
  | Raise e => Raise e
  | Ok publisher =>
  match PyVal.get info "infoLink" PNone with
  | Raise e => Raise e
  | Ok infoLink =>
      Ok {| book_title := title;
            book_authors := authors;
            book_publisher := publisher;
            book_infoLink := infoLink |}
  end end end end end.

Definition search_google_books (query : string) (max_results : Z)
  : M (list book) :=
  try_except
    (let q := (query ++ " preparation OR " ++ query ++ " syllabus OR "
               ++ query ++ " guide")%string in
     let params := [("q", PStr q); ("maxResults", PInt max_results)] in
     r <- http_get GOOGLE_BOOKS_BASE params ;;
     raise_for_status r ;;;
     body <- lift (json r) ;;
     all <- lift (PyVal.get body "items" (PList [])) ;;
     items <- lift (PyVal.slice_to max_results all) ;;
     its <- lift (PyVal.iter items) ;;
     for_each its
       (fun out it => b <- lift (book_of_item it) ;; ret (out ++ [b]))
       [])
    (ret []).

(** ** Free PYQ links *)

Definition examsnet_base : string := "https://www.examsnet.com".
Definition selfstudys_base : string := "https://www.selfstudys.com".

Definition neet_url : string :=
  (examsnet_base
   ++ "/exams/neet-chapterwise-previous-question-papers-online")%string.
Definition jee_url : string :=
  (examsnet_base
   ++ "/exams/jee-mains-chapterwise-previous-year-questions-online")%string.
Definition neet_self : string :=
  (selfstudys_base
   ++ "/books/neet-previous-year-paper/page/year-wise")%string.
Definition jee_self : string :=
  (selfstudys_base
   ++ "/books/jee-main-previous-year-paper/page/year-wise")%string.

(** Lines 215 to 234: the list [links] of archive pages to visit. *)
Definition registered_links (exam_query : string) : list archive :=
  let exam_query_lower := PyStr.lower exam_query in
  let links := [] in
  let links :=
    if PyStr.contains "neet" exam_query_lower then
      links ++ [{| archive_site := "Examsnet"; archive_exam := "NEET";
                   archive_link := neet_url |}]
    else if PyStr.contains "jee" exam_query_lower then
      links ++ [{| archive_site := "Examsnet"; archive_exam := "JEE Mains";
                   archive_link := jee_url |}]
    else links in
  let links :=
    if PyStr.contains "neet" exam_query_lower then
      links ++ [{| archive_site := "Selfstudys"; archive_exam := "NEET";
                   archive_link := neet_self |}]
    else if PyStr.contains "jee" exam_query_lower then
      links ++ [{| archive_site := "Selfstudys"; archive_exam := "JEE Mains";
                   archive_link := jee_self |}]
    else links in
  links.

(** The test that keeps an anchor. *)
Definition keeps (href text : string) : bool :=
  PyStr.contains "pdf" (PyStr.lower href)
  || PyStr.contains "previous" (PyStr.lower text)
  || PyStr.contains "paper" (PyStr.lower text).

(** Lines 249 and 250: the link stored for a kept anchor. *)
Definition resolve_href (page href : string) : string :=
  if negb (PyStr.startswith href "http")
  then (PyStr.rstrip_slash page ++ "/" ++ PyStr.lstrip_slash href)%string
  else href.

(** One turn of the loop over the anchors of a page. *)
Definition scrape_anchor (item : archive) (scraped_links : list pyq)
    (a : node) : list pyq :=
  match Soup.attr "href" a with
  | None => scraped_links
  | Some href =>
      let text := Soup.get_text_strip a in
      if keeps href text then
        scraped_links ++
          [{| pyq_site := archive_site item;
              pyq_exam := archive_exam item;
              pyq_title := text;
              pyq_link := resolve_href (archive_link item) href |}]
      else scraped_links
  end.

(** One turn of the loop over [links]: a page that cannot be fetched is
    skipped. *)
Definition scrape_page (scraped_links : list pyq) (item : archive)
  : M (list pyq) :=
  try_except
    (r <- http_get (archive_link item) [] ;;
     raise_for_status r ;;;
     soup <- lift (BeautifulSoup (text r)) ;;
     ret (fold_left (scrape_anchor item) (Soup.find_all_a_href soup)
                    scraped_links))
    (ret scraped_links).

Definition fetch_free_pyqs_links (exam_query : string) : M (list pyq) :=
  let links := registered_links exam_query in
  scraped_links <- for_each links scrape_page [] ;;
  ret (firstn 5 scraped_links).

(** ** The aggregate *)

Definition fetch_exam_info_universal (exam_query : string)
    (include_videos include_books : bool) : M exam_info :=
  wikipedia <- find_relevant_wiki_info exam_query ;;
  videos <- (if include_videos then search_youtube_videos exam_query 6
             else ret []) ;;
  playlist <- (if include_videos then search_youtube_playlist exam_query
               else ret None) ;;
  books <- (if include_books then search_google_books exam_query 6
            else ret []) ;;
  free_pyqs <- (if include_books then fetch_free_pyqs_links exam_query
                else ret []) ;;
  ret {| info_query := exam_query;
         info_wikipedia := wikipedia;
         info_videos := videos;
         info_playlist := playlist;
         info_books := books;
         info_free_pyqs := free_pyqs |}.

End Program.

(* ================================================================== *)
(** * The command-line demonstration *)
(* ================================================================== *)

Section Cli.

Variable w : world.

(** [print(a, b, ...)]: the arguments joined by one space, on one line. *)
Definition py_print (args : list string) : M unit :=
  emit (Print (PyStr.join " " args)).

(** [input(prompt)] *)
Definition py_input (prompt : string) : M string :=
  fun t =>
    match stdin_line w t with
    | Ok s => (Returns s, t ++ [Input prompt])
    | Raise e => (Throws (Exc e), t ++ [Input prompt])
    end.

Fixpoint all_strs (items : list pyval) : result (list string) :=
  match items with
  | [] => Ok []
  | PStr s :: rest =>
      match all_strs rest with
      | Ok l => Ok (s :: l)
      | Raise e => Raise e
      end
  | _ :: _ => Raise TypeError
  end.

(** [sep.join(v)] *)
Definition str_join (sep : string) (v : pyval) : result string :=
  match PyVal.iter v with
  | Raise e => Raise e
  | Ok items =>
      match all_strs items with
      | Ok l => Ok (PyStr.join sep l)
      | Raise e => Raise e
      end
  end.

Definition BANNER : string :=
  "Universal Exam Info Fetcher (Wikipedia + YouTube + Google Books + Solved PYQs)".
Definition PROMPT : string :=
  "Enter exam name (e.g., NEET, JEE Main, CLAT, UPSC, CUET, SSC CGL): ".
Definition NO_QUERY : string := "No query entered. Exiting.".

Definition print_wikipedia (wi : wiki_info) : M unit :=
  (if PyVal.truthy (wiki_title wi)
   then py_print ["Wikipedia Page Title:"; py_str w (wiki_title wi)]
   else ret tt) ;;;
  (match wiki_summary wi with
   | Some s =>
       if PyStr.truthy s then
         py_print [(nl ++ "Summary (lead):" ++ nl)%string;
                   PyStr.take 1000 s;
                   if (1000 <? String.length s)%nat then "..." else ""]
       else ret tt
   | None => ret tt
   end) ;;;
  (match wiki_pattern wi with
   | Some s =>
       if PyStr.truthy s then
         py_print [(nl ++ "Exam Pattern / Format:" ++ nl)%string;
                   PyStr.take 1500 s]
       else ret tt
   | None => ret tt
   end) ;;;
  (match wiki_syllabus wi with
   | Some s =>
       if PyStr.truthy s then
         py_print [(nl ++ "Syllabus / Curriculum (excerpt):" ++ nl)%string;
                   PyStr.take 1500 s]
       else ret tt
   | None => ret tt
   end) ;;;
  (match wiki_other_sections wi with
   | [] => ret tt
   | sections =>
       py_print [(nl ++ "Other sections found on Wikipedia (headings):")%string] ;;;
       for_each (firstn 15 (PyDict.keys sections))
         (fun _ k => py_print [" -"; k]) tt
   end).

Definition print_book (b : book) : M unit :=
  let title := py_str w (book_title b) in
  authors <- lift (str_join ", "
                     (if PyVal.truthy (book_authors b) then book_authors b
                      else PList [])) ;;
  py_print [(" - " ++ title ++ " | " ++ authors ++ " - "
             ++ py_str w (book_infoLink b))%string].

Definition print_pyq (p : pyq) : M unit :=
  let title := if PyStr.truthy (pyq_title p) then pyq_title p
               else pyq_exam p in
  py_print [(" - " ++ title ++ " | " ++ pyq_site p ++ ": "
             ++ pyq_link p)%string].

Definition print_report (info : exam_info) : M unit :=
  py_print [(nl ++ "=== Result Summary ===" ++ nl)%string] ;;;
  py_print ["Query:"; info_query info] ;;;
  print_wikipedia (info_wikipedia info) ;;;
  (match info_videos info with
   | [] => py_print [(nl ++ "YouTube results not available (no API key or google client).")%string]
   | videos =>
       py_print [(nl ++ "Suggested Videos:")%string] ;;;
       for_each videos
         (fun _ v => py_print [(" - " ++ py_str w (video_title v) ++ "  ("
                                ++ video_url v ++ ")")%string]) tt
   end) ;;;
  (match info_playlist info with
   | Some p =>
       py_print [(nl ++ "Suggested YouTube Playlist:" ++ nl ++ " - "
                  ++ py_str w (playlist_title p) ++ " ("
                  ++ playlist_url p ++ ")")%string]
   | None =>
       py_print [(nl ++ "YouTube playlist not available (no API key, google client, or no results).")%string]
   end) ;;;
  (match info_books info with
   | [] => py_print [(nl ++ "No book suggestions found.")%string]
   | books =>
       py_print [(nl ++ "Suggested Books:")%string] ;;;
       for_each books (fun _ b => print_book b) tt
   end) ;;;
  (match info_free_pyqs info with
   | [] => py_print [(nl ++ "No free PYQs links found.")%string]
   | pyqs =>
       py_print [(nl ++ "Free Solved PYQs Links (Examsnet / Selfstudys):")%string] ;;;
       for_each pyqs (fun _ p => print_pyq p) tt
   end) ;;;
  py_print [(nl ++ "--- End ---" ++ nl)%string].

(** The body under [if __name__ == "__main__":]. *)
Definition main : M unit :=
  py_print [BANNER] ;;;
  line <- py_input PROMPT ;;
  let q := PyStr.strip line in
  (if negb (PyStr.truthy q)
   then py_print [NO_QUERY] ;;; exit 0
   else ret tt) ;;;
  info <- fetch_exam_info_universal w q true true ;;
  print_report info.

End Cli.

(* ================================================================== *)
(** * Vocabulary of the statements, sample pages and sample worlds *)
(* ================================================================== *)

(** [runs c E Q x]: from any trace, [c] only appends events that satisfy
    [E]; a value it returns satisfies [Q]; it never exits the interpreter;
    and it raises an exception only if [x] is [true]. *)
Definition runs {A} (c : M A) (E : event -> Prop) (Q : A -> Prop) (x : bool)
  : Prop :=
  forall t, exists added,
    snd (c t) = t ++ added /\ Forall E added /\
    match fst (c t) with
    | Returns a => Q a
    | Throws (Exc _) => x = true
    | Throws (SystemExit _) => False
    end.

(** The key a heading is filed under. *)
Definition heading_key (h : node * list node) : string :=
  PyStr.lower (PyStr.strip (Soup.get_text_sep (fst h))).

(** The two tiers of the classifier for one field: the exact labels first,
    the substring scan only when they set nothing true. *)
Definition two_tier (keys words : list string) (sections : dict string)
  : option string :=
  let found := exact_match keys sections None in
  if negb (opt_truthy found) then substring_match words sections found
  else found.

(** Every external call fails and no credential is configured. *)
Definition offline_world : world :=
  {| HAVE_YT := false;
     YOUTUBE_API_KEY := Some "";
     requests_get := fun _ _ _ => Raise RequestException;
     youtube_execute := fun _ _ _ _ => Raise (OtherException "HttpError");
     html_parser := fun _ => [];
     parser_rejects := fun _ => None;
     py_repr := fun _ => "";
     stdin_line := fun _ => Ok "" |}.

(** The search endpoint's reply with one hit. *)
Definition search_reply (title : pyval) : response :=
  {| status_code := 200;
     text := "";
     json := Ok (PDict [("query",
                  PDict [("search", PList [PDict [("title", title)]])])]) |}.

Definition page_reply (html : string) : response :=
  {| status_code := 200; text := html; json := Raise ValueError |}.

(** Wikipedia answers: the search finds one hit titled [title] and the page
    parses to [page]; every other source is down. *)
Definition wiki_world (title : pyval) (page : list node) : world :=
  {| HAVE_YT := false;
     YOUTUBE_API_KEY := Some "";
     requests_get := fun _ url _ =>
       if String.eqb url WIKIPEDIA_SEARCH_API then Ok (search_reply title)
       else if PyStr.startswith url "https://en.wikipedia.org/api/rest_v1/page/html/"
            then Ok (page_reply "<html>")
            else Raise RequestException;
     youtube_execute := fun _ _ _ _ => Raise (OtherException "HttpError");
     html_parser := fun _ => page;
     parser_rejects := fun _ => None;
     py_repr := fun _ => "";
     stdin_line := fun _ => Ok "" |}.

(** A page with an "Exam pattern" heading and a later heading whose name
    contains "format". *)
Definition pattern_page : list node :=
  [NElem "body" []
     [NElem "p" [] [NText "An entrance examination."];
      NElem "h2" [] [NText "Format of paper"];
      NElem "p" [] [NText "Offline."];
      NElem "h2" [] [NText "Exam pattern"];
      NElem "p" [] [NText "Three papers."];
      NElem "h2" [] [NText "Syllabus"];
      NElem "ul" [] [NElem "li" [] [NText "Physics"]]]].

(** A page whose only heading has no text after it, and which has no
    paragraph: the heading is left out and "summary" maps to the empty
    text. *)
Definition bare_page : list node :=
  [NElem "body" [] [NElem "h1" [] [NText "Notes"]; NText "loose text"]].

(** No heading of the document is filed under [name]. *)
Definition no_heading_named (name : string) (soup : list node) : Prop :=
  forall h, In h (Soup.headers soup) -> heading_key h <> name.

(** A page whose first paragraph is empty and whose second carries the
    lead text. *)
Definition empty_lead_page : list node :=
  [NElem "body" []
     [NElem "p" [("class", "mw-empty-elt")] [];
      NElem "p" [] [NText "The examination is held once a year."];
      NElem "h2" [] [NText "History"];
      NElem "p" [] [NText "First held in 2013."]]].

(** The claim as the spec words it: the summary field is the text of the
    first paragraph. *)
Definition summary_is_first_paragraph (out : wiki_info) (soup : list node)
  : Prop :=
  wiki_summary out = Some (lead_para soup).

(** The entry built for an anchor. *)
Definition entry_of (item : archive) (href text : string) : pyq :=
  {| pyq_site := archive_site item;
     pyq_exam := archive_exam item;
     pyq_title := text;
     pyq_link := resolve_href (archive_link item) href |}.

(** The anchors of a page that pass the test, in document order, as
    entries. *)
Definition kept_entries (item : archive) (soup : list node) : list pyq :=
  flat_map
    (fun a =>
       match Soup.attr "href" a with
       | Some href =>
           if keeps href (Soup.get_text_strip a)
           then [entry_of item href (Soup.get_text_strip a)] else []
       | None => []
       end)
    (Soup.find_all_a_href soup).

(** What a registered page contributes when it is requested at trace [t]:
    nothing when the request fails, the status is an error or the parser
    rejects the body. *)
Definition page_entries (w : world) (t : list event) (item : archive)
  : list pyq :=
  match requests_get w t (archive_link item) [] with
  | Ok r =>
      if (400 <=? status_code r) && (status_code r <? 600) then []
      else
        match parser_rejects w (text r) with
        | Some _ => []
        | None => kept_entries item (html_parser w (text r))
        end
  | Raise _ => []
  end.

(** All matching anchors in scrape order: page after page in the order the
    pages were registered, and within a page in document order. *)
Fixpoint all_matches (w : world) (t : list event) (links : list archive)
  : list pyq :=
  match links with
  | [] => []
  | item :: rest =>
      page_entries w t item
      ++ all_matches w (t ++ [HttpGet (archive_link item) []]) rest
  end.

Definition visits (links : list archive) : list event :=
  map (fun item => HttpGet (archive_link item) []) links.

Definition examsnet_neet : archive :=
  {| archive_site := "Examsnet"; archive_exam := "NEET";
     archive_link := neet_url |}.




Definition REST_PREFIX : string :=
  "https://en.wikipedia.org/api/rest_v1/page/html/".

(** Requests to the encyclopedia: the search endpoint or a page. *)
Definition is_wiki_event (e : event) : Prop :=
  match e with
  | HttpGet url _ =>
      url = WIKIPEDIA_SEARCH_API \/ PyStr.startswith url REST_PREFIX = true
  | _ => False
  end.

Definition is_youtube_event (e : event) : Prop :=
  match e with YoutubeSearch _ _ _ => True | _ => False end.

Definition is_books_event (e : event) : Prop :=
  match e with HttpGet url _ => url = GOOGLE_BOOKS_BASE | _ => False end.

Definition is_archive_event (e : event) : Prop :=
  match e with
  | HttpGet url _ => In url [neet_url; jee_url; neet_self; jee_self]
  | _ => False
  end.

(** [wiki_search_title] has its annotated return type: a string or None. *)
Definition search_returns_optional_str (w : world) : Prop :=
  forall query t,
    match fst (wiki_search_title w query t) with
    | Returns v => PyVal.is_str_or_none v = true
    | Throws _ => True
    end.

(** The parser accepts every body it is given. *)
Definition parser_accepts (w : world) : Prop :=
  forall html, parser_rejects w html = None.

(** The parameters of the search request. *)
Definition search_params (query : string) : list (string * pyval) :=
  [("action", PStr "query"); ("list", PStr "search");
   ("srsearch", PStr query); ("format", PStr "json"); ("srlimit", PInt 5)].

(** [starts_with ev c]: the first thing [c] does is [ev]. *)
Definition starts_with {A} (ev : event) (c : M A) : Prop :=
  forall t, exists rest, snd (c t) = t ++ ev :: rest.

Definition any_event (e : event) : Prop := True.

(** The events the aggregate may produce under given flags. *)
Definition allowed (include_videos include_books : bool) (e : event) : Prop :=
  is_wiki_event e \/
  (include_videos = true /\ is_youtube_event e) \/
  (include_books = true /\ (is_books_event e \/ is_archive_event e)).

(** One item of a video or playlist search reply. *)
Definition video_item : pyval :=
  PDict [("id", PDict [("videoId", PStr "v1"); ("playlistId", PStr "p1")]);
         ("snippet", PDict [("title", PStr "Crash course")])].

(** Every source answers: one video, one playlist, one book, and pages with
    one paragraph and one matching anchor each. *)
Definition online_world : world :=
  {| HAVE_YT := true;
     YOUTUBE_API_KEY := Some "key";
     requests_get := fun _ url _ =>
       if String.eqb url WIKIPEDIA_SEARCH_API then Ok (search_reply (PStr "NEET"))
       else if String.eqb url GOOGLE_BOOKS_BASE then
         Ok {| status_code := 200; text := "";
               json := Ok (PDict [("items",
                         PList [PDict [("volumeInfo",
                                  PDict [("title", PStr "Guide")])]])]) |}
       else Ok (page_reply "<html>");
     youtube_execute := fun _ _ _ _ =>
       Ok (PDict [("items", PList [video_item])]);
     html_parser := fun _ =>
       [NElem "body" []
          [NElem "p" [] [NText "An entrance examination."];
           NElem "a" [("href", "/papers/2023.pdf")] [NText "2023 paper"]]];
     parser_rejects := fun _ => None;
     py_repr := fun _ => "";
     stdin_line := fun _ => Ok "NEET" |}.

(** A request failed: the transport raised (connection error, timeout), or
    the reply has an error status. *)
Definition failed (r : result response) : bool :=
  match r with
  | Raise _ => true
  | Ok resp => (400 <=? status_code resp) && (status_code resp <? 600)
  end.

Definition not_ok (r : result response) : bool :=
  match r with
  | Raise _ => true
  | Ok resp => negb (status_code resp =? 200)
  end.

Definition wiki_search_down (w : world) : Prop :=
  forall t params, failed (requests_get w t WIKIPEDIA_SEARCH_API params) = true.

Definition wiki_page_down (w : world) : Prop :=
  forall t slug, not_ok (requests_get w t (WIKIPEDIA_REST_PAGE slug) []) = true.

(** No credential or no client, or every call to the video API raises. *)
Definition youtube_down (w : world) : Prop :=
  no_youtube w = true \/
  forall t q n kind, exists e, youtube_execute w t q n kind = Raise e.

Definition books_down (w : world) : Prop :=
  forall t params, failed (requests_get w t GOOGLE_BOOKS_BASE params) = true.

Definition archives_down (w : world) (exam_query : string) : Prop :=
  forall t item,
    In item (registered_links exam_query) ->
    failed (requests_get w t (archive_link item) []) = true.

(** The wiki record whose page could not be read: only the title is set. *)
Definition page_absent (out : wiki_info) : Prop :=
  wiki_summary out = None /\ wiki_syllabus out = None /\
  wiki_pattern out = None /\ wiki_other_sections out = [].

(** The claim as the spec words it, at one input: the call returns a
    record and no exception escapes. *)
Definition no_exception_escapes (w : world) (exam_query : string)
    (include_videos include_books : bool) (t : list event) : Prop :=
  exists info t',
    fetch_exam_info_universal w exam_query include_videos include_books t
    = (Returns info, t').

(** The search endpoint answers with a hit whose title is the number 5. *)
Definition numeric_title_world : world := wiki_world (PInt 5) [].

(** A body holding a marked section of an unknown kind, and what the parser
    raises on it. *)
Definition REJECTED_MARKUP : string := "<![foo[ x ]]>".
Definition ParserRejectedMarkup : exn := OtherException "ParserRejectedMarkup".

(** The search names the page "NEET", and every page, of Wikipedia and of
    the archives, is served with status 200 and the body [REJECTED_MARKUP],
    which the parser rejects; no credential is configured. *)
Definition rejected_markup_world : world :=
  {| HAVE_YT := false;
     YOUTUBE_API_KEY := Some "";
     requests_get := fun _ url _ =>
       if String.eqb url WIKIPEDIA_SEARCH_API
       then Ok (search_reply (PStr "NEET"))
       else Ok (page_reply REJECTED_MARKUP);
     youtube_execute := fun _ _ _ _ => Raise (OtherException "HttpError");
     html_parser := fun _ => [];
     parser_rejects := fun html =>
       if String.eqb html REJECTED_MARKUP then Some ParserRejectedMarkup
       else None;
     py_repr := fun _ => "";
     stdin_line := fun _ => Ok "NEET" |}.

(** The claim as the spec words it: after the prompt nothing is printed. *)
Definition silent_after_prompt (trace : list event) : Prop :=
  forall before after,
    trace = before ++ Input PROMPT :: after ->
    Forall (fun e => match e with Print _ => False | _ => True end) after.

(** The user types three spaces. *)
Definition spaces_world : world :=
  {| HAVE_YT := HAVE_YT online_world;
     YOUTUBE_API_KEY := YOUTUBE_API_KEY online_world;
     requests_get := requests_get online_world;
     youtube_execute := youtube_execute online_world;
     html_parser := html_parser online_world;
     parser_rejects := parser_rejects online_world;
     py_repr := py_repr online_world;
     stdin_line := fun _ => Ok "   " |}.

(** Archive pages with four matching anchors and one that does not
    match. *)
Definition crowded_page : list node :=
  [NElem "body" []
     [NElem "a" [("href", "/a.pdf")] [NText "A"];
      NElem "a" [("href", "/about")] [NText "About us"];
      NElem "div" []
        [NElem "a" [("href", "https://cdn.example/b")] [NText "Previous years"];
         NElem "a" [("href", "c")] [NText " Question Paper 2022 "]];
      NElem "a" [("href", "d.PDF")] []]].

Definition crowded_world : world :=
  {| HAVE_YT := false;
     YOUTUBE_API_KEY := None;
     requests_get := fun _ _ _ => Ok (page_reply "<html>");
     youtube_execute := fun _ _ _ _ => Raise (OtherException "HttpError");
     html_parser := fun _ => crowded_page;
     parser_rejects := fun _ => None;
     py_repr := fun _ => "";
     stdin_line := fun _ => Ok "" |}.


(* ================================================================== *)
(** * Vocabulary of the further properties *)
(* ================================================================== *)

(** Induction over a parsed tree: the children of an element are covered
    by the induction hypothesis. *)
Section NodeInduction.
Variable P : node -> Prop.
Hypothesis Htext : forall s, P (NText s).
Hypothesis Hhidden : forall s, P (NHidden s).
Hypothesis Helem : forall name attrs children,
    Forall P children -> P (NElem name attrs children).

Fixpoint node_induction (n : node) : P n :=
  match n with
  | NText s => Htext s
  | NHidden s => Hhidden s
  | NElem name attrs children =>
      Helem name attrs
        ((fix all (l : list node) : Forall P l :=
            match l with
            | [] => Forall_nil P
            | c :: cs => Forall_cons c (node_induction c) (all cs)
            end) children)
  end.
End NodeInduction.

(** The request [wiki_search_title] sends, and the one [wiki_get_html]
    sends. *)
Definition search_event (query : string) : event :=
  HttpGet WIKIPEDIA_SEARCH_API (search_params query).
Definition page_event (slug : string) : event :=
  HttpGet (WIKIPEDIA_REST_PAGE slug) [].

(** A loop that appends [f item] for every item, as one pure function: the
    first item on which [f] raises ends it. *)
Fixpoint traverse {A B} (f : A -> result B) (xs : list A) : result (list B) :=
  match xs with
  | [] => Ok []
  | x :: rest =>
      match f x with
      | Raise e => Raise e
      | Ok b =>
          match traverse f rest with
          | Raise e => Raise e
          | Ok bs => Ok (b :: bs)
          end
      end
  end.

(** The distinct members of a list, each at the place of its first
    occurrence. *)
Definition first_occurrences (l : list string) : list string :=
  fold_left (fun acc k => if existsb (String.eqb k) acc then acc else acc ++ [k])
            l [].

(** The headings that have text after them. *)
Definition has_content (h : node * list node) : bool :=
  match content_parts (snd h) with [] => false | _ => true end.

(** The text filed for a heading. *)
Definition heading_text (h : node * list node) : string :=
  PyStr.join (nl ++ nl)%string (content_parts (snd h)).

(** An optional text field is absent or holds a non-empty string. *)
Definition text_field_ok (o : option string) : Prop :=
  o = None \/ exists s, o = Some s /\ s <> "".

(** [s.endswith("/")] *)
Definition ends_with_slash (s : string) : bool :=
  PyStr.startswith (PyStr.rev s) "/".

(** A trace made of consecutive phases, each with its own kind of event. *)
Fixpoint in_phases (phases : list (event -> Prop)) (added : list event)
  : Prop :=
  match phases with
  | [] => added = []
  | E :: rest =>
      exists now later,
        added = now ++ later /\ Forall E now /\ in_phases rest later
  end.

(** What [wiki_search_title] makes of the reply to its request. *)
Definition title_of_reply (reply : result response) : pyval :=
  match reply with
  | Raise _ => PNone
  | Ok r =>
      if failed reply then PNone
      else
        match json r with
        | Raise _ => PNone
        | Ok body =>
        match PyVal.get body "query" (PDict []) with
        | Raise _ => PNone
        | Ok q =>
        match PyVal.get q "search" (PList []) with
        | Raise _ => PNone
        | Ok results =>
            if negb (PyVal.truthy results) then PNone
            else
              match PyVal.first results with
              | Raise _ => PNone
              | Ok hit =>
                  match PyVal.getitem hit "title" with
                  | Raise _ => PNone
                  | Ok title => title
                  end
              end
        end end end
  end.

(** What [wiki_get_html] makes of the reply to its request. *)
Definition html_of_reply (reply : result response) : option string :=
  match reply with
  | Raise _ => None
  | Ok r => if status_code r =? 200 then Some (text r) else None
  end.

(** A page on which the name "Eligibility" heads three sections, the last
    of them without text. *)
Definition repeated_page : list node :=
  [NElem "body" []
     [NElem "h2" [] [NText "Eligibility"];
      NElem "p" [] [NText "Old rules."];
      NElem "h2" [] [NText "Pattern"];
      NElem "p" [] [NText "Three papers."];
      NElem "h2" [] [NText " ELIGIBILITY "];
      NElem "p" [] [NText "New rules."];
      NElem "h3" [] [NText "Eligibility"];
      NText "not collected"]].

(** The title [find_relevant_wiki_info] settles on from trace [t], and the
    trace once it has: the search for the query followed by " exam", then,
    only if that gave nothing, the search for the bare query. *)
Definition resolved_title (w : world) (query : string) (t : list event)
  : pyval * list event :=
  let q1 := (query ++ " exam")%string in
  let first :=
    title_of_reply (requests_get w t WIKIPEDIA_SEARCH_API (search_params q1)) in
  let t1 := t ++ [search_event q1] in
  if PyVal.truthy first then (first, t1)
  else
    (title_of_reply
       (requests_get w t1 WIKIPEDIA_SEARCH_API (search_params query)),
     t1 ++ [search_event query]).

(** What [search_youtube_videos] makes of the reply of the video API: all
    the items, or nothing. *)
Definition videos_of_reply (w : world) (reply : result pyval) : list video :=
  match reply with
  | Raise _ => []
  | Ok resp =>
      match PyVal.get resp "items" (PList []) with
      | Raise _ => []
      | Ok items =>
          match PyVal.iter items with
          | Raise _ => []
          | Ok its =>
              match traverse (video_of_item w) its with
              | Ok videos => videos
              | Raise _ => []
              end
          end
      end
  end.

(** What [search_youtube_playlist] makes of the reply of the video API. *)
Definition playlist_of_reply (w : world) (reply : result pyval)
  : option playlist :=
  match reply with
  | Raise _ => None
  | Ok resp =>
      match PyVal.get resp "items" (PList []) with
      | Raise _ => None
      | Ok items =>
          if negb (PyVal.truthy items) then None
          else
            match PyVal.first items with
            | Raise _ => None
            | Ok item =>
                match playlist_of_item w item with
                | Ok p => Some p
                | Raise _ => None
                end
            end
      end
  end.

(** What [search_google_books] makes of the reply to its request. *)
Definition books_of_reply (max_results : Z) (reply : result response)
  : list book :=
  match reply with
  | Raise _ => []
  | Ok r =>
      if failed reply then []
      else
        match json r with
        | Raise _ => []
        | Ok body =>
        match PyVal.get body "items" (PList []) with
        | Raise _ => []
        | Ok all =>
        match PyVal.slice_to max_results all with
        | Raise _ => []
        | Ok items =>
        match PyVal.iter items with
        | Raise _ => []
        | Ok its =>
            match traverse book_of_item its with
            | Ok books => books
            | Raise _ => []
            end
        end end end end
  end.

(** The parameters of the books request. *)
Definition books_params (query : string) (max_results : Z)
  : list (string * pyval) :=
  [("q", PStr (query ++ " preparation OR " ++ query ++ " syllabus OR "
               ++ query ++ " guide")%string);
   ("maxResults", PInt max_results)].

(** The book made from an item that has no "volumeInfo". *)
Definition unknown_book : book :=
  {| book_title := PNone; book_authors := PNone;
     book_publisher := PNone; book_infoLink := PNone |}.

(** The video API answers with two items, the second without an id. *)
Definition broken_item_world : world :=
  {| HAVE_YT := true;
     YOUTUBE_API_KEY := Some "key";
     requests_get := fun _ _ _ =>
       Ok {| status_code := 200; text := "";
             json := Ok (PDict [("items",
                       PList [PDict [("volumeInfo", PDict [("title", PStr "A")])];
                              PDict [];
                              PDict [("volumeInfo", PStr "oops")]])]) |};
     youtube_execute := fun _ _ _ _ =>
       Ok (PDict [("items",
             PList [video_item;
                    PDict [("snippet", PDict [("title", PStr "No id")])]])]);
     html_parser := fun _ => [];
     parser_rejects := fun _ => None;
     py_repr := fun _ => "";
     stdin_line := fun _ => Ok "NEET" |}.

(** From any trace, what [c] appends falls into the given phases. *)
Definition phased {A} (c : M A) (phases : list (event -> Prop)) : Prop :=
  forall t, exists added, snd (c t) = t ++ added /\ in_phases phases added.

(** When [c] returns, the last thing it did is [ev]. *)
Definition ends_with {A} (ev : event) (c : M A) : Prop :=
  forall t a,
    fst (c t) = Returns a -> exists before, snd (c t) = t ++ before ++ [ev].

(** The last line of the report. *)
Definition END_LINE : string := (nl ++ "--- End ---" ++ nl)%string.

(** The authors of a book can be joined for the report: nothing, a list of
    strings, or anything else [", ".join] accepts. *)
Definition authors_joinable (b : book) : bool :=
  match str_join ", " (if PyVal.truthy (book_authors b) then book_authors b
                       else PList []) with
  | Ok _ => true
  | Raise _ => false
  end.

(** A record with one book whose authors field is a number. *)
Definition numeric_authors_info : exam_info :=
  {| info_query := "NEET";
     info_wikipedia := empty_wiki_info;
     info_videos := [];
     info_playlist := None;
     info_books := [{| book_title := PStr "Guide"; book_authors := PInt 3;
                       book_publisher := PNone; book_infoLink := PNone |}];
     info_free_pyqs := [] |}.

(** The user types the exam name with blanks around it. *)
Definition padded_world : world :=
  {| HAVE_YT := HAVE_YT online_world;
     YOUTUBE_API_KEY := YOUTUBE_API_KEY online_world;
     requests_get := requests_get online_world;
     youtube_execute := youtube_execute online_world;
     html_parser := html_parser online_world;
     parser_rejects := parser_rejects online_world;
     py_repr := py_repr online_world;
     stdin_line := fun _ => Ok "  JEE Main  " |}.

(** The first character of a string satisfies [p]. *)
Definition head_sat (p : ascii -> bool) (s : string) : bool :=
  match s with
  | EmptyString => false
  | String c _ => p c
  end.

(** A key as the section mapping files it: lowercase, with no whitespace at
    either end. *)
Definition normalized_key (k : string) : Prop :=
  PyStr.lower k = k /\
  head_sat PyStr.is_space k = false /\
  head_sat PyStr.is_space (PyStr.rev k) = false.

(** From any trace, [c] appends at most [n] events. *)
Definition at_most {A} (n : nat) (c : M A) : Prop :=
  forall t, exists added,
    snd (c t) = t ++ added /\ (List.length added <= n)%nat.

(** A page with a lead paragraph and an "Introduction" section. *)
Definition introduction_page : list node :=
  [NElem "body" []
     [NElem "p" [] [NText "Lead paragraph."];
      NElem "h2" [] [NText "Introduction"];
      NElem "p" [] [NText "Introductory section."]]].

(** The same page with a blank lead paragraph. *)
Definition introduction_only_page : list node :=
  [NElem "body" []
     [NElem "p" [] [NText "  "];
      NElem "h2" [] [NText "Introduction"];
      NElem "p" [] [NText "Introductory section."]]].

(* ================================================================== *)
(** * Vocabulary for the links of the scraper *)
(* ================================================================== *)

(** An absolute http or https URL: the scheme followed by "://". *)
Definition is_absolute_url (s : string) : bool :=
  PyStr.startswith s "http://" || PyStr.startswith s "https://".

(** The claim as the spec words it: no returned link is relative. *)
Definition no_relative_link (l : list pyq) : Prop :=
  Forall (fun e => is_absolute_url (pyq_link e) = true) l.

(** An anchor whose href starts with "http" and is a file name. *)
Definition hyphen_anchor : node :=
  NElem "a" [("href", "https-2023.pdf")] [NText "2023 paper"].

(** Every archive page is served and holds that one anchor. *)
Definition hyphen_world : world :=
  {| HAVE_YT := false;
     YOUTUBE_API_KEY := None;
     requests_get := fun _ _ _ => Ok (page_reply "<a>");
     youtube_execute := fun _ _ _ _ => Raise (OtherException "HttpError");
     html_parser := fun _ => [NElem "body" [] [hyphen_anchor]];
     parser_rejects := fun _ => None;
     py_repr := fun _ => "";
     stdin_line := fun _ => Ok "" |}.

(** ** Resolution of a relative reference against a base URL

    The reading of "resolved against the page URL" of RFC 3986, section
    5.2, as [urllib.parse.urljoin] computes it, for a base of the form
    scheme://authority/path without query or fragment and a reference that
    has no scheme, query, fragment or dot segment. *)









(* ================================================================== *)
(** * A small program logic for [M] *)
(* ================================================================== *)

Section Logic.

Variables (A B : Type) (E : event -> Prop).

Lemma runs_ret (a : A) (Q : A -> Prop) x : Q a -> runs (ret a) E Q x.
Proof.
  intros Ha t. exists []. cbn. rewrite app_nil_r. auto.
Qed.

Lemma runs_raise (e : exn) (Q : A -> Prop) : runs (raise e) E Q true.
Proof.
  intros t. exists []. cbn. rewrite app_nil_r. auto.
Qed.

Lemma runs_bind_raise (e : exn) (k : A -> M B) (Q : B -> Prop) :
  runs (bind (raise e) k) E Q true.
Proof.
  intros t. exists []. cbn. rewrite app_nil_r. auto.
Qed.

Lemma runs_lift (r : result A) (Q : A -> Prop) :
  (forall a, r = Ok a -> Q a) -> runs (lift r) E Q true.
Proof.
  intros H. destruct r; cbn [lift].
  - apply runs_ret; auto.
  - apply runs_raise.
Qed.

Lemma runs_bind (c : M A) (k : A -> M B) (Q1 : A -> Prop) (Q2 : B -> Prop) x :
  runs c E Q1 x -> (forall a, Q1 a -> runs (k a) E Q2 x) ->
  runs (bind c k) E Q2 x.
Proof.
  intros Hc Hk t. unfold bind.
  destruct (Hc t) as (a1 & Ht & Hev & Hres).
  destruct (c t) as [[a | s] t1]; cbn in *; subst t1.
  - destruct (Hk a Hres (t ++ a1)) as (a2 & Ht2 & Hev2 & Hres2).
    exists (a1 ++ a2). rewrite Ht2, app_assoc. split; [reflexivity|].
    split; [apply Forall_app; auto | exact Hres2].
  - exists a1. auto.
Qed.

Lemma runs_try (body handler : M A) (Q : A -> Prop) x :
  runs body E Q true -> runs handler E Q x ->
  runs (try_except body handler) E Q x.
Proof.
  intros Hb Hh t. unfold try_except.
  destruct (Hb t) as (a1 & Ht & Hev & Hres).
  destruct (body t) as [[a | [e | code]] t1]; cbn in *; subst t1.
  - exists a1. auto.
  - destruct (Hh (t ++ a1)) as (a2 & Ht2 & Hev2 & Hres2).
    exists (a1 ++ a2). rewrite Ht2, app_assoc. split; [reflexivity|].
    split; [apply Forall_app; auto | exact Hres2].
  - contradiction.
Qed.

Lemma runs_weaken (c : M A) (E' : event -> Prop) (Q Q' : A -> Prop) x :
  runs c E' Q x -> (forall e, E' e -> E e) -> (forall a, Q a -> Q' a) ->
  runs c E Q' true.
Proof.
  intros Hc HE HQ t. destruct (Hc t) as (a1 & Ht & Hev & Hres).
  exists a1. split; [exact Ht|]. split.
  - eapply Forall_impl; eauto.
  - destruct (fst (c t)) as [a | [e | code]]; auto.
Qed.

Lemma runs_post (c : M A) (E' : event -> Prop) (Q Q' : A -> Prop) x :
  runs c E' Q x -> (forall e, E' e -> E e) -> (forall a, Q a -> Q' a) ->
  runs c E Q' x.
Proof.
  intros Hc HE HQ t. destruct (Hc t) as (a1 & Ht & Hev & Hres).
  exists a1. split; [exact Ht|]. split.
  - eapply Forall_impl; eauto.
  - destruct (fst (c t)) as [a | [e | code]]; auto.
Qed.

End Logic.

Lemma runs_for_each (A S : Type) (E : event -> Prop) (xs : list A)
    (body : S -> A -> M S) (Inv : S -> Prop) x :
  (forall acc a, Inv acc -> runs (body acc a) E Inv x) ->
  forall acc, Inv acc -> runs (for_each xs body acc) E Inv x.
Proof.
  intros Hbody. induction xs as [| a rest IH]; intros acc Hacc;
    cbn [for_each].
  - apply runs_ret; exact Hacc.
  - eapply runs_bind; [apply Hbody; exact Hacc | exact IH].
Qed.

(** A computation that [runs] without permission to raise returns. *)
Lemma runs_returns {A} (c : M A) E Q :
  runs c E Q false ->
  forall t, exists a added,
    c t = (Returns a, t ++ added) /\ Forall E added /\ Q a.
Proof.
  intros H t. destruct (H t) as (added & Ht & Hev & Hres).
  destruct (c t) as [[a | [e | code]] t1]; cbn in *.
  - exists a, added. subst. auto.
  - discriminate.
  - contradiction.
Qed.

Section LogicWorld.

Variables (w : world) (E : event -> Prop).

Lemma runs_http_get url params :
  E (HttpGet url params) ->
  runs (http_get w url params) E (fun _ => True) true.
Proof.
  intros He t. exists [HttpGet url params]. unfold http_get.
  destruct (requests_get w t url params); cbn; auto.
Qed.

Lemma runs_youtube_search q n kind :
  E (YoutubeSearch q n kind) ->
  runs (youtube_search w q n kind) E (fun _ => True) true.
Proof.
  intros He t. exists [YoutubeSearch q n kind]. unfold youtube_search.
  destruct (youtube_execute w t q n kind); cbn; auto.
Qed.

Lemma runs_raise_for_status r :
  runs (raise_for_status r) E (fun _ => True) true.
Proof.
  unfold raise_for_status.
  destruct ((400 <=? status_code r) && (status_code r <? 600)).
  - apply runs_raise.
  - apply runs_ret; exact I.
Qed.

End LogicWorld.

(* ================================================================== *)
(** * Facts about strings and dicts *)
(* ================================================================== *)

Lemma truthy_nonempty (s : string) : PyStr.truthy s = true <-> s <> "".
Proof.
  destruct s; cbn; split; intro H; congruence.
Qed.

Lemma truthy_app_l (a b : string) :
  PyStr.truthy a = true -> PyStr.truthy (a ++ b)%string = true.
Proof. destruct a; cbn; [discriminate | reflexivity]. Qed.

Lemma join_truthy (sep : string) (parts : list string) :
  parts <> [] -> Forall (fun p => PyStr.truthy p = true) parts ->
  PyStr.truthy (PyStr.join sep parts) = true.
Proof.
  intros Hne Hall. destruct parts as [| p rest]; [congruence|].
  inversion Hall as [| ? ? Hp Hrest]; subst.
  destruct rest as [| p' rest']; cbn [PyStr.join].
  - exact Hp.
  - apply truthy_app_l; exact Hp.
Qed.

Lemma prefix_app (p a b : string) :
  String.prefix p a = true -> String.prefix p (a ++ b)%string = true.
Proof.
  revert a. induction p as [| c p IH]; intros a H;
    [destruct (a ++ b)%string; reflexivity|].
  destruct a as [| c' a']; cbn in *; [discriminate|].
  destruct (Ascii.ascii_dec c c'); [apply IH; exact H | discriminate].
Qed.

Section DictFacts.

Variable V : Type.
Implicit Types (d : dict V) (k : string) (v : V).

Lemma mem_get k d : PyDict.mem k d = true <-> exists v, PyDict.get k d = Some v.
Proof.
  unfold PyDict.mem. destruct (PyDict.get k d); split;
    intro H; eauto; try discriminate. destruct H; discriminate.
Qed.

Lemma mem_false_get k d : PyDict.mem k d = false <-> PyDict.get k d = None.
Proof.
  unfold PyDict.mem. destruct (PyDict.get k d); split;
    intro H; auto; discriminate.
Qed.

Lemma get_In k v d : PyDict.get k d = Some v -> In (k, v) d.
Proof.
  induction d as [| [k' v'] rest IH]; cbn; [discriminate|].
  destruct (String.eqb_spec k k'); intro H.
  - inversion H; subst; auto.
  - auto.
Qed.

Lemma In_mem k v d : In (k, v) d -> PyDict.mem k d = true.
Proof.
  intro H. apply mem_get. induction d as [| [k' v'] rest IH];
    cbn in *; [contradiction|].
  destruct (String.eqb_spec k k'); [eauto|].
  destruct H as [H | H]; [inversion H; congruence | auto].
Qed.

Lemma get_set_same k v d : PyDict.get k (PyDict.set k v d) = Some v.
Proof.
  induction d as [| [k' v'] rest IH]; cbn.
  - rewrite String.eqb_refl; reflexivity.
  - destruct (String.eqb_spec k k') as [-> | Hne]; cbn.
    + rewrite String.eqb_refl; reflexivity.
    + destruct (String.eqb_spec k k'); [contradiction | exact IH].
Qed.

Lemma get_set_other k k' v d :
  k' <> k -> PyDict.get k' (PyDict.set k v d) = PyDict.get k' d.
Proof.
  intro Hne. induction d as [| [k0 v0] rest IH]; cbn.
  - destruct (String.eqb_spec k' k); [contradiction | reflexivity].
  - destruct (String.eqb_spec k k0) as [-> | Hk]; cbn.
    + destruct (String.eqb_spec k' k0); [contradiction | reflexivity].
    + destruct (String.eqb_spec k' k0); [reflexivity | exact IH].
Qed.

Lemma In_set k v k' v' d :
  In (k', v') (PyDict.set k v d) -> (k' = k /\ v' = v) \/ In (k', v') d.
Proof.
  induction d as [| [k0 v0] rest IH]; cbn.
  - intros [H | []]. inversion H; auto.
  - destruct (String.eqb_spec k k0) as [-> | Hk]; cbn.
    + intros [H | H]; [inversion H; auto | auto].
    + intros [H | H]; [auto | destruct (IH H); auto].
Qed.

Lemma mem_set k k' v d :
  PyDict.mem k' (PyDict.set k v d) = true <-> k' = k \/ PyDict.mem k' d = true.
Proof.
  unfold PyDict.mem. destruct (String.eqb_spec k' k) as [-> | Hne].
  - rewrite get_set_same. tauto.
  - rewrite get_set_other by exact Hne.
    destruct (PyDict.get k' d); split; intro H; auto;
      destruct H; auto; contradiction.
Qed.

(** A new key goes to the end of the dict. *)
Lemma set_fresh k v d :
  PyDict.mem k d = false -> PyDict.set k v d = d ++ [(k, v)].
Proof.
  unfold PyDict.mem. induction d as [| [k' v'] rest IH]; cbn; [reflexivity|].
  destruct (String.eqb_spec k k'); [discriminate|].
  intro H. rewrite IH by exact H. reflexivity.
Qed.

End DictFacts.

(* ================================================================== *)
(** * Section extraction: what the mapping holds *)
(* ================================================================== *)

Lemma content_parts_truthy (sibs : list node) :
  Forall (fun p => PyStr.truthy p = true) (content_parts sibs).
Proof.
  induction sibs as [| sib rest IH]; cbn [content_parts]; [constructor|].
  destruct (Soup.is_heading sib); [constructor|].
  apply Forall_app; split; [| exact IH].
  destruct (is_content_tag sib); [| constructor].
  destruct (PyStr.truthy (PyStr.strip (Soup.get_text_sep sib))) eqn:Ht;
    constructor; [exact Ht | constructor].
Qed.

Lemma add_section_cases (sections : dict string) (h : node * list node) :
  (content_parts (snd h) = [] /\ add_section sections h = sections) \/
  (content_parts (snd h) <> [] /\
   PyStr.truthy (PyStr.join (nl ++ nl)%string (content_parts (snd h))) = true /\
   add_section sections h =
     PyDict.set (heading_key h)
       (PyStr.join (nl ++ nl)%string (content_parts (snd h))) sections).
Proof.
  unfold add_section, heading_key.
  pose proof (content_parts_truthy (snd h)) as Hall.
  destruct (content_parts (snd h)) as [| p ps] eqn:Hparts.
  - left; auto.
  - right. split; [discriminate|]. split; [| reflexivity].
    apply join_truthy; [discriminate | exact Hall].
Qed.

Lemma fold_add_section_values (hs : list (node * list node)) :
  forall d : dict string,
    Forall (fun kv => PyStr.truthy (snd kv) = true) d ->
    Forall (fun kv => PyStr.truthy (snd kv) = true) (fold_left add_section hs d).
Proof.
  induction hs as [| h rest IH]; intros d Hd; cbn [fold_left]; [exact Hd|].
  apply IH.
  destruct (add_section_cases d h) as [[_ ->] | (_ & Hv & ->)]; [exact Hd|].
  apply Forall_forall. intros [k v] Hin.
  apply In_set in Hin. destruct Hin as [[_ ->] | Hin]; [exact Hv|].
  rewrite Forall_forall in Hd. exact (Hd _ Hin).
Qed.

Lemma fold_add_section_keys (hs : list (node * list node)) :
  forall (d : dict string) (k : string),
    PyDict.mem k (fold_left add_section hs d) = true <->
    PyDict.mem k d = true \/
    exists h, In h hs /\ content_parts (snd h) <> [] /\ heading_key h = k.
Proof.
  induction hs as [| h rest IH]; intros d k; cbn [fold_left].
  - split; [auto | intros [H | (h & [] & _)]; exact H].
  - rewrite IH.
    destruct (add_section_cases d h) as [[Hnil ->] | (Hne & _ & ->)].
    + split.
      * intros [H | (h' & Hin & H1 & H2)]; [auto|].
        right; exists h'; cbn; auto.
      * intros [H | (h' & [<- | Hin] & H1 & H2)]; [auto | congruence |].
        right; exists h'; auto.
    + rewrite mem_set. split.
      * intros [[-> | H] | (h' & Hin & H1 & H2)]; [| auto |].
        -- right; exists h; cbn; auto.
        -- right; exists h'; cbn; auto.
      * intros [H | (h' & [<- | Hin] & H1 & H2)]; [auto | auto |].
        right; exists h'; auto.
Qed.

Lemma heading_sections_values (soup : list node) :
  Forall (fun kv => PyStr.truthy (snd kv) = true) (heading_sections soup).
Proof. apply fold_add_section_values; constructor. Qed.

Lemma heading_sections_keys (soup : list node) (k : string) :
  PyDict.mem k (heading_sections soup) = true <->
  exists h, In h (Soup.headers soup) /\ content_parts (snd h) <> [] /\
            heading_key h = k.
Proof.
  unfold heading_sections. rewrite fold_add_section_keys. cbn.
  split; [intros [H | H]; [discriminate | exact H] | auto].
Qed.

(** The mapping is the heading part, followed by the fallback summary when
    no heading supplied one. *)
Lemma sections_of_soup_shape (parsed : list node) :
  let soup := Soup.remove_tables parsed in
  sections_of_soup parsed =
    if PyDict.mem "summary" (heading_sections soup)
    then heading_sections soup
    else heading_sections soup ++ [("summary", lead_para soup)].
Proof.
  cbn. unfold sections_of_soup, PyDict.setdefault.
  destruct (PyDict.mem "summary" (heading_sections (Soup.remove_tables parsed)))
    eqn:Hm; [reflexivity|].
  apply set_fresh; exact Hm.
Qed.

(* ================================================================== *)
(** * What [find_relevant_wiki_info] can return *)
(* ================================================================== *)

(** The call of the extractor raises what the parser raises, and otherwise
    returns the mapping built from the tree; it adds no event. *)
Lemma extract_sections_eq (w : world) (html : string) (t : list event) :
  extract_sections w html t =
    match parser_rejects w html with
    | Some e => (Throws (Exc e), t)
    | None => (Returns (extract_sections_from_wiki_html w html), t)
    end.
Proof.
  unfold extract_sections, BeautifulSoup, extract_sections_from_wiki_html,
    bind.
  destruct (parser_rejects w html); reflexivity.
Qed.

Lemma find_relevant_wiki_info_cases (w : world) (query : string)
    (t t' : list event) (out : wiki_info) :
  find_relevant_wiki_info w query t = (Returns out, t') ->
  out = empty_wiki_info \/
  (exists title, out = with_title title empty_wiki_info) \/
  (exists title html,
     out = classify title (extract_sections_from_wiki_html w html)).
Proof.
  unfold find_relevant_wiki_info, bind.
  destruct (wiki_search_title w (query ++ " exam") t) as [[first | s] t1];
    [| discriminate].
  destruct ((if PyVal.truthy first then ret first
             else wiki_search_title w query) t1) as [[title | s] t2];
    [| discriminate].
  destruct (PyVal.is_none title).
  - cbn. intro H; inversion H; auto.
  - destruct (wiki_get_html w title t2) as [[[html |] | s] t3]; cbn;
      [| intro H; inversion H; subst; eauto | discriminate].
    rewrite extract_sections_eq.
    destruct (parser_rejects w html); intro H; inversion H; subst; eauto.
Qed.

(* ================================================================== *)
(** * The section classifier *)
(* ================================================================== *)

Lemma classify_pattern title sections :
  wiki_pattern (classify title sections)
  = two_tier pattern_keys pattern_words sections.
Proof. reflexivity. Qed.

Lemma classify_syllabus title sections :
  wiki_syllabus (classify title sections)
  = two_tier syllabus_keys syllabus_words sections.
Proof. reflexivity. Qed.

Section TwoTier.

Variables (keys words : list string) (sections : dict string).

Lemma exact_match_found cur pre k post c :
  keys = pre ++ k :: post ->
  (forall k', In k' pre -> PyDict.mem k' sections = false) ->
  PyDict.get k sections = Some c ->
  exact_match keys sections cur = Some c.
Proof.
  intros -> Hpre Hget. induction pre as [| p pre IH]; cbn.
  - unfold PyDict.mem. rewrite Hget. reflexivity.
  - rewrite (Hpre p) by (left; reflexivity).
    apply IH. intros k' Hin; apply Hpre; right; exact Hin.
Qed.

Lemma exact_match_none cur :
  (forall k, In k keys -> PyDict.mem k sections = false) ->
  exact_match keys sections cur = cur.
Proof.
  induction keys as [| k rest IH]; intro H; cbn; [reflexivity|].
  rewrite (H k) by (left; reflexivity).
  apply IH. intros k' Hin; apply H; right; exact Hin.
Qed.

Lemma substring_match_found cur pre name c post :
  sections = pre ++ (name, c) :: post ->
  (forall kv, In kv pre -> PyStr.contains_any words (fst kv) = false) ->
  PyStr.contains_any words name = true ->
  substring_match words sections cur = Some c.
Proof.
  intros -> Hpre Hname. induction pre as [| [n v] pre IH]; cbn.
  - rewrite Hname. reflexivity.
  - pose proof (Hpre (n, v) (or_introl eq_refl)) as Hn. cbn in Hn.
    rewrite Hn.
    apply IH. intros kv Hin; apply Hpre; right; exact Hin.
Qed.

Lemma substring_match_none cur :
  (forall kv, In kv sections -> PyStr.contains_any words (fst kv) = false) ->
  substring_match words sections cur = cur.
Proof.
  induction sections as [| [n v] rest IH]; intro H; cbn; [reflexivity|].
  pose proof (H (n, v) (or_introl eq_refl)) as Hn. cbn in Hn.
  rewrite Hn.
  apply IH. intros kv Hin; apply H; right; exact Hin.
Qed.

Lemma two_tier_exact pre k post c :
  keys = pre ++ k :: post ->
  (forall k', In k' pre -> PyDict.mem k' sections = false) ->
  PyDict.get k sections = Some c ->
  PyStr.truthy c = true ->
  two_tier keys words sections = Some c.
Proof.
  intros Hk Hpre Hget Hc. unfold two_tier.
  rewrite (@exact_match_found None pre k post c Hk Hpre Hget).
  cbn. rewrite Hc. reflexivity.
Qed.

Lemma two_tier_fallback pre name c post :
  (forall k, In k keys -> PyDict.mem k sections = false) ->
  sections = pre ++ (name, c) :: post ->
  (forall kv, In kv pre -> PyStr.contains_any words (fst kv) = false) ->
  PyStr.contains_any words name = true ->
  two_tier keys words sections = Some c.
Proof.
  intros Hno Hs Hpre Hname. unfold two_tier.
  rewrite (exact_match_none None Hno). cbn.
  exact (substring_match_found None pre name c post Hs Hpre Hname).
Qed.

Lemma two_tier_none :
  (forall k, In k keys -> PyDict.mem k sections = false) ->
  (forall kv, In kv sections -> PyStr.contains_any words (fst kv) = false) ->
  two_tier keys words sections = None.
Proof.
  intros Hno Hsub. unfold two_tier.
  rewrite (exact_match_none None Hno). cbn.
  exact (substring_match_none None Hsub).
Qed.

End TwoTier.

(** Only the key "summary" can hold an empty text. *)
Lemma sections_of_soup_values (parsed : list node) (k v : string) :
  PyDict.get k (sections_of_soup parsed) = Some v ->
  k <> "summary" -> PyStr.truthy v = true.
Proof.
  intros Hget Hk. apply get_In in Hget.
  rewrite sections_of_soup_shape in Hget. cbn zeta in Hget.
  pose proof (heading_sections_values (Soup.remove_tables parsed)) as Hv.
  rewrite Forall_forall in Hv.
  destruct (PyDict.mem "summary" (heading_sections (Soup.remove_tables parsed))).
  - exact (Hv _ Hget).
  - apply in_app_or in Hget. destruct Hget as [Hin | [Heq | []]].
    + exact (Hv _ Hin).
    + inversion Heq; congruence.
Qed.

(** The mapping a returned record carries has no empty text outside the
    key "summary", and the record's fields come from the two tiers. *)
Lemma find_relevant_wiki_info_classified (w : world) (query : string)
    (t t' : list event) (out : wiki_info) :
  find_relevant_wiki_info w query t = (Returns out, t') ->
  (forall k v, PyDict.get k (wiki_other_sections out) = Some v ->
               k <> "summary" -> PyStr.truthy v = true) /\
  wiki_pattern out
    = two_tier pattern_keys pattern_words (wiki_other_sections out) /\
  wiki_syllabus out
    = two_tier syllabus_keys syllabus_words (wiki_other_sections out).
Proof.
  intro H. apply find_relevant_wiki_info_cases in H.
  destruct H as [-> | [[title ->] | (title & html & ->)]].
  - cbn. split; [intros; discriminate | auto].
  - cbn. split; [intros; discriminate | auto].
  - split; [| split; reflexivity].
    intros k v. cbn [wiki_other_sections classify].
    apply sections_of_soup_values.
Qed.

(* ================================================================== *)
(** * C2: exact labels before substrings *)
(* ================================================================== *)

Lemma pattern_keys_not_summary k : In k pattern_keys -> k <> "summary".
Proof.
  cbn. intros H. repeat (destruct H as [<- | H]; [discriminate|]).
  contradiction.
Qed.

Lemma syllabus_keys_not_summary k : In k syllabus_keys -> k <> "summary".
Proof.
  cbn. intros H. repeat (destruct H as [<- | H]; [discriminate|]).
  contradiction.
Qed.

(** C2.  Whatever [find_relevant_wiki_info] returns, its pattern field is
    chosen in two tiers from the section mapping it carries: the first label
    of ["exam pattern"; "pattern"; "format"; "structure"; "scheme"] that is a
    key of the mapping supplies the content, whatever other headings there
    are; in particular the key "exam pattern" always wins.  Only when no
    label is a key does the first heading, in mapping order, whose name
    contains one of the fallback substrings supply it; with no such heading
    the field stays None.  The syllabus field follows the same two tiers
    with its own labels and substrings. *)
Theorem classifier_exact_label_first (w : world) (query : string)
    (t t' : list event) (out : wiki_info) :
  find_relevant_wiki_info w query t = (Returns out, t') ->
  let sections := wiki_other_sections out in
  (forall c, PyDict.get "exam pattern" sections = Some c ->
             wiki_pattern out = Some c) /\
  (forall pre k post c,
      pattern_keys = pre ++ k :: post ->
      (forall k', In k' pre -> PyDict.mem k' sections = false) ->
      PyDict.get k sections = Some c ->
      wiki_pattern out = Some c) /\
  (forall pre name c post,
      (forall k, In k pattern_keys -> PyDict.mem k sections = false) ->
      sections = pre ++ (name, c) :: post ->
      (forall kv, In kv pre ->
                  PyStr.contains_any pattern_words (fst kv) = false) ->
      PyStr.contains_any pattern_words name = true ->
      wiki_pattern out = Some c) /\
  ((forall k, In k pattern_keys -> PyDict.mem k sections = false) ->
   (forall kv, In kv sections ->
               PyStr.contains_any pattern_words (fst kv) = false) ->
   wiki_pattern out = None) /\
  (forall pre k post c,
      syllabus_keys = pre ++ k :: post ->
      (forall k', In k' pre -> PyDict.mem k' sections = false) ->
      PyDict.get k sections = Some c ->
      wiki_syllabus out = Some c) /\
  (forall pre name c post,
      (forall k, In k syllabus_keys -> PyDict.mem k sections = false) ->
      sections = pre ++ (name, c) :: post ->
      (forall kv, In kv pre ->
                  PyStr.contains_any syllabus_words (fst kv) = false) ->
      PyStr.contains_any syllabus_words name = true ->
      wiki_syllabus out = Some c) /\
  ((forall k, In k syllabus_keys -> PyDict.mem k sections = false) ->
   (forall kv, In kv sections ->
               PyStr.contains_any syllabus_words (fst kv) = false) ->
   wiki_syllabus out = None).
Proof.
  intros Hrun sections.
  destruct (find_relevant_wiki_info_classified _ _ _ Hrun)
    as (Hvals & Hpat & Hsyl).
  fold sections in Hvals, Hpat, Hsyl.
  assert (Hexact : forall pre k post c,
             pattern_keys = pre ++ k :: post ->
             (forall k', In k' pre -> PyDict.mem k' sections = false) ->
             PyDict.get k sections = Some c ->
             wiki_pattern out = Some c).
  { intros pre k post c Hk Hpre Hget. rewrite Hpat.
    eapply two_tier_exact; [exact Hk | exact Hpre | exact Hget |].
    apply (Hvals k c Hget). apply pattern_keys_not_summary.
    rewrite Hk. apply in_or_app. right. left. reflexivity. }
  split; [| split; [exact Hexact | repeat split]].
  - intros c Hget.
    apply (Hexact [] "exam pattern" (tl pattern_keys) c);
      [reflexivity | intros k' [] | exact Hget].
  - intros pre name c post Hno Hs Hpre Hname. rewrite Hpat.
    eapply two_tier_fallback; eassumption.
  - intros Hno Hsub. rewrite Hpat. apply two_tier_none; assumption.
  - intros pre k post c Hk Hpre Hget. rewrite Hsyl.
    eapply two_tier_exact; [exact Hk | exact Hpre | exact Hget |].
    apply (Hvals k c Hget). apply syllabus_keys_not_summary.
    rewrite Hk. apply in_or_app. right. left. reflexivity.
  - intros pre name c post Hno Hs Hpre Hname. rewrite Hsyl.
    eapply two_tier_fallback; eassumption.
  - intros Hno Hsub. rewrite Hsyl. apply two_tier_none; assumption.
Qed.

(** On [pattern_page] the heading "format of paper" comes first in the
    mapping, and the pattern field still takes the text under "exam
    pattern". *)
Lemma classifier_exact_label_first_witness :
  exists out t',
    find_relevant_wiki_info (wiki_world (PStr "NEET") pattern_page) "NEET" []
      = (Returns out, t') /\
    PyDict.keys (wiki_other_sections out)
      = ["format of paper"; "exam pattern"; "syllabus"; "summary"] /\
    wiki_pattern out = Some "Three papers.".
Proof.
  pose (run := find_relevant_wiki_info (wiki_world (PStr "NEET") pattern_page)
                 "NEET" []).
  exists (match fst run with Returns o => o | Throws _ => empty_wiki_info end),
         (snd run).
  assert (Hrun : find_relevant_wiki_info
                   (wiki_world (PStr "NEET") pattern_page) "NEET" []
                 = (Returns (match fst run with
                             | Returns o => o
                             | Throws _ => empty_wiki_info
                             end), snd run))
    by (vm_compute; reflexivity).
  split; [exact Hrun|]. split; [vm_compute; reflexivity|].
  apply (proj1 (classifier_exact_label_first _ _ _ Hrun)).
  vm_compute; reflexivity.
Defined.

(* ================================================================== *)
(** * C9: what the section mapping stores *)
(* ================================================================== *)

(** C9.  For every HTML input, every text stored under a key that comes from
    a heading is non-empty; a key comes from the headings exactly when some
    heading with that lowercased name has non-empty accumulated sibling
    text, so a heading with no such text adds nothing; every other entry of
    the mapping is the fallback "summary" entry, which holds the lead
    paragraph; and an entry with empty text can only be that fallback, with
    an empty (or missing) first paragraph. *)
Theorem section_values_nonempty (w : world) (html : string) :
  let soup := Soup.remove_tables (html_parser w html) in
  let sections := extract_sections_from_wiki_html w html in
  Forall (fun kv => snd kv <> "") (heading_sections soup) /\
  (forall k,
      PyDict.mem k (heading_sections soup) = true <->
      exists h, In h (Soup.headers soup) /\ content_parts (snd h) <> [] /\
                heading_key h = k) /\
  (forall k v,
      In (k, v) sections ->
      In (k, v) (heading_sections soup) \/
      (k = "summary" /\ v = lead_para soup /\
       PyDict.mem "summary" (heading_sections soup) = false)) /\
  (forall k v,
      In (k, v) sections -> v = "" ->
      k = "summary" /\ lead_para soup = "" /\
      PyDict.mem "summary" (heading_sections soup) = false).
Proof.
  intros soup sections.
  pose proof (heading_sections_values soup) as Hvals.
  assert (Hshape : forall k v,
             In (k, v) sections ->
             In (k, v) (heading_sections soup) \/
             (k = "summary" /\ v = lead_para soup /\
              PyDict.mem "summary" (heading_sections soup) = false)).
  { intros k v Hin. unfold sections, extract_sections_from_wiki_html in Hin.
    rewrite sections_of_soup_shape in Hin. cbn zeta in Hin. fold soup in Hin.
    destruct (PyDict.mem "summary" (heading_sections soup)); [auto|].
    apply in_app_or in Hin. destruct Hin as [Hin | [Heq | []]]; [auto|].
    inversion Heq; auto. }
  split; [| split; [| split]].
  - eapply Forall_impl; [| exact Hvals].
    intros [k v] Hv. cbn in *. apply truthy_nonempty; exact Hv.
  - intro k. apply heading_sections_keys.
  - exact Hshape.
  - intros k v Hin ->. destruct (Hshape _ _ Hin) as [Hh | (-> & Hl & Hm)].
    + rewrite Forall_forall in Hvals. specialize (Hvals _ Hh). discriminate.
    + auto.
Qed.

Lemma section_values_nonempty_witness :
  extract_sections_from_wiki_html (wiki_world (PStr "NEET") bare_page) "<html>"
    = [("summary", "")] /\
  forall k v,
    In (k, v) (extract_sections_from_wiki_html
                 (wiki_world (PStr "NEET") bare_page) "<html>") ->
    v = "" ->
    k = "summary" /\ lead_para (Soup.remove_tables bare_page) = "" /\
    PyDict.mem "summary" (heading_sections (Soup.remove_tables bare_page))
      = false.
Proof.
  split; [reflexivity|].
  exact (proj2 (proj2 (proj2
    (section_values_nonempty (wiki_world (PStr "NEET") bare_page) "<html>")))).
Defined.

(* ================================================================== *)
(** * C5: the summary fallback *)
(* ================================================================== *)

Lemma get_app_fresh (V : Type) (k k' : string) (v : V) (d : dict V) :
  PyDict.mem k' d = false ->
  PyDict.get k' (d ++ [(k, v)]) = if String.eqb k' k then Some v else None.
Proof.
  unfold PyDict.mem. induction d as [| [k0 v0] rest IH]; cbn; [reflexivity|].
  destruct (String.eqb k' k0); [discriminate | exact IH].
Qed.

Lemma no_heading_not_mem (name : string) (soup : list node) :
  no_heading_named name soup ->
  PyDict.mem name (heading_sections soup) = false.
Proof.
  intro Hno. destruct (PyDict.mem name (heading_sections soup)) eqn:Hm;
    [| reflexivity].
  apply heading_sections_keys in Hm. destruct Hm as (h & Hin & _ & Hk).
  exfalso. exact (Hno h Hin Hk).
Qed.

Lemma sections_of_soup_nonempty (parsed : list node) :
  sections_of_soup parsed <> [].
Proof.
  rewrite sections_of_soup_shape. cbn zeta.
  destruct (PyDict.mem "summary" (heading_sections (Soup.remove_tables parsed)))
    eqn:Hm.
  - intro H. rewrite H in Hm. discriminate.
  - intro H. apply app_eq_nil in H. destruct H; discriminate.
Qed.

(** C5, as the code has it.  When no heading of the fetched document is
    named "summary" or "introduction", the section mapping holds the text of
    the document's first paragraph (after table removal) under "summary",
    and the summary field of the record is that text when it is non-empty
    and None when it is empty or the document has no paragraph. *)
Theorem summary_fallback_first_paragraph (w : world) (query : string)
    (t t' : list event) (out : wiki_info) (html : string) :
  find_relevant_wiki_info w query t = (Returns out, t') ->
  wiki_other_sections out = extract_sections_from_wiki_html w html ->
  let soup := Soup.remove_tables (html_parser w html) in
  no_heading_named "summary" soup ->
  no_heading_named "introduction" soup ->
  PyDict.get "summary" (wiki_other_sections out) = Some (lead_para soup) /\
  wiki_summary out =
    if PyStr.truthy (lead_para soup) then Some (lead_para soup) else None.
Proof.
  intros Hrun Hsec soup Hsum Hintro.
  apply no_heading_not_mem in Hsum. apply no_heading_not_mem in Hintro.
  assert (Hshape : extract_sections_from_wiki_html w html
                   = heading_sections soup ++ [("summary", lead_para soup)]).
  { unfold extract_sections_from_wiki_html.
    rewrite sections_of_soup_shape. cbn zeta. fold soup.
    rewrite Hsum. reflexivity. }
  assert (Hs : wiki_summary out =
               opt_or (opt_or (PyDict.get "summary" (wiki_other_sections out))
                              (PyDict.get "introduction" (wiki_other_sections out)))
                      None).
  { apply find_relevant_wiki_info_cases in Hrun.
    destruct Hrun as [-> | [[title ->] | (title & html' & ->)]];
      try reflexivity. }
  rewrite Hs, Hsec, Hshape.
  rewrite !get_app_fresh by assumption. cbn.
  split; [reflexivity|].
  unfold opt_or. cbn.
  destruct (PyStr.truthy (lead_para soup)) eqn:Hl; cbn; rewrite ?Hl; reflexivity.
Qed.

Lemma all_headers_differ (name : string) (soup : list node) :
  forallb (fun h => negb (String.eqb (heading_key h) name)) (Soup.headers soup)
    = true ->
  no_heading_named name soup.
Proof.
  intros H h Hin Heq. rewrite forallb_forall in H. specialize (H h Hin).
  rewrite Heq, String.eqb_refl in H. discriminate.
Qed.

Lemma summary_fallback_first_paragraph_witness :
  exists out t',
    find_relevant_wiki_info (wiki_world (PStr "NEET") pattern_page) "NEET" []
      = (Returns out, t') /\
    wiki_summary out = Some "An entrance examination.".
Proof.
  pose (w := wiki_world (PStr "NEET") pattern_page).
  pose (run := find_relevant_wiki_info w "NEET" []).
  exists (match fst run with Returns o => o | Throws _ => empty_wiki_info end),
         (snd run).
  assert (Hrun : find_relevant_wiki_info w "NEET" []
                 = (Returns (match fst run with
                             | Returns o => o
                             | Throws _ => empty_wiki_info
                             end), snd run))
    by (vm_compute; reflexivity).
  split; [exact Hrun|].
  refine (eq_trans
            (proj2 (summary_fallback_first_paragraph w "NEET" [] "<html>"
                      Hrun _ _ _)) _).
  - vm_compute; reflexivity.
  - apply all_headers_differ; vm_compute; reflexivity.
  - apply all_headers_differ; vm_compute; reflexivity.
  - vm_compute; reflexivity.
Defined.

(** On [empty_lead_page] no heading is named "summary" or "introduction" and
    the document has a first paragraph, yet the summary field is None. *)
Lemma summary_fallback_counterexample :
  exists out t',
    find_relevant_wiki_info (wiki_world (PStr "NEET") empty_lead_page) "NEET" []
      = (Returns out, t') /\
    no_heading_named "summary" (Soup.remove_tables empty_lead_page) /\
    no_heading_named "introduction" (Soup.remove_tables empty_lead_page) /\
    Soup.find "p" (Soup.remove_tables empty_lead_page)
      = Some (NElem "p" [("class", "mw-empty-elt")] []) /\
    wiki_summary out = None /\
    ~ summary_is_first_paragraph out (Soup.remove_tables empty_lead_page).
Proof.
  pose (run := find_relevant_wiki_info
                 (wiki_world (PStr "NEET") empty_lead_page) "NEET" []).
  exists (match fst run with Returns o => o | Throws _ => empty_wiki_info end),
         (snd run).
  split; [vm_compute; reflexivity|].
  split; [apply all_headers_differ; vm_compute; reflexivity|].
  split; [apply all_headers_differ; vm_compute; reflexivity|].
  split; [reflexivity|].
  split; [vm_compute; reflexivity|].
  unfold summary_is_first_paragraph. vm_compute. discriminate.
Qed.

(* ================================================================== *)
(** * The paper-link scraper *)
(* ================================================================== *)

Lemma fold_scrape_anchor (item : archive) (anchors : list node) :
  forall acc,
    fold_left (scrape_anchor item) anchors acc
    = acc ++ flat_map
               (fun a =>
                  match Soup.attr "href" a with
                  | Some href =>
                      if keeps href (Soup.get_text_strip a)
                      then [entry_of item href (Soup.get_text_strip a)] else []
                  | None => []
                  end) anchors.
Proof.
  induction anchors as [| a rest IH]; intro acc; cbn [fold_left flat_map].
  - rewrite app_nil_r; reflexivity.
  - rewrite IH. unfold scrape_anchor.
    destruct (Soup.attr "href" a) as [href |]; [| reflexivity].
    destruct (keeps href (Soup.get_text_strip a)); [| reflexivity].
    rewrite <- app_assoc. reflexivity.
Qed.

Lemma scrape_page_eq (w : world) (acc : list pyq) (item : archive)
    (t : list event) :
  scrape_page w acc item t
  = (Returns (acc ++ page_entries w t item),
     t ++ [HttpGet (archive_link item) []]).
Proof.
  unfold scrape_page, try_except, bind, http_get, page_entries,
    raise_for_status, kept_entries, BeautifulSoup.
  destruct (requests_get w t (archive_link item) []) as [r | e]; cbn.
  - destruct ((400 <=? status_code r) && (status_code r <? 600)); cbn.
    + rewrite app_nil_r; reflexivity.
    + destruct (parser_rejects w (text r)); cbn.
      * rewrite app_nil_r; reflexivity.
      * rewrite fold_scrape_anchor; reflexivity.
  - rewrite app_nil_r; reflexivity.
Qed.

Lemma scrape_loop_eq (w : world) (links : list archive) :
  forall acc t,
    for_each links (scrape_page w) acc t
    = (Returns (acc ++ all_matches w t links), t ++ visits links).
Proof.
  induction links as [| item rest IH]; intros acc t;
    cbn [for_each all_matches visits map].
  - unfold ret. rewrite !app_nil_r. reflexivity.
  - unfold bind. rewrite scrape_page_eq, IH.
    rewrite <- !app_assoc. reflexivity.
Qed.

Lemma fetch_free_pyqs_links_eq (w : world) (exam_query : string)
    (t : list event) :
  fetch_free_pyqs_links w exam_query t
  = (Returns (firstn 5 (all_matches w t (registered_links exam_query))),
     t ++ visits (registered_links exam_query)).
Proof.
  unfold fetch_free_pyqs_links, bind. rewrite scrape_loop_eq. reflexivity.
Qed.

(* ================================================================== *)
(** * C4: at most five links, in scrape order *)
(* ================================================================== *)

(** C4.  For every query and whatever the archive pages hold, the scraper
    returns; its list is the first five of all matching anchors taken in
    scrape order, and so has at most five entries. *)
Theorem pyq_links_first_five (w : world) (exam_query : string)
    (t : list event) :
  exists l t',
    fetch_free_pyqs_links w exam_query t = (Returns l, t') /\
    l = firstn 5 (all_matches w t (registered_links exam_query)) /\
    (List.length l <= 5)%nat.
Proof.
  eexists. eexists. split; [apply fetch_free_pyqs_links_eq|].
  split; [reflexivity | apply firstn_le_length].
Qed.

(** Eight anchors match on the two JEE pages of [crowded_world]; the four of
    the first page and the first of the second come back. *)
Example pyq_links_first_five_crowded :
  List.length (all_matches crowded_world [] (registered_links "jee")) = 8%nat /\
  fst (fetch_free_pyqs_links crowded_world "jee" [])
  = Returns
      [{| pyq_site := "Examsnet"; pyq_exam := "JEE Mains"; pyq_title := "A";
          pyq_link := (jee_url ++ "/a.pdf")%string |};
       {| pyq_site := "Examsnet"; pyq_exam := "JEE Mains";
          pyq_title := "Previous years";
          pyq_link := "https://cdn.example/b" |};
       {| pyq_site := "Examsnet"; pyq_exam := "JEE Mains";
          pyq_title := "Question Paper 2022";
          pyq_link := (jee_url ++ "/c")%string |};
       {| pyq_site := "Examsnet"; pyq_exam := "JEE Mains"; pyq_title := "";
          pyq_link := (jee_url ++ "/d.PDF")%string |};
       {| pyq_site := "Selfstudys"; pyq_exam := "JEE Mains"; pyq_title := "A";
          pyq_link := (jee_self ++ "/a.pdf")%string |}].
Proof. split; vm_compute; reflexivity. Qed.

(* ================================================================== *)
(** * C3: the keyword gate *)
(* ================================================================== *)



(* ================================================================== *)
(** * The link of a kept anchor *)
(* ================================================================== *)

Lemma resolve_href_absolute (page href : string) :
  PyStr.startswith href "http" = true -> resolve_href page href = href.
Proof. unfold resolve_href. intros ->. reflexivity. Qed.

Lemma resolve_href_relative (page href : string) :
  PyStr.startswith href "http" = false ->
  resolve_href page href
  = (PyStr.rstrip_slash page ++ "/" ++ PyStr.lstrip_slash href)%string.
Proof. unfold resolve_href. intros ->. reflexivity. Qed.

Lemma resolve_href_http (page href : string) :
  PyStr.startswith (PyStr.rstrip_slash page) "http" = true ->
  PyStr.startswith (resolve_href page href) "http" = true.
Proof.
  intro Hpage. destruct (PyStr.startswith href "http") eqn:Hh.
  - rewrite resolve_href_absolute by exact Hh. exact Hh.
  - rewrite resolve_href_relative by exact Hh.
    unfold PyStr.startswith in *. apply prefix_app. exact Hpage.
Qed.

Lemma registered_links_https (exam_query : string) :
  Forall (fun item =>
            PyStr.startswith (archive_link item) "https" = true /\
            PyStr.startswith (PyStr.rstrip_slash (archive_link item)) "http"
              = true)
         (registered_links exam_query).
Proof.
  unfold registered_links.
  destruct (PyStr.contains "neet" (PyStr.lower exam_query));
    [| destruct (PyStr.contains "jee" (PyStr.lower exam_query))];
    cbn [app]; repeat constructor.
Qed.

Lemma kept_entries_http (item : archive) (soup : list node) :
  PyStr.startswith (PyStr.rstrip_slash (archive_link item)) "http" = true ->
  Forall (fun e => PyStr.startswith (pyq_link e) "http" = true)
         (kept_entries item soup).
Proof.
  intro Hpage. unfold kept_entries.
  induction (Soup.find_all_a_href soup) as [| a rest IH];
    cbn [flat_map]; [constructor|].
  apply Forall_app. split; [| exact IH].
  destruct (Soup.attr "href" a) as [href |]; [| constructor].
  destruct (keeps href (Soup.get_text_strip a)); constructor; [| constructor].
  cbn. apply resolve_href_http; exact Hpage.
Qed.

Lemma all_matches_http (w : world) (links : list archive) :
  Forall (fun item =>
            PyStr.startswith (PyStr.rstrip_slash (archive_link item)) "http"
              = true) links ->
  forall t,
    Forall (fun e => PyStr.startswith (pyq_link e) "http" = true)
           (all_matches w t links).
Proof.
  induction 1 as [| item rest Hitem Hrest IH]; intro t;
    cbn [all_matches]; [constructor|].
  apply Forall_app. split; [| apply IH].
  unfold page_entries.
  destruct (requests_get w t (archive_link item) []) as [r | e];
    [| constructor].
  destruct ((400 <=? status_code r) && (status_code r <? 600));
    [constructor |].
  destruct (parser_rejects w (text r));
    [constructor | apply kept_entries_http; exact Hitem].
Qed.

Lemma Forall_firstn_keep (A : Type) (P : A -> Prop) (n : nat) (l : list A) :
  Forall P l -> Forall P (firstn n l).
Proof.
  intro H. rewrite <- (firstn_skipn n l) in H.
  apply Forall_app in H. exact (proj1 H).
Qed.

(* ================================================================== *)
(** * Which calls each lookup makes, and whether it can raise *)
(* ================================================================== *)

Lemma runs_strengthen {A} (c : M A) E (Q Q' : A -> Prop) x :
  runs c E Q x ->
  (forall t a, fst (c t) = Returns a -> Q' a) ->
  runs c E (fun a => Q a /\ Q' a) x.
Proof.
  intros Hc Hpt t. destruct (Hc t) as (added & Ht & Hev & Hres).
  exists added. split; [exact Ht|]. split; [exact Hev|].
  specialize (Hpt t).
  destruct (fst (c t)) as [a | [e | code]]; auto.
Qed.

Lemma rest_page_prefix (slug : string) :
  PyStr.startswith (WIKIPEDIA_REST_PAGE slug) REST_PREFIX = true.
Proof.
  unfold PyStr.startswith, WIKIPEDIA_REST_PAGE, REST_PREFIX.
  apply prefix_app. reflexivity.
Qed.

Section Lookups.

Variables (w : world) (E : event -> Prop).

Local Ltac step :=
  first
    [ apply runs_ret; exact I
    | apply runs_raise
    | apply runs_raise_for_status
    | apply runs_lift; intros; exact I
    | match goal with
      | |- runs (if ?b then _ else _) _ _ _ => destruct b
      end
    | apply runs_bind with (Q1 := fun _ => True); [| intros ? _] ].

Lemma runs_wiki_search_title (query : string) :
  (forall e, is_wiki_event e -> E e) ->
  runs (wiki_search_title w query) E (fun _ => True) false.
Proof.
  intro HE. unfold wiki_search_title.
  apply runs_try; [| apply runs_ret; exact I].
  eapply runs_bind; [apply runs_http_get; apply HE; left; reflexivity|].
  intros r _. repeat step.
Qed.

Lemma runs_wiki_get_html (title : pyval) :
  (forall e, is_wiki_event e -> E e) ->
  runs (wiki_get_html w title) E (fun _ => True)
       (negb (PyVal.is_str_or_none title) || PyVal.is_none title).
Proof.
  intro HE. unfold wiki_get_html.
  destruct title; cbn [PyVal.replace_space lift PyVal.is_str_or_none
                         PyVal.is_none negb orb];
    try apply runs_bind_raise.
  apply runs_bind with (Q1 := fun _ => True);
    [apply runs_ret; exact I | intros slug _].
  apply runs_try; [| apply runs_ret; exact I].
  eapply runs_bind;
    [apply runs_http_get; apply HE; right; apply rest_page_prefix|].
  intros r _. apply runs_ret; exact I.
Qed.

Lemma runs_search_youtube_videos (query : string) (n : Z) :
  (forall e, is_youtube_event e -> E e) ->
  runs (search_youtube_videos w query n) E (fun _ => True) false.
Proof.
  intro HE. unfold search_youtube_videos.
  destruct (no_youtube w); [apply runs_ret; exact I|].
  apply runs_try; [| apply runs_ret; exact I].
  eapply runs_bind; [apply runs_youtube_search; apply HE; exact I|].
  intros resp _. repeat step.
  apply runs_for_each with (Inv := fun _ => True); [| exact I].
  intros acc item _. repeat step.
Qed.

Lemma runs_search_youtube_playlist (query : string) :
  (forall e, is_youtube_event e -> E e) ->
  runs (search_youtube_playlist w query) E (fun _ => True) false.
Proof.
  intro HE. unfold search_youtube_playlist.
  destruct (no_youtube w); [apply runs_ret; exact I|].
  apply runs_try; [| apply runs_ret; exact I].
  eapply runs_bind; [apply runs_youtube_search; apply HE; exact I|].
  intros resp _. repeat step.
Qed.

Lemma runs_search_google_books (query : string) (n : Z) :
  (forall e, is_books_event e -> E e) ->
  runs (search_google_books w query n) E (fun _ => True) false.
Proof.
  intro HE. unfold search_google_books.
  apply runs_try; [| apply runs_ret; exact I].
  eapply runs_bind; [apply runs_http_get; apply HE; reflexivity|].
  intros r _. repeat step.
  apply runs_for_each with (Inv := fun _ => True); [| exact I].
  intros acc item _. repeat step.
Qed.

End Lookups.

Lemma starts_bind {A B} (ev : event) (c : M A) (k : A -> M B) :
  starts_with ev c ->
  (forall a, runs (k a) any_event (fun _ => True) true) ->
  starts_with ev (bind c k).
Proof.
  intros Hc Hk t. unfold bind. destruct (Hc t) as (rest & Ht).
  destruct (c t) as [[a | s] t1]; cbn in *; subst t1.
  - destruct (Hk a (t ++ ev :: rest)) as (added & Ht2 & _).
    exists (rest ++ added). rewrite Ht2, <- app_assoc. reflexivity.
  - exists rest. reflexivity.
Qed.

Lemma runs_silent {A} (c : M A) (Q : A -> Prop) x (t : list event) :
  runs c (fun _ => False) Q x -> snd (c t) = t.
Proof.
  intro H. destruct (H t) as (added & Ht & Hev & _).
  destruct added as [| e rest]; [rewrite Ht, app_nil_r; reflexivity|].
  inversion Hev; contradiction.
Qed.

Section WikiLookup.

Variables (w : world) (E : event -> Prop).
Hypothesis HE : forall e, is_wiki_event e -> E e.

Lemma wiki_search_title_starts (query : string) :
  starts_with (HttpGet WIKIPEDIA_SEARCH_API (search_params query))
              (wiki_search_title w query).
Proof.
  intro t. exists []. unfold wiki_search_title, try_except.
  fold (search_params query). unfold bind at 1. unfold http_get.
  destruct (requests_get w t WIKIPEDIA_SEARCH_API (search_params query))
    as [r | e]; [| reflexivity].
  match goal with
  | |- snd (match ?k ?t1 with _ => _ end) = _ =>
      assert (Hs : snd (k t1) = t1);
        [| destruct (k t1) as [[a | [e | code]] t2]; cbn in *; congruence]
  end.
  apply runs_silent with (Q := fun _ => True) (x := true).
  repeat first
    [ apply runs_ret; exact I
    | apply runs_raise
    | apply runs_raise_for_status
    | apply runs_lift; intros; exact I
    | match goal with
      | |- runs (if ?b then _ else _) _ _ _ => destruct b
      end
    | apply runs_bind with (Q1 := fun _ => True); [| intros ? _] ].
Qed.

(** The call of the extractor makes no request; it raises only what the
    parser raises. *)
Lemma runs_extract_sections (html : string) :
  runs (extract_sections w html) E (fun _ => True) true.
Proof.
  intro t. exists []. rewrite extract_sections_eq, app_nil_r.
  destruct (parser_rejects w html); cbn; auto.
Qed.

Lemma runs_extract_sections_accepted (html : string) :
  parser_accepts w ->
  runs (extract_sections w html) E (fun _ => True) false.
Proof.
  intros Hacc t. exists []. rewrite extract_sections_eq, app_nil_r, Hacc.
  cbn; auto.
Qed.

(** The tail of [find_relevant_wiki_info] once the title is known. *)
Lemma runs_after_title (title : pyval) :
  runs (if PyVal.is_none title then ret empty_wiki_info
        else
          html <- wiki_get_html w title ;;
          match html with
          | None => ret (with_title title empty_wiki_info)
          | Some html =>
              sections <- extract_sections w html ;;
              ret (classify title sections)
          end)
       E (fun _ => True) true.
Proof.
  destruct (PyVal.is_none title); [apply runs_ret; exact I|].
  apply runs_bind with (Q1 := fun _ => True).
  { eapply runs_weaken; [apply runs_wiki_get_html; exact HE | auto..]. }
  intros [html |] _; [| apply runs_ret; exact I].
  apply runs_bind with (Q1 := fun _ => True);
    [apply runs_extract_sections | intros; apply runs_ret; exact I].
Qed.

(** With a title of the annotated type and a parser that accepts the page,
    the tail raises nothing. *)
Lemma runs_after_title_typed (title : pyval) :
  parser_accepts w ->
  PyVal.is_str_or_none title = true ->
  runs (if PyVal.is_none title then ret empty_wiki_info
        else
          html <- wiki_get_html w title ;;
          match html with
          | None => ret (with_title title empty_wiki_info)
          | Some html =>
              sections <- extract_sections w html ;;
              ret (classify title sections)
          end)
       E (fun _ => True) false.
Proof.
  intros Hacc Htitle.
  pose proof (@runs_wiki_get_html w E title HE) as Hget.
  destruct title; cbn [PyVal.is_none PyVal.is_str_or_none negb orb] in *;
    try discriminate; try (apply runs_ret; exact I).
  apply runs_bind with (Q1 := fun _ => True); [exact Hget|].
  intros [html |] _; [| apply runs_ret; exact I].
  apply runs_bind with (Q1 := fun _ => True);
    [apply runs_extract_sections_accepted; exact Hacc
    | intros; apply runs_ret; exact I].
Qed.

Lemma runs_find_relevant_wiki_info (query : string) :
  runs (find_relevant_wiki_info w query) E (fun _ => True) true.
Proof.
  unfold find_relevant_wiki_info.
  apply runs_bind with (Q1 := fun _ => True).
  { eapply runs_weaken; [apply runs_wiki_search_title; exact HE | auto..]. }
  intros first _.
  apply runs_bind with (Q1 := fun _ => True).
  { destruct (PyVal.truthy first); [apply runs_ret; exact I|].
    eapply runs_weaken; [apply runs_wiki_search_title; exact HE | auto..]. }
  intros title _.
  eapply runs_weaken; [apply runs_after_title | auto..].
Qed.

Lemma runs_find_relevant_wiki_info_typed (query : string) :
  search_returns_optional_str w ->
  parser_accepts w ->
  runs (find_relevant_wiki_info w query) E (fun _ => True) false.
Proof.
  intros Htyped Hacc.
  assert (Hsearch : forall q,
             runs (wiki_search_title w q) E
                  (fun v => True /\ PyVal.is_str_or_none v = true) false).
  { intro q. apply runs_strengthen; [apply runs_wiki_search_title; exact HE|].
    intros t v Hv. specialize (Htyped q t). rewrite Hv in Htyped.
    exact Htyped. }
  unfold find_relevant_wiki_info.
  eapply runs_bind; [apply Hsearch|].
  intros first [_ Hfirst].
  apply runs_bind with (Q1 := fun v => PyVal.is_str_or_none v = true).
  { destruct (PyVal.truthy first); [apply runs_ret; exact Hfirst|].
    eapply runs_post; [apply Hsearch | auto | intros v [_ Hv]; exact Hv]. }
  intros title Htitle.
  apply runs_after_title_typed; assumption.
Qed.

End WikiLookup.

Lemma find_relevant_wiki_info_starts (w : world) (query : string) :
  starts_with (HttpGet WIKIPEDIA_SEARCH_API
                 (search_params (query ++ " exam")%string))
              (find_relevant_wiki_info w query).
Proof.
  unfold find_relevant_wiki_info.
  apply starts_bind; [apply wiki_search_title_starts|].
  intros first.
  apply runs_bind with (Q1 := fun _ => True).
  { destruct (PyVal.truthy first); [apply runs_ret; exact I|].
    eapply runs_weaken;
      [apply runs_wiki_search_title with (E := any_event) | auto..].
    intros; exact I. }
  intros title _.
  eapply runs_weaken;
    [apply runs_after_title with (E := any_event); intros; exact I | auto..].
Qed.

Lemma runs_fetch_free_pyqs_links (w : world) (E : event -> Prop)
    (exam_query : string) :
  (forall e, is_archive_event e -> E e) ->
  runs (fetch_free_pyqs_links w exam_query) E (fun _ => True) false.
Proof.
  intros HE t. exists (visits (registered_links exam_query)).
  rewrite fetch_free_pyqs_links_eq. cbn [fst snd].
  split; [reflexivity|]. split; [| exact I].
  unfold registered_links.
  destruct (PyStr.contains "neet" (PyStr.lower exam_query));
    [| destruct (PyStr.contains "jee" (PyStr.lower exam_query))];
    cbn [app visits map archive_link]; repeat constructor;
    apply HE; cbn; auto.
Qed.

(* ================================================================== *)
(** * The aggregate *)
(* ================================================================== *)

(** The aggregate is assembled from its five lookups, one after another. *)
Lemma runs_aggregate (w : world) (exam_query : string)
    (include_videos include_books : bool) (E : event -> Prop)
    (Qw : wiki_info -> Prop) (Qv : list video -> Prop)
    (Qp : option playlist -> Prop) (Qb : list book -> Prop)
    (Qf : list pyq -> Prop) (x : bool) :
  runs (find_relevant_wiki_info w exam_query) E Qw x ->
  runs (if include_videos then search_youtube_videos w exam_query 6
        else ret []) E Qv x ->
  runs (if include_videos then search_youtube_playlist w exam_query
        else ret None) E Qp x ->
  runs (if include_books then search_google_books w exam_query 6
        else ret []) E Qb x ->
  runs (if include_books then fetch_free_pyqs_links w exam_query
        else ret []) E Qf x ->
  runs (fetch_exam_info_universal w exam_query include_videos include_books) E
       (fun info =>
          info_query info = exam_query /\
          Qw (info_wikipedia info) /\ Qv (info_videos info) /\
          Qp (info_playlist info) /\ Qb (info_books info) /\
          Qf (info_free_pyqs info)) x.
Proof.
  intros Hw Hv Hp Hb Hf. unfold fetch_exam_info_universal.
  eapply runs_bind; [exact Hw | intros wikipedia Qwikipedia].
  eapply runs_bind; [exact Hv | intros videos Qvideos].
  eapply runs_bind; [exact Hp | intros playlist Qplaylist].
  eapply runs_bind; [exact Hb | intros books Qbooks].
  eapply runs_bind; [exact Hf | intros free_pyqs Qfree_pyqs].
  apply runs_ret. cbn. auto 10.
Qed.

Lemma wiki_event_not_other (e : event) :
  is_wiki_event e ->
  ~ is_youtube_event e /\ ~ is_books_event e /\ ~ is_archive_event e.
Proof.
  destruct e as [url params | | |]; cbn; try contradiction.
  intros [-> | Hp]; (split; [tauto|]); split; intro H.
  - discriminate.
  - repeat (destruct H as [H | H]; [discriminate|]). contradiction.
  - subst url. discriminate.
  - repeat (destruct H as [<- | H]; [discriminate|]). contradiction.
Qed.

Lemma runs_gated (w : world) (exam_query : string)
    (include_videos include_books : bool) :
  runs (fetch_exam_info_universal w exam_query include_videos include_books)
       (allowed include_videos include_books)
       (fun info =>
          info_query info = exam_query /\ True /\
          (include_videos = false -> info_videos info = []) /\
          (include_videos = false -> info_playlist info = None) /\
          (include_books = false -> info_books info = []) /\
          (include_books = false -> info_free_pyqs info = []))
       true.
Proof.
  apply runs_aggregate
    with (Qw := fun _ => True)
         (Qv := fun v => include_videos = false -> v = [])
         (Qp := fun p => include_videos = false -> p = None)
         (Qb := fun b => include_books = false -> b = [])
         (Qf := fun f => include_books = false -> f = []).
  - apply runs_find_relevant_wiki_info. unfold allowed; auto.
  - destruct include_videos.
    + eapply runs_weaken;
        [apply runs_search_youtube_videos
           with (E := allowed true include_books) | auto | ];
        [unfold allowed; auto | intros; discriminate].
    + apply runs_ret; auto.
  - destruct include_videos.
    + eapply runs_weaken;
        [apply runs_search_youtube_playlist
           with (E := allowed true include_books) | auto | ];
        [unfold allowed; auto | intros; discriminate].
    + apply runs_ret; auto.
  - destruct include_books.
    + eapply runs_weaken;
        [apply runs_search_google_books
           with (E := allowed include_videos true) | auto | ];
        [unfold allowed; auto | intros; discriminate].
    + apply runs_ret; auto.
  - destruct include_books.
    + eapply runs_weaken;
        [apply runs_fetch_free_pyqs_links
           with (E := allowed include_videos true) | auto | ];
        [unfold allowed; auto | intros; discriminate].
    + apply runs_ret; auto.
Qed.

Lemma fetch_exam_info_universal_starts (w : world) (exam_query : string)
    (include_videos include_books : bool) :
  starts_with (HttpGet WIKIPEDIA_SEARCH_API
                 (search_params (exam_query ++ " exam")%string))
    (fetch_exam_info_universal w exam_query include_videos include_books).
Proof.
  unfold fetch_exam_info_universal.
  apply starts_bind; [apply find_relevant_wiki_info_starts|].
  intro wikipedia.
  pose proof (runs_gated w exam_query include_videos include_books) as H.
  assert (Hany : forall A (c : M A) E Q x,
             runs c E Q x -> runs c any_event (fun _ => True) true).
  { intros A c E Q x Hc. eapply runs_weaken; [exact Hc | | auto].
    intros; exact I. }
  repeat (apply runs_bind with (Q1 := fun _ => True); [| intros ? _]);
    try (apply runs_ret; exact I).
  - destruct include_videos; [| apply runs_ret; exact I].
    eapply Hany. apply runs_search_youtube_videos with (E := any_event).
    intros; exact I.
  - destruct include_videos; [| apply runs_ret; exact I].
    eapply Hany. apply runs_search_youtube_playlist with (E := any_event).
    intros; exact I.
  - destruct include_books; [| apply runs_ret; exact I].
    eapply Hany. apply runs_search_google_books with (E := any_event).
    intros; exact I.
  - destruct include_books; [| apply runs_ret; exact I].
    eapply Hany. apply runs_fetch_free_pyqs_links with (E := any_event).
    intros; exact I.
Qed.

(* ================================================================== *)
(** * C7: the two flags *)
(* ================================================================== *)

(** C7.  From any trace and for every query: the first call the aggregate
    makes is the Wikipedia search for the query followed by " exam",
    whatever the flags; with [include_videos] false it makes no call to the
    video API, and a returned record has no videos and no playlist; with
    [include_books] false it makes no call to the books endpoint and none to
    an archive page, and a returned record has no books and no paper
    links. *)
Theorem flags_gate_lookups (w : world) (exam_query : string)
    (include_videos include_books : bool) (t : list event) :
  exists added,
    snd (fetch_exam_info_universal w exam_query include_videos include_books t)
      = t ++ added /\
    (exists rest,
        added = HttpGet WIKIPEDIA_SEARCH_API
                  (search_params (exam_query ++ " exam")%string) :: rest) /\
    (include_videos = false ->
     Forall (fun e => ~ is_youtube_event e) added) /\
    (include_books = false ->
     Forall (fun e => ~ is_books_event e /\ ~ is_archive_event e) added) /\
    (forall info,
        fst (fetch_exam_info_universal w exam_query
               include_videos include_books t) = Returns info ->
        (include_videos = false ->
         info_videos info = [] /\ info_playlist info = None) /\
        (include_books = false ->
         info_books info = [] /\ info_free_pyqs info = [])).
Proof.
  destruct (runs_gated w exam_query include_videos include_books t)
    as (added & Ht & Hev & Hres).
  exists added. split; [exact Ht|]. split; [| split; [| split]].
  - destruct (fetch_exam_info_universal_starts w exam_query
                include_videos include_books t) as (rest & Hstart).
    exists rest. rewrite Ht in Hstart. apply app_inv_head in Hstart.
    exact Hstart.
  - intros ->. eapply Forall_impl; [| exact Hev].
    intros e [Hw | [[Hf _] | [_ [Hb | Ha]]]].
    + apply wiki_event_not_other; exact Hw.
    + discriminate.
    + destruct e; cbn in *; tauto.
    + destruct e; cbn in *; tauto.
  - intros ->. eapply Forall_impl; [| exact Hev].
    intros e [Hw | [[_ Hy] | [Hf _]]].
    + apply wiki_event_not_other; exact Hw.
    + destruct e; cbn in *; tauto.
    + discriminate.
  - intros info Hinfo. rewrite Hinfo in Hres.
    destruct Hres as (_ & _ & Hv & Hp & Hb & Hf). auto.
Qed.

(** In [online_world] with both flags off, the aggregate only talks to
    Wikipedia and the four gated fields are empty; with both flags on they
    are not. *)
Lemma flags_gate_lookups_witness :
  snd (fetch_exam_info_universal online_world "NEET" false false [])
    = [HttpGet WIKIPEDIA_SEARCH_API (search_params "NEET exam");
       HttpGet (WIKIPEDIA_REST_PAGE "NEET") []] /\
  (exists info,
      fst (fetch_exam_info_universal online_world "NEET" true true [])
        = Returns info /\
      List.length (info_videos info) = 1%nat /\
      info_playlist info <> None /\
      List.length (info_books info) = 1%nat /\
      List.length (info_free_pyqs info) = 2%nat) /\
  exists added,
    snd (fetch_exam_info_universal online_world "NEET" false false [])
      = [] ++ added /\
    Forall (fun e => ~ is_youtube_event e) added /\
    Forall (fun e => ~ is_books_event e /\ ~ is_archive_event e) added /\
    (forall info,
        fst (fetch_exam_info_universal online_world "NEET" false false [])
          = Returns info ->
        (info_videos info = [] /\ info_playlist info = None) /\
        (info_books info = [] /\ info_free_pyqs info = [])).
Proof.
  split; [vm_compute; reflexivity|].
  split.
  { eexists. split; [vm_compute; reflexivity|].
    cbn. repeat split; discriminate. }
  destruct (flags_gate_lookups online_world "NEET" false false [])
    as (added & Ht & _ & Hv & Hb & Hres).
  exists added. split; [exact Ht|].
  split; [exact (Hv eq_refl)|]. split; [exact (Hb eq_refl)|].
  intros info Hinfo. destruct (Hres info Hinfo) as [H1 H2].
  split; [exact (H1 eq_refl) | exact (H2 eq_refl)].
Defined.

(* ================================================================== *)
(** * C1: catch and degrade *)
(* ================================================================== *)

Section Degrade.

Variable w : world.

Lemma wiki_search_title_down (query : string) (t : list event) :
  wiki_search_down w -> fst (wiki_search_title w query t) = Returns PNone.
Proof.
  intro Hdown. unfold wiki_search_title, try_except, bind, http_get.
  specialize (Hdown t (search_params query)). unfold search_params in Hdown.
  destruct (requests_get w t WIKIPEDIA_SEARCH_API _) as [r | e];
    cbn in *; [| reflexivity].
  unfold raise_for_status. rewrite Hdown. reflexivity.
Qed.

Lemma find_relevant_wiki_info_down (query : string) (t : list event)
    (out : wiki_info) :
  wiki_search_down w ->
  fst (find_relevant_wiki_info w query t) = Returns out ->
  out = empty_wiki_info.
Proof.
  intros Hdown. unfold find_relevant_wiki_info, bind.
  pose proof (wiki_search_title_down (query ++ " exam") t Hdown) as H1.
  destruct (wiki_search_title w (query ++ " exam") t) as [r1 t1];
    cbn in H1; subst r1. cbn [PyVal.truthy].
  pose proof (wiki_search_title_down query t1 Hdown) as H2.
  destruct (wiki_search_title w query t1) as [r2 t2]; cbn in H2; subst r2.
  cbn. congruence.
Qed.

Lemma wiki_get_html_down (title : pyval) (t : list event)
    (html : option string) :
  wiki_page_down w ->
  fst (wiki_get_html w title t) = Returns html -> html = None.
Proof.
  intro Hdown. unfold wiki_get_html.
  destruct title; cbn; try discriminate.
  unfold try_except, bind, http_get.
  specialize (Hdown t (PyStr.replace_space s)).
  destruct (requests_get w t (WIKIPEDIA_REST_PAGE (PyStr.replace_space s)) [])
    as [r | e]; cbn in *.
  - apply negb_true_iff in Hdown. rewrite Hdown. congruence.
  - congruence.
Qed.

Lemma find_relevant_wiki_info_page_down (query : string) (t : list event)
    (out : wiki_info) :
  wiki_page_down w ->
  fst (find_relevant_wiki_info w query t) = Returns out ->
  page_absent out.
Proof.
  intros Hdown. unfold find_relevant_wiki_info, bind.
  destruct (wiki_search_title w (query ++ " exam") t) as [[first | s] t1];
    [| discriminate].
  destruct ((if PyVal.truthy first then ret first
             else wiki_search_title w query) t1) as [[title | s] t2];
    [| discriminate].
  destruct (PyVal.is_none title).
  - cbn. intro H; inversion H; subst. repeat split.
  - pose proof (wiki_get_html_down title t2) as Hget.
    destruct (wiki_get_html w title t2) as [[html | s] t3]; cbn in *;
      [| discriminate].
    rewrite (Hget html Hdown eq_refl). cbn.
    intro H; inversion H; subst. repeat split.
Qed.

Lemma search_youtube_videos_down (query : string) (n : Z) (t : list event) :
  youtube_down w -> fst (search_youtube_videos w query n t) = Returns [].
Proof.
  intro Hdown. unfold search_youtube_videos.
  destruct (no_youtube w) eqn:Hno; [reflexivity|].
  destruct Hdown as [Hdown | Hdown]; [congruence|].
  unfold try_except, bind, youtube_search.
  destruct (Hdown t (query ++ " preparation")%string n "video") as [e ->].
  reflexivity.
Qed.

Lemma search_youtube_playlist_down (query : string) (t : list event) :
  youtube_down w -> fst (search_youtube_playlist w query t) = Returns None.
Proof.
  intro Hdown. unfold search_youtube_playlist.
  destruct (no_youtube w) eqn:Hno; [reflexivity|].
  destruct Hdown as [Hdown | Hdown]; [congruence|].
  unfold try_except, bind, youtube_search.
  destruct (Hdown t (query ++ " preparation playlist")%string 1 "playlist")
    as [e ->].
  reflexivity.
Qed.

Lemma search_google_books_down (query : string) (n : Z) (t : list event) :
  books_down w -> fst (search_google_books w query n t) = Returns [].
Proof.
  intro Hdown. unfold search_google_books, try_except, bind, http_get.
  match goal with
  | |- context [requests_get w t GOOGLE_BOOKS_BASE ?p] =>
      specialize (Hdown t p);
      destruct (requests_get w t GOOGLE_BOOKS_BASE p) as [r | e]
  end; cbn in *; [| reflexivity].
  unfold raise_for_status. rewrite Hdown. reflexivity.
Qed.

Lemma all_matches_down (links : list archive) :
  (forall t item, In item links ->
                  failed (requests_get w t (archive_link item) []) = true) ->
  forall t, all_matches w t links = [].
Proof.
  induction links as [| item rest IH]; intros Hdown t;
    cbn [all_matches]; [reflexivity|].
  rewrite IH by (intros t' i Hi; apply Hdown; right; exact Hi).
  rewrite app_nil_r. unfold page_entries.
  specialize (Hdown t item (or_introl eq_refl)).
  destruct (requests_get w t (archive_link item) []) as [r | e];
    cbn in *; [rewrite Hdown|]; reflexivity.
Qed.

Lemma fetch_free_pyqs_links_down (exam_query : string) (t : list event) :
  archives_down w exam_query ->
  fst (fetch_free_pyqs_links w exam_query t) = Returns [].
Proof.
  intro Hdown. rewrite fetch_free_pyqs_links_eq. cbn [fst].
  rewrite all_matches_down by exact Hdown. reflexivity.
Qed.

End Degrade.

(** X21.  For every query, both flags, and every behaviour of the external
    sources under which [wiki_search_title] yields a string or None and the
    parser accepts the bodies it is given, the aggregate returns a record,
    with the query in it and a value for each of its other five fields; and
    each lookup whose source is down contributes its empty value: the
    initial wiki record when the search endpoint fails, no summary,
    syllabus, pattern or sections when the page cannot be read, no videos
    and no playlist without a credential or when the video API raises, no
    books when the books endpoint fails, no paper links when the archive
    pages fail. *)
Theorem aggregate_well_formed (w : world) (exam_query : string)
    (include_videos include_books : bool) (t : list event) :
  search_returns_optional_str w ->
  parser_accepts w ->
  exists info t',
    fetch_exam_info_universal w exam_query include_videos include_books t
      = (Returns info, t') /\
    info_query info = exam_query /\
    (wiki_search_down w -> info_wikipedia info = empty_wiki_info) /\
    (wiki_page_down w -> page_absent (info_wikipedia info)) /\
    (youtube_down w -> info_videos info = [] /\ info_playlist info = None) /\
    (books_down w -> info_books info = []) /\
    (archives_down w exam_query -> info_free_pyqs info = []).
Proof.
  intros Htyped Hacc.
  assert (H : runs (fetch_exam_info_universal w exam_query
                      include_videos include_books) any_event
                (fun info =>
                   info_query info = exam_query /\
                   (True /\
                    (wiki_search_down w ->
                     info_wikipedia info = empty_wiki_info) /\
                    (wiki_page_down w -> page_absent (info_wikipedia info))) /\
                   (True /\ (youtube_down w -> info_videos info = [])) /\
                   (True /\ (youtube_down w -> info_playlist info = None)) /\
                   (True /\ (books_down w -> info_books info = [])) /\
                   (True /\ (archives_down w exam_query ->
                             info_free_pyqs info = []))) false).
  { apply runs_aggregate
      with (Qw := fun out =>
                    True /\
                    (wiki_search_down w -> out = empty_wiki_info) /\
                    (wiki_page_down w -> page_absent out))
           (Qv := fun v => True /\ (youtube_down w -> v = []))
           (Qp := fun p => True /\ (youtube_down w -> p = None))
           (Qb := fun b => True /\ (books_down w -> b = []))
           (Qf := fun f => True /\ (archives_down w exam_query -> f = [])).
    - apply runs_strengthen.
      + apply runs_find_relevant_wiki_info_typed;
          [intros; exact I | exact Htyped | exact Hacc].
      + intros t0 out Hout. split; intro Hdown.
        * exact (find_relevant_wiki_info_down _ _ Hdown Hout).
        * exact (find_relevant_wiki_info_page_down _ _ Hdown Hout).
    - destruct include_videos; [| apply runs_ret; auto].
      apply runs_strengthen.
      + apply runs_search_youtube_videos; intros; exact I.
      + intros t0 v Hv Hdown.
        rewrite (search_youtube_videos_down exam_query 6 t0 Hdown) in Hv.
        congruence.
    - destruct include_videos; [| apply runs_ret; auto].
      apply runs_strengthen.
      + apply runs_search_youtube_playlist; intros; exact I.
      + intros t0 p Hp Hdown.
        rewrite (search_youtube_playlist_down exam_query t0 Hdown) in Hp.
        congruence.
    - destruct include_books; [| apply runs_ret; auto].
      apply runs_strengthen.
      + apply runs_search_google_books; intros; exact I.
      + intros t0 b Hb Hdown.
        rewrite (search_google_books_down exam_query 6 t0 Hdown) in Hb.
        congruence.
    - destruct include_books; [| apply runs_ret; auto].
      apply runs_strengthen.
      + apply runs_fetch_free_pyqs_links; intros; exact I.
      + intros t0 f Hf Hdown.
        rewrite (fetch_free_pyqs_links_down t0 Hdown) in Hf.
        congruence. }
  destruct (runs_returns H t)
    as (info & added & Hrun & _ & Hq & (_ & Hw1 & Hw2) & (_ & Hv) & (_ & Hp)
        & (_ & Hb) & (_ & Hf)).
  exists info, (t ++ added). split; [exact Hrun|].
  split; [exact Hq|]. split; [exact Hw1|]. split; [exact Hw2|].
  split; [intro Hdown; split; auto|]. split; assumption.
Qed.

(** When the search endpoint is down the title is None, so the first
    hypothesis of the theorem holds. *)
Lemma wiki_search_down_typed (w : world) :
  wiki_search_down w -> search_returns_optional_str w.
Proof.
  intros Hdown query t.
  rewrite (wiki_search_title_down query t Hdown). reflexivity.
Qed.

Lemma offline_world_typed : search_returns_optional_str offline_world.
Proof. intros query t. reflexivity. Defined.

Lemma offline_world_accepts : parser_accepts offline_world.
Proof. intro html. reflexivity. Defined.

(** With every source down the aggregate is the all-empty record, for
    either value of the flags. *)
Lemma aggregate_well_formed_witness :
  fetch_exam_info_universal offline_world "NEET" true true []
    = (Returns {| info_query := "NEET";
                  info_wikipedia := empty_wiki_info;
                  info_videos := [];
                  info_playlist := None;
                  info_books := [];
                  info_free_pyqs := [] |},
       [HttpGet WIKIPEDIA_SEARCH_API (search_params "NEET exam");
        HttpGet WIKIPEDIA_SEARCH_API (search_params "NEET");
        HttpGet GOOGLE_BOOKS_BASE
          [("q", PStr "NEET preparation OR NEET syllabus OR NEET guide");
           ("maxResults", PInt 6)];
        HttpGet neet_url []; HttpGet neet_self []]) /\
  exists info t',
    fetch_exam_info_universal offline_world "NEET" true true []
      = (Returns info, t') /\
    info_query info = "NEET" /\
    info_wikipedia info = empty_wiki_info /\
    (info_videos info = [] /\ info_playlist info = None) /\
    info_books info = [] /\
    info_free_pyqs info = [].
Proof.
  split; [vm_compute; reflexivity|].
  destruct (@aggregate_well_formed offline_world "NEET" true true []
              offline_world_typed offline_world_accepts)
    as (info & t' & Hrun & Hq & Hw & _ & Hv & Hb & Hf).
  exists info, t'. split; [exact Hrun|]. split; [exact Hq|].
  split; [apply Hw; intros t0 params; reflexivity|].
  split; [apply Hv; left; reflexivity|].
  split; [apply Hb; intros t0 params; reflexivity|].
  apply Hf. intros t0 item _. reflexivity.
Defined.

(** C1.  The aggregate lets an exception escape on two replies of
    Wikipedia.  When the page of the exam is served with a body the parser
    rejects, the parser's exception leaves [fetch_exam_info_universal] after
    the search and the page request: the parser is called under no [try] in
    [extract_sections_from_wiki_html].  The archive scraper calls the same
    parser inside its [try]: served the same body it skips the page and
    returns the empty list.  And when the first hit of the search carries
    the number 5 as its title, the slug cannot be computed, which happens
    before the [try] of [wiki_get_html], and the AttributeError leaves the
    aggregate after the search request. *)
Theorem aggregate_lets_exceptions_escape :
  (fetch_exam_info_universal rejected_markup_world "NEET" true true []
     = (Throws (Exc ParserRejectedMarkup),
        [HttpGet WIKIPEDIA_SEARCH_API (search_params "NEET exam");
         HttpGet (WIKIPEDIA_REST_PAGE "NEET") []]) /\
   ~ no_exception_escapes rejected_markup_world "NEET" true true []) /\
  fetch_free_pyqs_links rejected_markup_world "NEET" []
    = (Returns [], [HttpGet neet_url []; HttpGet neet_self []]) /\
  (fetch_exam_info_universal numeric_title_world "NEET" true true []
     = (Throws (Exc AttributeError),
        [HttpGet WIKIPEDIA_SEARCH_API (search_params "NEET exam")]) /\
   ~ no_exception_escapes numeric_title_world "NEET" true true []).
Proof.
  assert (H1 : fetch_exam_info_universal rejected_markup_world "NEET"
                 true true []
               = (Throws (Exc ParserRejectedMarkup),
                  [HttpGet WIKIPEDIA_SEARCH_API (search_params "NEET exam");
                   HttpGet (WIKIPEDIA_REST_PAGE "NEET") []]))
    by (vm_compute; reflexivity).
  assert (H2 : fetch_exam_info_universal numeric_title_world "NEET" true true []
               = (Throws (Exc AttributeError),
                  [HttpGet WIKIPEDIA_SEARCH_API (search_params "NEET exam")]))
    by (vm_compute; reflexivity).
  split; [split; [exact H1|] | split; [vm_compute; reflexivity | split]].
  - intros (info & t' & Hrun). rewrite H1 in Hrun. discriminate.
  - exact H2.
  - intros (info & t' & Hrun). rewrite H2 in Hrun. discriminate.
Qed.

(* ================================================================== *)
(** * C8: a blank exam name *)
(* ================================================================== *)

(** C8, as the code has it.  When the line read at the prompt is empty once
    stripped, the program prints the banner, prompts, prints the notice
    "No query entered. Exiting." and exits with status 0: no lookup is made
    and no report is printed. *)
Theorem blank_input_exits (w : world) (t : list event) (line : string) :
  stdin_line w (t ++ [Print BANNER]) = Ok line ->
  PyStr.strip line = "" ->
  main w t
  = (Throws (SystemExit 0),
     t ++ [Print BANNER; Input PROMPT; Print NO_QUERY]).
Proof.
  intros Hline Hblank.
  unfold main, bind, py_print, emit, py_input. cbn [PyStr.join].
  rewrite Hline, Hblank. cbn.
  rewrite <- !app_assoc. reflexivity.
Qed.

Lemma blank_input_exits_witness :
  main spaces_world []
  = (Throws (SystemExit 0), [Print BANNER; Input PROMPT; Print NO_QUERY]).
Proof.
  exact (@blank_input_exits spaces_world [] "   " eq_refl eq_refl).
Defined.

(** With an empty line at the prompt, a line is printed after it. *)
Lemma blank_input_counterexample :
  snd (main offline_world [])
    = [Print BANNER; Input PROMPT; Print NO_QUERY] /\
  ~ silent_after_prompt (snd (main offline_world [])).
Proof.
  assert (H : snd (main offline_world [])
              = [Print BANNER; Input PROMPT; Print NO_QUERY])
    by (vm_compute; reflexivity).
  split; [exact H|].
  intro Hsilent.
  specialize (Hsilent [Print BANNER] [Print NO_QUERY]).
  rewrite H in Hsilent. specialize (Hsilent eq_refl).
  inversion Hsilent as [| ? ? Hp _]. exact Hp.
Qed.

(** C10 at work: the relative href found on the two NEET pages of
    [online_world] comes back absolute. *)
(* ================================================================== *)
(** * Further properties: the parsed tree and the section mapping *)
(* ================================================================== *)

Lemma elements_app (a b : list node) :
  Soup.elements (a ++ b) = Soup.elements a ++ Soup.elements b.
Proof. unfold Soup.elements. apply flat_map_app. Qed.

Lemma remove_tables_app (a b : list node) :
  Soup.remove_tables (a ++ b) = Soup.remove_tables a ++ Soup.remove_tables b.
Proof. unfold Soup.remove_tables. apply flat_map_app. Qed.

Lemma remove_tables_node_clean (n : node) :
  Forall (fun e => Soup.has_name "table" e = false)
         (Soup.elements (Soup.remove_tables_node n)) /\
  Soup.remove_tables (Soup.remove_tables_node n) = Soup.remove_tables_node n.
Proof.
  induction n as [s | s | name attrs children IH] using node_induction.
  - split; [constructor | reflexivity].
  - split; [constructor | reflexivity].
  - cbn [Soup.remove_tables_node].
    destruct (String.eqb name "table") eqn:Hname;
      [split; [constructor | reflexivity]|].
    assert (Hkids :
              Forall (fun e => Soup.has_name "table" e = false)
                     (Soup.elements (flat_map Soup.remove_tables_node children))
              /\ Soup.remove_tables (flat_map Soup.remove_tables_node children)
                 = flat_map Soup.remove_tables_node children).
    { induction IH as [| c cs [Hc1 Hc2] _ [IH1 IH2]]; cbn [flat_map].
      - split; [constructor | reflexivity].
      - rewrite elements_app, remove_tables_app, Hc2, IH2.
        split; [apply Forall_app; auto | reflexivity]. }
    destruct Hkids as [Hk1 Hk2]. split.
    + unfold Soup.elements. cbn [flat_map Soup.elements_node].
      rewrite app_nil_r. constructor; [cbn; exact Hname | exact Hk1].
    + unfold Soup.remove_tables in *. cbn [flat_map Soup.remove_tables_node].
      rewrite Hname, Hk2. reflexivity.
Qed.

(** X1.  After the table removal no element named "table" is left anywhere
    in the tree, at any depth, and removing tables once more changes
    nothing. *)
Theorem remove_tables_leaves_no_table (forest : list node) :
  Forall (fun e => Soup.has_name "table" e = false)
         (Soup.elements (Soup.remove_tables forest)) /\
  Soup.remove_tables (Soup.remove_tables forest) = Soup.remove_tables forest.
Proof.
  induction forest as [| n rest [IH1 IH2]].
  - split; [constructor | reflexivity].
  - change (Soup.remove_tables (n :: rest))
      with (Soup.remove_tables_node n ++ Soup.remove_tables rest).
    destruct (remove_tables_node_clean n) as [Hn1 Hn2].
    rewrite elements_app, remove_tables_app, Hn2, IH2.
    split; [apply Forall_app; auto | reflexivity].
Qed.

Lemma content_parts_until_heading (pre : list node) (h : node)
    (post post' : list node) :
  Soup.is_heading h = true ->
  content_parts (pre ++ h :: post) = content_parts (pre ++ h :: post').
Proof.
  intro Hh. induction pre as [| sib rest IH]; cbn [app content_parts].
  - rewrite Hh. reflexivity.
  - rewrite IH. reflexivity.
Qed.

(** A sibling that is neither a heading nor a p, ul, ol or div element can
    be taken out of the siblings, wherever it stands. *)
Lemma content_parts_skip (pre : list node) (n : node) (post : list node) :
  Soup.is_heading n = false ->
  is_content_tag n = false ->
  content_parts (pre ++ n :: post) = content_parts (pre ++ post).
Proof.
  intros Hn Hc. induction pre as [| sib rest IH]; cbn [app content_parts].
  - rewrite Hn, Hc. reflexivity.
  - destruct (Soup.is_heading sib); [reflexivity|].
    rewrite IH. reflexivity.
Qed.

(** X2.  The text gathered for a heading stops at the next heading among
    its following siblings: whatever comes after that heading changes
    nothing.  And a sibling that is neither a heading nor a p, ul, ol or div
    element (loose text, a comment, another tag) contributes nothing:
    wherever it stands among the siblings, the text gathered is the text
    gathered without it. *)
Theorem content_stops_at_next_heading (pre : list node) (h : node)
    (post post' : list node) :
  Soup.is_heading h = true ->
  content_parts (pre ++ h :: post) = content_parts (pre ++ h :: post') /\
  (forall before n after,
      Soup.is_heading n = false ->
      is_content_tag n = false ->
      content_parts (before ++ n :: after) = content_parts (before ++ after)).
Proof.
  intro Hh. split; [apply content_parts_until_heading; exact Hh|].
  intros before n after. apply content_parts_skip.
Qed.

Lemma content_stops_at_next_heading_witness :
  content_parts [NText "x"; NElem "p" [] [NText "kept"];
                 NElem "h3" [] [NText "Next"]; NElem "p" [] [NText "lost"]]
    = ["kept"] /\
  content_parts [NText "x"; NElem "p" [] [NText "kept"];
                 NElem "h3" [] [NText "Next"]; NElem "p" [] [NText "lost"]]
    = content_parts [NText "x"; NElem "p" [] [NText "kept"];
                     NElem "h3" [] [NText "Next"]] /\
  content_parts [NElem "p" [] [NText "a"]; NElem "span" [] [NText "s"];
                 NElem "ul" [] [NElem "li" [] [NText "b"]]]
    = content_parts [NElem "p" [] [NText "a"];
                     NElem "ul" [] [NElem "li" [] [NText "b"]]] /\
  content_parts [NElem "p" [] [NText "a"]; NElem "span" [] [NText "s"];
                 NElem "ul" [] [NElem "li" [] [NText "b"]]]
    = ["a"; "b"].
Proof.
  split; [reflexivity|]. split; [| split; [| reflexivity]].
  - exact (proj1 (@content_stops_at_next_heading
                    [NText "x"; NElem "p" [] [NText "kept"]]
                    (NElem "h3" [] [NText "Next"])
                    [NElem "p" [] [NText "lost"]] [] eq_refl)).
  - exact (proj2 (@content_stops_at_next_heading
                    [] (NElem "h3" [] []) [] [] eq_refl)
             [NElem "p" [] [NText "a"]] (NElem "span" [] [NText "s"])
             [NElem "ul" [] [NElem "li" [] [NText "b"]]] eq_refl eq_refl).
Defined.

Lemma mem_existsb (V : Type) (k : string) (d : dict V) :
  PyDict.mem k d = existsb (String.eqb k) (PyDict.keys d).
Proof.
  unfold PyDict.mem. induction d as [| [k' v'] rest IH]; cbn; [reflexivity|].
  destruct (String.eqb k k'); [reflexivity | exact IH].
Qed.

Lemma keys_set (V : Type) (k : string) (v : V) (d : dict V) :
  PyDict.keys (PyDict.set k v d)
  = if PyDict.mem k d then PyDict.keys d else PyDict.keys d ++ [k].
Proof.
  unfold PyDict.mem, PyDict.keys.
  induction d as [| [k' v'] rest IH]; cbn; [reflexivity|].
  destruct (String.eqb_spec k k') as [-> | Hne]; cbn; [reflexivity|].
  rewrite IH. destruct (PyDict.get k rest); reflexivity.
Qed.

Lemma existsb_eqb_In (k : string) (l : list string) :
  existsb (String.eqb k) l = true <-> In k l.
Proof.
  rewrite existsb_exists. split.
  - intros (x & Hin & Heq). apply String.eqb_eq in Heq. subst; exact Hin.
  - intro Hin. exists k. split; [exact Hin | apply String.eqb_refl].
Qed.

Lemma add_key_NoDup (l acc : list string) :
  NoDup acc ->
  NoDup (fold_left
           (fun acc k => if existsb (String.eqb k) acc then acc else acc ++ [k])
           l acc).
Proof.
  revert acc. induction l as [| k rest IH]; intros acc Hacc; cbn; [exact Hacc|].
  apply IH. destruct (existsb (String.eqb k) acc) eqn:Hk; [exact Hacc|].
  apply NoDup_rev in Hacc. rewrite <- (rev_involutive (acc ++ [k])).
  apply NoDup_rev. rewrite rev_app_distr. cbn. constructor; [| exact Hacc].
  rewrite <- in_rev. intro Hin. apply existsb_eqb_In in Hin. congruence.
Qed.

Lemma add_key_app (l1 l2 acc : list string) :
  fold_left
    (fun acc k => if existsb (String.eqb k) acc then acc else acc ++ [k])
    (l1 ++ l2) acc
  = fold_left
      (fun acc k => if existsb (String.eqb k) acc then acc else acc ++ [k])
      l2
      (fold_left
         (fun acc k => if existsb (String.eqb k) acc then acc else acc ++ [k])
         l1 acc).
Proof. apply fold_left_app. Qed.

Lemma fold_add_section_key_order (hs : list (node * list node)) :
  forall d : dict string,
    PyDict.keys (fold_left add_section hs d)
    = fold_left
        (fun acc k => if existsb (String.eqb k) acc then acc else acc ++ [k])
        (map heading_key (filter has_content hs)) (PyDict.keys d).
Proof.
  induction hs as [| h rest IH]; intro d; cbn [fold_left filter map];
    [reflexivity|].
  rewrite IH. unfold has_content at 2.
  destruct (add_section_cases d h) as [[Hnil ->] | (Hne & _ & ->)].
  - rewrite Hnil. reflexivity.
  - destruct (content_parts (snd h)) eqn:Hparts; [congruence|].
    cbn [map fold_left]. rewrite keys_set, mem_existsb. reflexivity.
Qed.

Lemma fold_add_section_keeps (k : string) (hs : list (node * list node)) :
  (forall h, In h hs -> heading_key h = k -> has_content h = false) ->
  forall d : dict string,
    PyDict.get k (fold_left add_section hs d) = PyDict.get k d.
Proof.
  induction hs as [| h rest IH]; intros Hk d; cbn [fold_left]; [reflexivity|].
  rewrite IH by (intros h' Hin; apply Hk; right; exact Hin).
  destruct (add_section_cases d h) as [[_ ->] | (Hne & _ & ->)];
    [reflexivity|].
  apply get_set_other. intro Heq.
  specialize (Hk h (or_introl eq_refl) (eq_sym Heq)).
  unfold has_content in Hk. destruct (content_parts (snd h)); congruence.
Qed.

Lemma get_app_present (V : Type) (k : string) (v : V) (d d' : dict V) :
  PyDict.get k d = Some v -> PyDict.get k (d ++ d') = Some v.
Proof.
  induction d as [| [k0 v0] rest IH]; cbn; [discriminate|].
  destruct (String.eqb k k0); [auto | exact IH].
Qed.

Lemma heading_sections_last_wins (soup : list node)
    (pre : list (node * list node)) (h : node * list node)
    (post : list (node * list node)) :
  Soup.headers soup = pre ++ h :: post ->
  has_content h = true ->
  (forall h', In h' post -> heading_key h' = heading_key h ->
              has_content h' = false) ->
  PyDict.get (heading_key h) (heading_sections soup) = Some (heading_text h).
Proof.
  intros Hhs Hh Hpost. unfold heading_sections.
  rewrite Hhs, fold_left_app. cbn [fold_left].
  rewrite fold_add_section_keeps by exact Hpost.
  destruct (add_section_cases (fold_left add_section pre []) h)
    as [[Hnil _] | (_ & _ & ->)].
  - unfold has_content in Hh. rewrite Hnil in Hh. discriminate.
  - apply get_set_same.
Qed.

Lemma sections_key_order (w : world) (html : string) :
  PyDict.keys (extract_sections_from_wiki_html w html)
  = first_occurrences
      (map heading_key
           (filter has_content
                   (Soup.headers (Soup.remove_tables (html_parser w html))))
       ++ ["summary"]).
Proof.
  unfold extract_sections_from_wiki_html.
  rewrite sections_of_soup_shape. cbn zeta.
  set (soup := Soup.remove_tables (html_parser w html)).
  unfold first_occurrences. rewrite add_key_app. cbn [fold_left].
  pose proof (fold_add_section_key_order (Soup.headers soup) []) as Hk.
  change (PyDict.keys (@nil (string * string))) with (@nil string) in Hk.
  rewrite <- Hk.
  fold (heading_sections soup). rewrite <- mem_existsb.
  destruct (PyDict.mem "summary" (heading_sections soup));
    [reflexivity|].
  unfold PyDict.keys. rewrite map_app. reflexivity.
Qed.

(** X3.  When several headings of a document share a name, the mapping
    returned by [extract_sections_from_wiki_html] keeps that name once, at
    the place of its first heading that has text, with the text of its last
    heading that has text; the key "summary" comes last when no heading
    supplied it. *)
Theorem duplicate_headings_last_wins (w : world) (html : string) :
  let soup := Soup.remove_tables (html_parser w html) in
  PyDict.keys (extract_sections_from_wiki_html w html)
  = first_occurrences
      (map heading_key (filter has_content (Soup.headers soup)) ++ ["summary"])
  /\
  forall pre h post,
    Soup.headers soup = pre ++ h :: post ->
    has_content h = true ->
    (forall h', In h' post -> heading_key h' = heading_key h ->
                has_content h' = false) ->
    PyDict.get (heading_key h) (extract_sections_from_wiki_html w html)
    = Some (heading_text h).
Proof.
  intro soup. split; [apply sections_key_order|].
  unfold extract_sections_from_wiki_html.
  rewrite sections_of_soup_shape. cbn zeta. fold soup.
  - intros pre h post Hhs Hh Hpost.
    pose proof (heading_sections_last_wins soup pre h post Hhs Hh Hpost) as Hget.
    destruct (PyDict.mem "summary" (heading_sections soup));
      [exact Hget | apply get_app_present; exact Hget].
Qed.

(** X4.  The mapping returned by [extract_sections_from_wiki_html] never
    holds a key twice and always holds the key "summary". *)
Theorem sections_keys_distinct (w : world) (html : string) :
  NoDup (PyDict.keys (extract_sections_from_wiki_html w html)) /\
  PyDict.mem "summary" (extract_sections_from_wiki_html w html) = true.
Proof.
  split.
  - rewrite sections_key_order.
    unfold first_occurrences. apply add_key_NoDup. constructor.
  - unfold extract_sections_from_wiki_html, sections_of_soup,
      PyDict.setdefault.
    destruct (PyDict.mem "summary"
                (heading_sections (Soup.remove_tables (html_parser w html))))
      eqn:Hm; [exact Hm|].
    apply mem_get. eexists. apply get_set_same.
Qed.

Lemma duplicate_headings_last_wins_witness :
  extract_sections_from_wiki_html (wiki_world (PStr "NEET") repeated_page) "<html>"
    = [("eligibility", "New rules."); ("pattern", "Three papers.");
       ("summary", "Old rules.")] /\
  PyDict.get "eligibility"
    (extract_sections_from_wiki_html (wiki_world (PStr "NEET") repeated_page)
       "<html>")
    = Some "New rules.".
Proof.
  split; [vm_compute; reflexivity|].
  pose (hs := Soup.headers (Soup.remove_tables repeated_page)).
  refine (proj2 (duplicate_headings_last_wins
                   (wiki_world (PStr "NEET") repeated_page) "<html>")
                (firstn 2 hs)
                (nth 2 hs (NText "", []))
                (skipn 3 hs) _ _ _).
  - vm_compute; reflexivity.
  - vm_compute; reflexivity.
  - intros h' [<- | []] _. vm_compute; reflexivity.
Defined.

(* ================================================================== *)
(** * Further properties: the Wikipedia lookups *)
(* ================================================================== *)

Lemma wiki_search_title_eq (w : world) (query : string) (t : list event) :
  wiki_search_title w query t
  = (Returns (title_of_reply
                (requests_get w t WIKIPEDIA_SEARCH_API (search_params query))),
     t ++ [search_event query]).
Proof.
  unfold wiki_search_title, try_except, bind, http_get, search_event.
  fold (search_params query).
  destruct (requests_get w t WIKIPEDIA_SEARCH_API (search_params query))
    as [r | e]; cbn [title_of_reply failed]; [| reflexivity].
  unfold raise_for_status.
  destruct ((400 <=? status_code r) && (status_code r <? 600));
    [reflexivity|]. cbn [ret].
  destruct (json r) as [body | e]; cbn [lift raise ret]; [| reflexivity].
  destruct (PyVal.get body "query" (PDict [])) as [q | e];
    cbn [lift raise ret]; [| reflexivity].
  destruct (PyVal.get q "search" (PList [])) as [results | e];
    cbn [lift raise ret]; [| reflexivity].
  destruct (negb (PyVal.truthy results)); [reflexivity|].
  destruct (PyVal.first results) as [hit | e];
    cbn [lift raise ret]; [| reflexivity].
  destruct (PyVal.getitem hit "title") as [title | e]; reflexivity.
Qed.

(** X5.  [wiki_search_title] always returns and always sends exactly one
    request.  It returns None when the request fails or answers with an
    error status, when the body is not JSON, when the decoded body has no
    "query" entry, and when the first hit has no "title"; otherwise it
    returns the title of the first hit, whatever the later hits are. *)
Theorem wiki_search_title_degrades (w : world) (query : string)
    (t : list event) :
  exists v,
    wiki_search_title w query t = (Returns v, t ++ [search_event query]) /\
    (failed (requests_get w t WIKIPEDIA_SEARCH_API (search_params query))
     = true -> v = PNone) /\
    (forall r,
        requests_get w t WIKIPEDIA_SEARCH_API (search_params query) = Ok r ->
        failed (Ok r) = false ->
        (forall e, json r = Raise e -> v = PNone) /\
        (forall d, json r = Ok (PDict d) -> PyDict.get "query" d = None ->
                   v = PNone) /\
        (forall body q hit rest,
            json r = Ok body ->
            PyVal.get body "query" (PDict []) = Ok q ->
            PyVal.get q "search" (PList []) = Ok (PList (hit :: rest)) ->
            v = match PyVal.getitem hit "title" with
                | Ok title => title
                | Raise _ => PNone
                end)).
Proof.
  eexists. split; [apply wiki_search_title_eq|].
  set (reply := requests_get w t WIKIPEDIA_SEARCH_API (search_params query)).
  split.
  - intro Hfail. unfold title_of_reply. destruct reply; [| reflexivity].
    rewrite Hfail. reflexivity.
  - intros r Hr Hok. rewrite Hr. unfold title_of_reply. rewrite Hok.
    split; [| split].
    + intros e ->. reflexivity.
    + intros d -> Hq. cbn. rewrite Hq. reflexivity.
    + intros body q hit rest -> -> ->. reflexivity.
Qed.

Lemma wiki_search_title_degrades_witness :
  wiki_search_title online_world "NEET exam" []
    = (Returns (PStr "NEET"), [search_event "NEET exam"]) /\
  wiki_search_title offline_world "NEET exam" []
    = (Returns PNone, [search_event "NEET exam"]) /\
  exists v,
    wiki_search_title offline_world "NEET exam" []
      = (Returns v, [] ++ [search_event "NEET exam"]) /\
    v = PNone.
Proof.
  split; [reflexivity|]. split; [reflexivity|].
  destruct (wiki_search_title_degrades offline_world "NEET exam" [])
    as (v & Hrun & Hfail & _).
  exists v. split; [exact Hrun | apply Hfail; reflexivity].
Defined.

Lemma replace_space_length (s : string) :
  String.length (PyStr.replace_space s) = String.length s.
Proof. induction s as [| c rest IH]; cbn; [reflexivity | rewrite IH; reflexivity]. Qed.

Lemma contains_cons (c : ascii) (needle hay : string) :
  PyStr.contains needle (String c hay)
  = String.prefix needle (String c hay) || PyStr.contains needle hay.
Proof. reflexivity. Qed.

Lemma replace_space_no_space (s : string) :
  PyStr.contains " " (PyStr.replace_space s) = false.
Proof.
  induction s as [| c rest IH]; [reflexivity|].
  cbn [PyStr.replace_space]. rewrite contains_cons, IH, orb_false_r.
  cbn [String.prefix].
  destruct (PyStr.code c =? 32)%N eqn:Hc.
  - reflexivity.
  - destruct (Ascii.ascii_dec " " c) as [<- | _]; [discriminate Hc|].
    reflexivity.
Qed.

Lemma wiki_get_html_eq (w : world) (s : string) (t : list event) :
  wiki_get_html w (PStr s) t
  = (Returns (html_of_reply
                (requests_get w t
                   (WIKIPEDIA_REST_PAGE (PyStr.replace_space s)) [])),
     t ++ [page_event (PyStr.replace_space s)]).
Proof.
  unfold wiki_get_html, try_except, bind, http_get, page_event. cbn [lift PyVal.replace_space ret].
  destruct (requests_get w t (WIKIPEDIA_REST_PAGE (PyStr.replace_space s)) [])
    as [r | e]; reflexivity.
Qed.

(** X6.  [wiki_get_html] on a string title always returns and sends exactly
    one request, to the page whose slug is the title with every space
    turned into an underscore (same length, no space left); it yields the
    body only when the status is exactly 200 and None for every other
    status and for a failed request.  On a title that is not a string it
    raises AttributeError before any request is sent. *)
Theorem wiki_get_html_one_request (w : world) (title : pyval)
    (t : list event) :
  match title with
  | PStr s =>
      let slug := PyStr.replace_space s in
      String.length slug = String.length s /\
      PyStr.contains " " slug = false /\
      wiki_get_html w title t
      = (Returns
           (match requests_get w t (WIKIPEDIA_REST_PAGE slug) [] with
            | Ok r => if status_code r =? 200 then Some (text r) else None
            | Raise _ => None
            end),
         t ++ [page_event slug])
  | _ => wiki_get_html w title t = (Throws (Exc AttributeError), t)
  end.
Proof.
  destruct title; try reflexivity.
  cbn zeta. split; [apply replace_space_length|].
  split; [apply replace_space_no_space|].
  rewrite wiki_get_html_eq. reflexivity.
Qed.

Lemma find_relevant_wiki_info_eq (w : world) (query : string)
    (t : list event) :
  find_relevant_wiki_info w query t
  = match resolved_title w query t with
    | (PNone, t2) => (Returns empty_wiki_info, t2)
    | (PStr s, t2) =>
        (match html_of_reply
                 (requests_get w t2
                    (WIKIPEDIA_REST_PAGE (PyStr.replace_space s)) []) with
         | None => Returns (with_title (PStr s) empty_wiki_info)
         | Some html =>
             match parser_rejects w html with
             | Some e => Throws (Exc e)
             | None =>
                 Returns
                   (classify (PStr s) (extract_sections_from_wiki_html w html))
             end
         end,
         t2 ++ [page_event (PyStr.replace_space s)])
    | (_, t2) => (Throws (Exc AttributeError), t2)
    end.
Proof.
  unfold find_relevant_wiki_info, resolved_title. unfold bind at 1.
  rewrite wiki_search_title_eq. unfold bind at 1.
  set (first := title_of_reply _).
  assert (Htail : forall title t2,
    (if PyVal.is_none title then ret empty_wiki_info
     else
       html <- wiki_get_html w title ;;
       match html with
       | None => ret (with_title title empty_wiki_info)
       | Some html =>
           sections <- extract_sections w html ;;
           ret (classify title sections)
       end) t2
    = match title with
      | PNone => (Returns empty_wiki_info, t2)
      | PStr s =>
          (match html_of_reply
                   (requests_get w t2
                      (WIKIPEDIA_REST_PAGE (PyStr.replace_space s)) []) with
           | None => Returns (with_title (PStr s) empty_wiki_info)
           | Some html =>
               match parser_rejects w html with
               | Some e => Throws (Exc e)
               | None =>
                   Returns
                     (classify (PStr s)
                        (extract_sections_from_wiki_html w html))
               end
           end,
           t2 ++ [page_event (PyStr.replace_space s)])
      | _ => (Throws (Exc AttributeError), t2)
      end).
  { intros title t2. destruct title; try reflexivity.
    cbn [PyVal.is_none]. unfold bind at 1. rewrite wiki_get_html_eq.
    destruct (html_of_reply _) as [html |]; [| reflexivity].
    unfold bind. rewrite extract_sections_eq.
    destruct (parser_rejects w html); reflexivity. }
  destruct (PyVal.truthy first).
  - cbn [ret]. apply Htail.
  - rewrite wiki_search_title_eq. apply Htail.
Qed.

(** X7.  [find_relevant_wiki_info] sends at most two searches and one page
    request.  It always starts with the search for the query followed by
    " exam"; the search for the bare query is sent exactly when that first
    search gave nothing (None or an empty title); and at most one page
    request follows, after the searches. *)
Theorem wiki_lookup_requests (w : world) (query : string) (t : list event) :
  let q1 := (query ++ " exam")%string in
  let first :=
    title_of_reply (requests_get w t WIKIPEDIA_SEARCH_API (search_params q1)) in
  exists added,
    snd (find_relevant_wiki_info w query t) = t ++ added /\
    (PyVal.truthy first = true ->
     added = [search_event q1] \/
     exists slug, added = [search_event q1; page_event slug]) /\
    (PyVal.truthy first = false ->
     added = [search_event q1; search_event query] \/
     exists slug,
       added = [search_event q1; search_event query; page_event slug]).
Proof.
  intros q1 first. rewrite find_relevant_wiki_info_eq.
  unfold resolved_title. fold q1. fold first. clearbody first.
  destruct (PyVal.truthy first) eqn:Hfirst.
  - destruct first as [| | | | s | |]; try discriminate Hfirst;
      try (exists [search_event q1]; cbn [snd];
           split; [reflexivity | split; [auto | discriminate]]).
    exists [search_event q1; page_event (PyStr.replace_space s)].
    cbn [snd]. rewrite <- app_assoc.
    split; [reflexivity | split; [eauto | discriminate]].
  - destruct (title_of_reply _) as [| | | | s | |];
      try (exists [search_event q1; search_event query]; cbn [snd];
           rewrite <- app_assoc;
           split; [reflexivity | split; [discriminate | auto]]).
    exists [search_event q1; search_event query;
            page_event (PyStr.replace_space s)].
    cbn [snd]. rewrite <- !app_assoc.
    split; [reflexivity | split; [discriminate | eauto]].
Qed.

Lemma wiki_lookup_requests_witness :
  snd (find_relevant_wiki_info online_world "NEET" [])
    = [search_event "NEET exam"; page_event "NEET"] /\
  snd (find_relevant_wiki_info offline_world "NEET" [])
    = [search_event "NEET exam"; search_event "NEET"] /\
  exists added,
    snd (find_relevant_wiki_info offline_world "NEET" []) = [] ++ added /\
    (added = [search_event "NEET exam"; search_event "NEET"] \/
     exists slug,
       added = [search_event "NEET exam"; search_event "NEET";
                page_event slug]).
Proof.
  split; [vm_compute; reflexivity|]. split; [vm_compute; reflexivity|].
  destruct (wiki_lookup_requests offline_world "NEET" [])
    as (added & Hrun & _ & Hnone).
  exists added. split; [exact Hrun | apply Hnone; reflexivity].
Defined.

Lemma sections_of_soup_In (parsed : list node) (k v : string) :
  In (k, v) (sections_of_soup parsed) ->
  PyStr.truthy v = true \/ k = "summary".
Proof.
  intro Hin. rewrite sections_of_soup_shape in Hin. cbn zeta in Hin.
  pose proof (heading_sections_values (Soup.remove_tables parsed)) as Hv.
  rewrite Forall_forall in Hv.
  destruct (PyDict.mem "summary" (heading_sections (Soup.remove_tables parsed))).
  - left. exact (Hv _ Hin).
  - apply in_app_or in Hin. destruct Hin as [Hin | [Heq | []]].
    + left. exact (Hv _ Hin).
    + right. inversion Heq; reflexivity.
Qed.

Lemma exact_match_result (keys : list string) (sections : dict string) :
  exact_match keys sections None = None \/
  exists k c, In k keys /\ PyDict.get k sections = Some c /\
              exact_match keys sections None = Some c.
Proof.
  induction keys as [| k rest IH]; cbn; [left; reflexivity|].
  destruct (PyDict.mem k sections) eqn:Hm.
  - apply mem_get in Hm. destruct Hm as [c Hc].
    right. exists k, c. rewrite Hc. auto.
  - destruct IH as [IH | (k' & c & Hin & Hget & Hres)]; [left; exact IH|].
    right. exists k', c. auto.
Qed.

Lemma substring_match_result (words : list string) (items : dict string) :
  substring_match words items None = None \/
  exists name c, In (name, c) items /\
                 PyStr.contains_any words name = true /\
                 substring_match words items None = Some c.
Proof.
  induction items as [| [name c] rest IH]; cbn; [left; reflexivity|].
  destruct (PyStr.contains_any words name) eqn:Hw.
  - right. exists name, c. auto.
  - destruct IH as [IH | (n' & c' & Hin & Hc & Hres)]; [left; exact IH|].
    right. exists n', c'. auto.
Qed.

Lemma two_tier_field_ok (keys words : list string) (parsed : list node) :
  (forall k, In k keys -> k <> "summary") ->
  PyStr.contains_any words "summary" = false ->
  text_field_ok (two_tier keys words (sections_of_soup parsed)).
Proof.
  intros Hkeys Hwords. unfold two_tier.
  destruct (exact_match_result keys (sections_of_soup parsed))
    as [-> | (k & c & Hin & Hget & ->)]; cbn [opt_truthy negb].
  - destruct (substring_match_result words (sections_of_soup parsed))
      as [-> | (name & c & Hin & Hname & ->)]; [left; reflexivity|].
    right. exists c. split; [reflexivity|]. apply truthy_nonempty.
    destruct (@sections_of_soup_In _ _ _ Hin) as [Hc | ->]; [exact Hc|].
    congruence.
  - pose proof (@sections_of_soup_values _ _ _ Hget (Hkeys k Hin)) as Hc.
    rewrite Hc. cbn [negb]. right. exists c.
    split; [reflexivity | apply truthy_nonempty; exact Hc].
Qed.

Lemma opt_or_none_field_ok (o : option string) :
  text_field_ok (opt_or o None).
Proof.
  unfold opt_or. destruct (opt_truthy o) eqn:Ho; [| left; reflexivity].
  destruct o as [s |]; [| discriminate]. right. exists s.
  split; [reflexivity | apply truthy_nonempty; exact Ho].
Qed.

(** X8.  In every record [find_relevant_wiki_info] returns, the title is
    None or a string, and a None title comes only with the initial record;
    each of the summary, syllabus and pattern fields is None or a non-empty
    string, never the empty string; and the section mapping is either empty
    or holds the key "summary". *)
Theorem wiki_record_invariants (w : world) (query : string)
    (t t' : list event) (out : wiki_info) :
  find_relevant_wiki_info w query t = (Returns out, t') ->
  (wiki_title out = PNone \/ exists s, wiki_title out = PStr s) /\
  (wiki_title out = PNone -> out = empty_wiki_info) /\
  text_field_ok (wiki_summary out) /\
  text_field_ok (wiki_syllabus out) /\
  text_field_ok (wiki_pattern out) /\
  (wiki_other_sections out = [] \/
   PyDict.mem "summary" (wiki_other_sections out) = true).
Proof.
  rewrite find_relevant_wiki_info_eq.
  destruct (resolved_title w query t) as [title t2].
  destruct title as [| | | | s | |]; try discriminate.
  - intro H; inversion H; subst.
    repeat split; auto; left; reflexivity.
  - destruct (html_of_reply _) as [html |];
      [destruct (parser_rejects w html); [discriminate|] |];
      intro H; inversion H; subst.
    + split; [right; eexists; reflexivity|].
      split; [discriminate|].
      split; [apply opt_or_none_field_ok|].
      split; [apply two_tier_field_ok;
              [apply syllabus_keys_not_summary | reflexivity]|].
      split; [apply two_tier_field_ok;
              [apply pattern_keys_not_summary | reflexivity]|].
      right. cbn [wiki_other_sections classify].
      unfold extract_sections_from_wiki_html, sections_of_soup,
        PyDict.setdefault.
      destruct (PyDict.mem "summary" (heading_sections _)) eqn:Hm;
        [exact Hm|].
      apply mem_get. eexists. apply get_set_same.
    + split; [right; eexists; reflexivity|].
      split; [discriminate|].
      repeat split; auto; left; reflexivity.
Qed.

Lemma wiki_record_invariants_witness :
  exists out t',
    find_relevant_wiki_info (wiki_world (PStr "NEET") empty_lead_page) "NEET" []
      = (Returns out, t') /\
    wiki_title out = PStr "NEET" /\
    PyDict.get "summary" (wiki_other_sections out) = Some "" /\
    text_field_ok (wiki_summary out) /\
    text_field_ok (wiki_syllabus out) /\
    text_field_ok (wiki_pattern out).
Proof.
  pose (w := wiki_world (PStr "NEET") empty_lead_page).
  pose (run := find_relevant_wiki_info w "NEET" []).
  exists (match fst run with Returns o => o | Throws _ => empty_wiki_info end),
         (snd run).
  assert (Hrun : find_relevant_wiki_info w "NEET" []
                 = (Returns (match fst run with
                             | Returns o => o
                             | Throws _ => empty_wiki_info
                             end), snd run))
    by (vm_compute; reflexivity).
  split; [exact Hrun|]. split; [vm_compute; reflexivity|].
  split; [vm_compute; reflexivity|].
  destruct (wiki_record_invariants _ _ _ Hrun) as (_ & _ & H1 & H2 & H3 & _).
  auto.
Defined.

(* ================================================================== *)
(** * Further properties: videos, playlist and books *)
(* ================================================================== *)

Lemma for_each_append_traverse (A B : Type) (f : A -> result B)
    (xs : list A) :
  forall (acc : list B) (t : list event),
    for_each xs (fun acc x => b <- lift (f x) ;; ret (acc ++ [b])) acc t
    = match traverse f xs with
      | Ok bs => (Returns (acc ++ bs), t)
      | Raise e => (Throws (Exc e), t)
      end.
Proof.
  induction xs as [| x rest IH]; intros acc t; cbn [for_each traverse].
  - unfold ret. rewrite app_nil_r. reflexivity.
  - unfold bind at 1. unfold bind at 1.
    destruct (f x) as [b | e]; cbn [lift ret raise]; [| reflexivity].
    rewrite IH. destruct (traverse f rest) as [bs | e]; [| reflexivity].
    rewrite <- app_assoc. reflexivity.
Qed.

Lemma traverse_ok (A B : Type) (f : A -> result B) (xs : list A)
    (bs : list B) :
  traverse f xs = Ok bs -> Forall2 (fun x b => f x = Ok b) xs bs.
Proof.
  revert bs. induction xs as [| x rest IH]; intros bs; cbn.
  - intro H; inversion H; constructor.
  - destruct (f x) as [b | e] eqn:Hx; [| discriminate].
    destruct (traverse f rest) as [bs' | e]; [| discriminate].
    intro H; inversion H; subst. constructor; auto.
Qed.

Lemma traverse_raise (A B : Type) (f : A -> result B) (xs : list A)
    (x : A) (e : exn) :
  In x xs -> f x = Raise e -> exists e', traverse f xs = Raise e'.
Proof.
  intros Hin Hx. induction xs as [| y rest IH]; [contradiction|]. cbn.
  destruct Hin as [-> | Hin].
  - rewrite Hx. eauto.
  - destruct (f y); [| eauto].
    destruct (IH Hin) as [e' ->]. eauto.
Qed.

Lemma no_youtube_iff (w : world) :
  no_youtube w = true <->
  HAVE_YT w = false \/ YOUTUBE_API_KEY w = None \/ YOUTUBE_API_KEY w = Some "".
Proof.
  unfold no_youtube. destruct (HAVE_YT w); cbn.
  - destruct (YOUTUBE_API_KEY w) as [[| c s] |]; cbn; split; intro H; auto;
      try discriminate.
    destruct H as [H | [H | H]]; discriminate.
  - split; auto.
Qed.

Lemma search_youtube_videos_eq (w : world) (query : string) (n : Z)
    (t : list event) :
  no_youtube w = false ->
  search_youtube_videos w query n t
  = (Returns (videos_of_reply w
                (youtube_execute w t (query ++ " preparation") n "video")),
     t ++ [YoutubeSearch (query ++ " preparation") n "video"]).
Proof.
  intro Hno. unfold search_youtube_videos. rewrite Hno.
  unfold try_except, videos_of_reply. unfold bind at 1.
  unfold youtube_search.
  destruct (youtube_execute w t (query ++ " preparation") n "video")
    as [resp | e]; [| reflexivity].
  unfold bind at 1.
  destruct (PyVal.get resp "items" (PList [])) as [items | e];
    cbn [lift ret raise]; [| reflexivity].
  unfold bind at 1.
  destruct (PyVal.iter items) as [its | e]; cbn [lift ret raise];
    [| reflexivity].
  rewrite for_each_append_traverse.
  destruct (traverse (video_of_item w) its); reflexivity.
Qed.

Lemma video_of_item_url (w : world) (item : pyval) (v : video) :
  video_of_item w item = Ok v ->
  video_url v
  = ("https://www.youtube.com/watch?v=" ++ py_str w (video_videoId v))%string.
Proof.
  unfold video_of_item.
  destruct (PyVal.getitem item "snippet") as [snippet |]; [| discriminate].
  destruct (PyVal.getitem snippet "title") as [title |]; [| discriminate].
  destruct (PyVal.getitem item "id") as [id |]; [| discriminate].
  destruct (PyVal.getitem id "videoId") as [videoId |]; [| discriminate].
  intro H; inversion H; reflexivity.
Qed.

(** X9.  [search_youtube_videos] never raises.  Without the client, or with
    no or an empty API key, it returns the empty list without calling the
    API.  Otherwise it makes exactly one call, for the query followed by
    " preparation"; when every item of the reply has a snippet title and a
    video id, the result has one video per item, in order, each with the
    watch URL of its id; and when a single item lacks one of them the result
    is empty, not the videos gathered so far. *)
Theorem videos_all_or_nothing (w : world) (query : string) (n : Z)
    (t : list event) :
  (HAVE_YT w = false \/ YOUTUBE_API_KEY w = None \/ YOUTUBE_API_KEY w = Some ""
   -> search_youtube_videos w query n t = (Returns [], t)) /\
  (no_youtube w = false ->
   exists videos,
     search_youtube_videos w query n t
     = (Returns videos,
        t ++ [YoutubeSearch (query ++ " preparation") n "video"]) /\
     forall resp its,
       youtube_execute w t (query ++ " preparation") n "video" = Ok resp ->
       PyVal.get resp "items" (PList []) = Ok (PList its) ->
       (forall all,
           traverse (video_of_item w) its = Ok all ->
           videos = all /\
           Forall2 (fun item v => video_of_item w item = Ok v) its videos /\
           Forall (fun v =>
                     video_url v
                     = ("https://www.youtube.com/watch?v="
                        ++ py_str w (video_videoId v))%string) videos) /\
       (forall item e,
           In item its -> video_of_item w item = Raise e -> videos = [])).
Proof.
  split.
  - intro Hno. apply no_youtube_iff in Hno.
    unfold search_youtube_videos. rewrite Hno. reflexivity.
  - intro Hno. eexists. split; [apply search_youtube_videos_eq; exact Hno|].
    intros resp its Hresp Hitems. unfold videos_of_reply.
    rewrite Hresp, Hitems. cbn [PyVal.iter]. split.
    + intros all Hall. rewrite Hall. split; [reflexivity|].
      pose proof (traverse_ok _ _ Hall) as Hf2. split; [exact Hf2|].
      clear - Hf2. induction Hf2 as [| item v its' vs Hv _ IH].
      * constructor.
      * constructor; [eapply video_of_item_url; exact Hv | exact IH].
    + intros item e Hin Hraise.
      destruct (traverse_raise _ _ _ Hin Hraise) as [e' ->]. reflexivity.
Qed.

Lemma videos_all_or_nothing_witness :
  fst (search_youtube_videos online_world "NEET" 6 [])
    = Returns [{| video_title := PStr "Crash course";
                  video_videoId := PStr "v1";
                  video_url := "https://www.youtube.com/watch?v=v1" |}] /\
  search_youtube_videos offline_world "NEET" 6 [] = (Returns [], []) /\
  exists videos,
    search_youtube_videos broken_item_world "NEET" 6 []
    = (Returns videos, [] ++ [YoutubeSearch "NEET preparation" 6 "video"]) /\
    videos = [].
Proof.
  split; [vm_compute; reflexivity|]. split.
  - apply (proj1 (videos_all_or_nothing offline_world "NEET" 6 [])).
    left; reflexivity.
  - destruct (proj2 (videos_all_or_nothing broken_item_world "NEET" 6 [])
                eq_refl) as (videos & Hrun & Hitems).
    exists videos. split; [exact Hrun|].
    refine (proj2 (Hitems _ _ eq_refl eq_refl)
              (PDict [("snippet", PDict [("title", PStr "No id")])])
              KeyError _ eq_refl).
    right; left; reflexivity.
Defined.

Lemma search_youtube_playlist_eq (w : world) (query : string)
    (t : list event) :
  no_youtube w = false ->
  search_youtube_playlist w query t
  = (Returns (playlist_of_reply w
                (youtube_execute w t (query ++ " preparation playlist")
                   1 "playlist")),
     t ++ [YoutubeSearch (query ++ " preparation playlist") 1 "playlist"]).
Proof.
  intro Hno. unfold search_youtube_playlist. rewrite Hno.
  unfold try_except, playlist_of_reply. unfold bind at 1.
  unfold youtube_search.
  destruct (youtube_execute w t (query ++ " preparation playlist") 1 "playlist")
    as [resp | e]; [| reflexivity].
  unfold bind at 1.
  destruct (PyVal.get resp "items" (PList [])) as [items | e];
    cbn [lift ret raise]; [| reflexivity].
  destruct (negb (PyVal.truthy items)); [reflexivity|].
  unfold bind at 1.
  destruct (PyVal.first items) as [item | e]; cbn [lift ret raise];
    [| reflexivity].
  unfold bind.
  destruct (playlist_of_item w item); reflexivity.
Qed.

(** X10.  [search_youtube_playlist] never raises.  Without the client or a
    usable key it returns None without calling the API.  Otherwise it makes
    exactly one call, asking for one playlist for the query followed by
    " preparation playlist"; it returns None when the reply has no items,
    and otherwise decides on the first item alone: the playlist built from
    it, or None when it lacks an id or a snippet title. *)
Theorem playlist_from_first_item (w : world) (query : string)
    (t : list event) :
  (HAVE_YT w = false \/ YOUTUBE_API_KEY w = None \/ YOUTUBE_API_KEY w = Some ""
   -> search_youtube_playlist w query t = (Returns None, t)) /\
  (no_youtube w = false ->
   exists p,
     search_youtube_playlist w query t
     = (Returns p,
        t ++ [YoutubeSearch (query ++ " preparation playlist") 1 "playlist"])
     /\
     forall resp,
       youtube_execute w t (query ++ " preparation playlist") 1 "playlist"
         = Ok resp ->
       (PyVal.get resp "items" (PList []) = Ok (PList []) -> p = None) /\
       (forall item rest,
           PyVal.get resp "items" (PList []) = Ok (PList (item :: rest)) ->
           p = match playlist_of_item w item with
               | Ok pl => Some pl
               | Raise _ => None
               end)).
Proof.
  split.
  - intro Hno. apply no_youtube_iff in Hno.
    unfold search_youtube_playlist. rewrite Hno. reflexivity.
  - intro Hno. eexists. split; [apply search_youtube_playlist_eq; exact Hno|].
    intros resp Hresp. unfold playlist_of_reply. rewrite Hresp. split.
    + intros ->. reflexivity.
    + intros item rest ->. reflexivity.
Qed.

Lemma playlist_from_first_item_witness :
  search_youtube_playlist offline_world "NEET" [] = (Returns None, []) /\
  exists p,
    search_youtube_playlist broken_item_world "NEET" []
    = (Returns p,
       [] ++ [YoutubeSearch "NEET preparation playlist" 1 "playlist"]) /\
    p = Some {| playlist_title := PStr "Crash course";
                playlist_playlistId := PStr "p1";
                playlist_url := "https://www.youtube.com/playlist?list=p1" |}.
Proof.
  split.
  - apply (proj1 (playlist_from_first_item offline_world "NEET" [])).
    left; reflexivity.
  - destruct (proj2 (playlist_from_first_item broken_item_world "NEET" [])
                eq_refl) as (p & Hrun & Hitems).
    exists p. split; [exact Hrun|].
    exact (proj2 (Hitems _ eq_refl) _ _ eq_refl).
Defined.

Lemma search_google_books_eq (w : world) (query : string) (n : Z)
    (t : list event) :
  search_google_books w query n t
  = (Returns (books_of_reply n
                (requests_get w t GOOGLE_BOOKS_BASE (books_params query n))),
     t ++ [HttpGet GOOGLE_BOOKS_BASE (books_params query n)]).
Proof.
  unfold search_google_books, try_except, books_of_reply. cbn zeta.
  fold (books_params query n). unfold bind at 1. unfold http_get.
  destruct (requests_get w t GOOGLE_BOOKS_BASE (books_params query n))
    as [r | e]; cbn [failed]; [| reflexivity].
  unfold bind at 1. unfold raise_for_status.
  destruct ((400 <=? status_code r) && (status_code r <? 600));
    [reflexivity|]. cbn [ret].
  unfold bind at 1.
  destruct (json r) as [body | e]; cbn [lift ret raise]; [| reflexivity].
  unfold bind at 1.
  destruct (PyVal.get body "items" (PList [])) as [all | e];
    cbn [lift ret raise]; [| reflexivity].
  unfold bind at 1.
  destruct (PyVal.slice_to n all) as [items | e];
    cbn [lift ret raise]; [| reflexivity].
  unfold bind at 1.
  destruct (PyVal.iter items) as [its | e]; cbn [lift ret raise];
    [| reflexivity].
  rewrite for_each_append_traverse.
  destruct (traverse book_of_item its); reflexivity.
Qed.

Lemma traverse_length (A B : Type) (f : A -> result B) (xs : list A)
    (bs : list B) :
  traverse f xs = Ok bs -> List.length bs = List.length xs.
Proof.
  intro H. apply traverse_ok in H.
  induction H; cbn; [reflexivity | congruence].
Qed.

Lemma book_of_item_str (s : string) : book_of_item (PStr s) = Raise AttributeError.
Proof. reflexivity. Qed.

Lemma traverse_chars_empty (s : string) (bs : list book) :
  traverse book_of_item (map PStr (PyStr.chars s)) = Ok bs -> bs = [].
Proof.
  destruct s as [| c rest]; cbn; [intro H; inversion H; reflexivity|].
  discriminate.
Qed.

Lemma books_of_reply_bound (n : Z) (reply : result response) :
  0 <= n -> (List.length (books_of_reply n reply) <= Z.to_nat n)%nat.
Proof.
  intro Hn. unfold books_of_reply.
  destruct reply as [r | e]; [| apply Nat.le_0_l].
  destruct (failed (Ok r)); [apply Nat.le_0_l|].
  destruct (json r) as [body | e]; [| apply Nat.le_0_l].
  destruct (PyVal.get body "items" (PList [])) as [all | e];
    [| apply Nat.le_0_l].
  unfold PyVal.slice_to, PyVal.slice_len.
  apply Z.leb_le in Hn. rewrite Hn.
  destruct all; try apply Nat.le_0_l; cbn [PyVal.iter].
  - destruct (traverse book_of_item _) as [bs | e] eqn:Hbs;
      [| apply Nat.le_0_l].
    rewrite (traverse_chars_empty _ Hbs). apply Nat.le_0_l.
  - destruct (traverse book_of_item _) as [bs | e] eqn:Hbs;
      [| apply Nat.le_0_l].
    rewrite (traverse_length _ _ Hbs). apply firstn_le_length.
Qed.

(** X11.  [search_google_books] never raises and always sends exactly one
    request.  With a non-negative [max_results] it returns at most that many
    books.  A failed request or an error status gives the empty list.  Of
    the items of the reply only the first [max_results] count: when each of
    them is a dict whose "volumeInfo", if present, is a dict, there is one
    book per item, an item without "volumeInfo" giving a book with four
    None fields; when one of them is not, the result is empty. *)
Theorem books_bounded_all_or_nothing (w : world) (query : string) (n : Z)
    (t : list event) :
  exists books,
    search_google_books w query n t
    = (Returns books, t ++ [HttpGet GOOGLE_BOOKS_BASE (books_params query n)])
    /\
    (0 <= n -> (List.length books <= Z.to_nat n)%nat) /\
    (failed (requests_get w t GOOGLE_BOOKS_BASE (books_params query n)) = true
     -> books = []) /\
    (forall r body its,
        0 <= n ->
        requests_get w t GOOGLE_BOOKS_BASE (books_params query n) = Ok r ->
        failed (Ok r) = false ->
        json r = Ok body ->
        PyVal.get body "items" (PList []) = Ok (PList its) ->
        (forall all,
            traverse book_of_item (firstn (Z.to_nat n) its) = Ok all ->
            books = all /\
            Forall2 (fun item b => book_of_item item = Ok b)
                    (firstn (Z.to_nat n) its) books) /\
        (forall item e,
            In item (firstn (Z.to_nat n) its) ->
            book_of_item item = Raise e -> books = [])) /\
    (forall d, PyDict.get "volumeInfo" d = None ->
               book_of_item (PDict d) = Ok unknown_book).
Proof.
  eexists. split; [apply search_google_books_eq|].
  split; [intro Hn; apply books_of_reply_bound; exact Hn|].
  split; [| split].
  - intro Hfail. unfold books_of_reply.
    destruct (requests_get w t GOOGLE_BOOKS_BASE (books_params query n));
      [rewrite Hfail|]; reflexivity.
  - intros r body its Hn Hr Hok Hjson Hitems.
    rewrite Hr. unfold books_of_reply. rewrite Hok, Hjson, Hitems.
    unfold PyVal.slice_to, PyVal.slice_len.
    apply Z.leb_le in Hn. rewrite Hn. cbn [PyVal.iter]. split.
    + intros all Hall. rewrite Hall.
      split; [reflexivity | apply traverse_ok; exact Hall].
    + intros item e Hin Hraise.
      destruct (traverse_raise _ _ _ Hin Hraise) as [e' ->]. reflexivity.
  - intros d Hd. unfold book_of_item. cbn. rewrite Hd. reflexivity.
Qed.

Lemma books_bounded_all_or_nothing_witness :
  fst (search_google_books online_world "NEET" 6 [])
    = Returns [{| book_title := PStr "Guide"; book_authors := PNone;
                  book_publisher := PNone; book_infoLink := PNone |}] /\
  fst (search_google_books broken_item_world "NEET" 2 [])
    = Returns [{| book_title := PStr "A"; book_authors := PNone;
                  book_publisher := PNone; book_infoLink := PNone |};
               unknown_book] /\
  exists books,
    search_google_books broken_item_world "NEET" 6 []
    = (Returns books, [] ++ [HttpGet GOOGLE_BOOKS_BASE (books_params "NEET" 6)])
    /\
    (List.length books <= 6)%nat /\ books = [].
Proof.
  split; [vm_compute; reflexivity|]. split; [vm_compute; reflexivity|].
  destruct (books_bounded_all_or_nothing broken_item_world "NEET" 6 [])
    as (books & Hrun & Hbound & _ & Hitems & _).
  exists books. split; [exact Hrun|]. split; [apply Hbound; discriminate|].
  refine (proj2 (Hitems _ _ _ _ eq_refl eq_refl eq_refl eq_refl)
            (PDict [("volumeInfo", PStr "oops")]) AttributeError _ eq_refl).
  - discriminate.
  - right; right; left; reflexivity.
Defined.

(* ================================================================== *)
(** * Further properties: the paper-link scraper *)
(* ================================================================== *)

(** X12.  [fetch_free_pyqs_links] requests every registered page, in
    registration order, whatever the pages answer: a page that fails does
    not stop the next one, and five links found on the first page do not
    spare the second.  So it sends no request for a query with neither
    keyword and exactly two otherwise, the Examsnet page first. *)
Theorem pyq_scraper_visits_every_page (w : world) (exam_query : string)
    (t : list event) :
  snd (fetch_free_pyqs_links w exam_query t)
  = t ++ (if PyStr.contains "neet" (PyStr.lower exam_query)
          then [HttpGet neet_url []; HttpGet neet_self []]
          else if PyStr.contains "jee" (PyStr.lower exam_query)
               then [HttpGet jee_url []; HttpGet jee_self []]
               else []).
Proof.
  rewrite fetch_free_pyqs_links_eq. cbn [snd]. unfold registered_links.
  destruct (PyStr.contains "neet" (PyStr.lower exam_query));
    [| destruct (PyStr.contains "jee" (PyStr.lower exam_query))];
    reflexivity.
Qed.

Lemma kept_entries_labels (item : archive) (soup : list node) :
  Forall (fun e => pyq_site e = archive_site item /\
                   pyq_exam e = archive_exam item)
         (kept_entries item soup).
Proof.
  unfold kept_entries.
  induction (Soup.find_all_a_href soup) as [| a rest IH];
    cbn [flat_map]; [constructor|].
  apply Forall_app. split; [| exact IH].
  destruct (Soup.attr "href" a) as [href |]; [| constructor].
  destruct (keeps href (Soup.get_text_strip a)); repeat constructor.
Qed.

Lemma page_entries_labels (w : world) (t : list event) (item : archive) :
  Forall (fun e => pyq_site e = archive_site item /\
                   pyq_exam e = archive_exam item)
         (page_entries w t item).
Proof.
  unfold page_entries.
  destruct (requests_get w t (archive_link item) []) as [r | e];
    [| constructor].
  destruct ((400 <=? status_code r) && (status_code r <? 600));
    [constructor |].
  destruct (parser_rejects w (text r));
    [constructor | apply kept_entries_labels].
Qed.

Lemma two_pages_labels (w : world) (t : list event) (a b : archive)
    (exam : string) :
  archive_exam a = exam -> archive_exam b = exam ->
  archive_site a = "Examsnet" -> archive_site b = "Selfstudys" ->
  Forall (fun e => pyq_exam e = exam) (firstn 5 (all_matches w t [a; b])) /\
  exists first second,
    firstn 5 (all_matches w t [a; b]) = first ++ second /\
    Forall (fun e => pyq_site e = "Examsnet") first /\
    Forall (fun e => pyq_site e = "Selfstudys") second.
Proof.
  intros Ha Hb Hsa Hsb. cbn [all_matches]. rewrite app_nil_r.
  pose proof (page_entries_labels w t a) as H1.
  pose proof (page_entries_labels w (t ++ [HttpGet (archive_link a) []]) b)
    as H2.
  rewrite firstn_app. split.
  - apply Forall_app. split; apply Forall_firstn_keep;
      [eapply Forall_impl; [| exact H1] | eapply Forall_impl; [| exact H2]];
      intros e [_ He]; congruence.
  - eexists. eexists. split; [reflexivity|].
    split; apply Forall_firstn_keep;
      [eapply Forall_impl; [| exact H1] | eapply Forall_impl; [| exact H2]];
      intros e [He _]; congruence.
Qed.

(** X13.  Every entry [fetch_free_pyqs_links] returns is labelled after the
    page it came from: its exam is "NEET" when the lowercased query
    contains "neet" (even if it also contains "jee") and "JEE Mains"
    otherwise, and the entries from Examsnet all come before the entries
    from Selfstudys. *)
Theorem pyq_entries_labelled (w : world) (exam_query : string)
    (t : list event) :
  exists l t',
    fetch_free_pyqs_links w exam_query t = (Returns l, t') /\
    Forall (fun e =>
              pyq_exam e
              = if PyStr.contains "neet" (PyStr.lower exam_query)
                then "NEET" else "JEE Mains") l /\
    exists first second,
      l = first ++ second /\
      Forall (fun e => pyq_site e = "Examsnet") first /\
      Forall (fun e => pyq_site e = "Selfstudys") second.
Proof.
  eexists. eexists. split; [apply fetch_free_pyqs_links_eq|].
  unfold registered_links.
  destruct (PyStr.contains "neet" (PyStr.lower exam_query)).
  - cbn [app]. apply two_pages_labels; reflexivity.
  - destruct (PyStr.contains "jee" (PyStr.lower exam_query)).
    + cbn [app]. apply two_pages_labels; reflexivity.
    + cbn. split; [constructor|]. exists [], [].
      repeat split; constructor.
Qed.

Lemma rev_onto_twice (s a b : string) :
  PyStr.rev_onto (PyStr.rev_onto s a) b = PyStr.rev_onto a (s ++ b)%string.
Proof.
  revert a. induction s as [| c rest IH]; intro a; cbn; [reflexivity|].
  rewrite IH. reflexivity.
Qed.

Lemma string_app_nil_r (s : string) : (s ++ "")%string = s.
Proof. induction s as [| c rest IH]; cbn; [| rewrite IH]; reflexivity. Qed.

Lemma rev_involutive_str (s : string) : PyStr.rev (PyStr.rev s) = s.
Proof.
  unfold PyStr.rev. rewrite rev_onto_twice. cbn. apply string_app_nil_r.
Qed.

Lemma lstrip_slash_head (s : string) :
  PyStr.startswith (PyStr.lstrip_by PyStr.is_slash s) "/" = false.
Proof.
  unfold PyStr.startswith.
  induction s as [| c rest IH]; cbn [PyStr.lstrip_by]; [reflexivity|].
  destruct (PyStr.is_slash c) eqn:Hc; [exact IH|].
  cbn [String.prefix].
  destruct (Ascii.ascii_dec "/" c) as [<- | _]; [discriminate Hc | reflexivity].
Qed.

(** X14.  In the link built for a relative href exactly one slash joins the
    page and the path: the page part never ends with a slash and the path
    part never starts with one.  And on a page whose URL starts with "http",
    resolving an already resolved link returns it unchanged. *)
Theorem resolve_href_single_slash (page href : string) :
  ends_with_slash (PyStr.rstrip_slash page) = false /\
  PyStr.startswith (PyStr.lstrip_slash href) "/" = false /\
  (PyStr.startswith (PyStr.rstrip_slash page) "http" = true ->
   resolve_href page (resolve_href page href) = resolve_href page href).
Proof.
  split; [| split].
  - unfold ends_with_slash, PyStr.rstrip_slash, PyStr.rstrip_by.
    rewrite rev_involutive_str. apply lstrip_slash_head.
  - apply lstrip_slash_head.
  - intro Hpage. apply resolve_href_absolute.
    apply resolve_href_http. exact Hpage.
Qed.

Lemma resolve_href_single_slash_witness :
  resolve_href "https://x/y///" "//papers/2023.pdf"
    = "https://x/y/papers/2023.pdf" /\
  ends_with_slash (PyStr.rstrip_slash "https://x/y///") = false /\
  PyStr.startswith (PyStr.lstrip_slash "//papers/2023.pdf") "/" = false /\
  resolve_href "https://x/y///"
    (resolve_href "https://x/y///" "//papers/2023.pdf")
    = resolve_href "https://x/y///" "//papers/2023.pdf".
Proof.
  split; [reflexivity|].
  destruct (resolve_href_single_slash "https://x/y///" "//papers/2023.pdf")
    as (H1 & H2 & H3).
  split; [exact H1|]. split; [exact H2|]. apply H3. reflexivity.
Defined.

(* ================================================================== *)
(** * Further properties: the aggregate and the command line *)
(* ================================================================== *)

Lemma in_phases_nil (phases : list (event -> Prop)) : in_phases phases [].
Proof.
  induction phases as [| E rest IH]; cbn; [reflexivity|].
  exists [], []. auto.
Qed.

Lemma in_phases_merge (E : event -> Prop) (rest : list (event -> Prop))
    (added : list event) :
  in_phases (E :: E :: rest) added -> in_phases (E :: rest) added.
Proof.
  cbn. intros (a & l1 & -> & Ha & b & l2 & -> & Hb & Hrest).
  exists (a ++ b), l2. rewrite app_assoc.
  split; [reflexivity|]. split; [apply Forall_app; auto | exact Hrest].
Qed.

Lemma phased_ret (A : Type) (a : A) : phased (ret a) [].
Proof. intro t. exists []. cbn. rewrite app_nil_r. auto. Qed.

Lemma phased_bind (A B : Type) (c : M A) (k : A -> M B)
    (E : event -> Prop) (rest : list (event -> Prop)) (Q : A -> Prop) x :
  runs c E Q x -> (forall a, phased (k a) rest) ->
  phased (bind c k) (E :: rest).
Proof.
  intros Hc Hk t. unfold bind.
  destruct (Hc t) as (a1 & Ht & Hev & _).
  destruct (c t) as [[a | s] t1]; cbn in Ht; subst t1.
  - destruct (Hk a (t ++ a1)) as (a2 & Ht2 & Hphases).
    exists (a1 ++ a2). rewrite Ht2, app_assoc. split; [reflexivity|].
    cbn. exists a1, a2. auto.
  - exists a1. split; [reflexivity|]. cbn. exists a1, [].
    rewrite app_nil_r. split; [reflexivity|]. split; [exact Hev|].
    apply in_phases_nil.
Qed.

(** X15.  The aggregate works through its sources one after another and
    never returns to an earlier one: whatever the flags and the replies, its
    requests are first those to Wikipedia, then the calls to the video API,
    then the request to the books endpoint, then the requests to the archive
    pages. *)
Theorem aggregate_sources_in_order (w : world) (exam_query : string)
    (include_videos include_books : bool) (t : list event) :
  exists added,
    snd (fetch_exam_info_universal w exam_query include_videos include_books t)
      = t ++ added /\
    in_phases [is_wiki_event; is_youtube_event; is_books_event;
               is_archive_event] added.
Proof.
  assert (H : phased (fetch_exam_info_universal w exam_query
                        include_videos include_books)
                [is_wiki_event; is_youtube_event; is_youtube_event;
                 is_books_event; is_archive_event]).
  { unfold fetch_exam_info_universal.
    eapply phased_bind;
      [apply runs_find_relevant_wiki_info; auto | intro wikipedia].
    eapply phased_bind with (Q := fun _ => True) (x := true);
      [| intro videos].
    { destruct include_videos; [| apply runs_ret; exact I].
      eapply runs_weaken;
      [apply runs_search_youtube_videos with (E := is_youtube_event); auto | auto | auto]. }
    eapply phased_bind with (Q := fun _ => True) (x := true);
      [| intro playlist].
    { destruct include_videos; [| apply runs_ret; exact I].
      eapply runs_weaken;
      [apply runs_search_youtube_playlist with (E := is_youtube_event); auto | auto | auto]. }
    eapply phased_bind with (Q := fun _ => True) (x := true);
      [| intro books].
    { destruct include_books; [| apply runs_ret; exact I].
      eapply runs_weaken;
      [apply runs_search_google_books with (E := is_books_event); auto | auto | auto]. }
    eapply phased_bind with (Q := fun _ => True) (x := true);
      [| intro free_pyqs; apply phased_ret].
    destruct include_books; [| apply runs_ret; exact I].
    eapply runs_weaken;
      [apply runs_fetch_free_pyqs_links with (E := is_archive_event); auto | auto | auto]. }
  destruct (H t) as (added & Ht & Hphases).
  exists added. split; [exact Ht|].
  destruct Hphases as (a & l & -> & Ha & Hrest).
  exists a, l. split; [reflexivity|]. split; [exact Ha|].
  apply in_phases_merge. exact Hrest.
Qed.

Lemma runs_emit (e : event) (E : event -> Prop) x :
  E e -> runs (emit e) E (fun _ => True) x.
Proof. intros He t. exists [e]. cbn. auto. Qed.

Lemma runs_py_print (args : list string) x :
  runs (py_print args) any_event (fun _ => True) x.
Proof. apply runs_emit. exact I. Qed.

Ltac report_step :=
  first
    [ apply runs_ret; exact I
    | apply runs_py_print
    | apply runs_lift; intros; exact I
    | match goal with
      | |- runs (match ?x with _ => _ end) _ _ _ => destruct x
      end
    | apply runs_for_each with (Inv := fun _ => True);
      [intros ? ? _ | exact I]
    | apply runs_bind with (Q1 := fun _ => True); [| intros ? _] ].

Lemma runs_print_wikipedia (w : world) (wi : wiki_info) :
  runs (print_wikipedia w wi) any_event (fun _ => True) true.
Proof. unfold print_wikipedia. repeat report_step. Qed.

Lemma runs_print_book (w : world) (b : book) :
  runs (print_book w b) any_event (fun _ => True) true.
Proof. unfold print_book. repeat report_step. Qed.

Lemma runs_print_pyq (p : pyq) :
  runs (print_pyq p) any_event (fun _ => True) true.
Proof. unfold print_pyq. repeat report_step. Qed.

Lemma ends_bind (A B : Type) (ev : event) (c : M A) (k : A -> M B)
    (E : event -> Prop) (Q : A -> Prop) x :
  runs c E Q x -> (forall a, ends_with ev (k a)) -> ends_with ev (bind c k).
Proof.
  intros Hc Hk t b. unfold bind.
  destruct (Hc t) as (a1 & Ht & _ & _).
  destruct (c t) as [[a | s] t1]; cbn in Ht; subst t1; [| discriminate].
  intro Hret. destruct (Hk a (t ++ a1) b Hret) as (before & ->).
  exists (a1 ++ before). rewrite <- !app_assoc. reflexivity.
Qed.

Lemma ends_py_print (args : list string) :
  ends_with (Print (PyStr.join " " args)) (py_print args).
Proof. intros t a _. exists []. reflexivity. Qed.

Lemma print_report_ends (w : world) (info : exam_info) :
  ends_with (Print END_LINE) (print_report w info).
Proof.
  unfold print_report.
  repeat (eapply ends_bind with (E := any_event) (Q := fun _ => True)
                                (x := true); [| intros _]).
  all: try exact (@ends_py_print [END_LINE]).
  all: try apply runs_print_wikipedia.
  all: repeat report_step.
  all: first [apply runs_print_book | apply runs_print_pyq].
Qed.

Lemma runs_print_report (w : world) (info : exam_info) :
  runs (print_report w info) any_event (fun _ => True) true.
Proof.
  unfold print_report.
  repeat (apply runs_bind with (Q1 := fun _ => True); [| intros ? _]).
  all: try apply runs_print_wikipedia.
  all: repeat report_step.
  all: first [apply runs_print_book | apply runs_print_pyq].
Qed.

Lemma main_nonblank_eq (w : world) (t : list event) (line : string) :
  stdin_line w (t ++ [Print BANNER]) = Ok line ->
  PyStr.strip line <> "" ->
  main w t
  = (info <- fetch_exam_info_universal w (PyStr.strip line) true true ;;
     print_report w info) (t ++ [Print BANNER; Input PROMPT]).
Proof.
  intros Hline Hq. apply truthy_nonempty in Hq.
  unfold main. unfold bind at 1. unfold py_print at 1, emit.
  cbn [PyStr.join]. unfold bind at 1. unfold py_input. rewrite Hline.
  cbn zeta. rewrite Hq. cbn [negb]. unfold bind at 1. cbn [ret].
  rewrite <- app_assoc. reflexivity.
Qed.

(** X16.  When the line typed at the prompt is not blank, the program looks
    up that line stripped of its surrounding whitespace: after the banner
    and the prompt its first request is the Wikipedia search for the
    stripped name followed by " exam".  It never exits through [exit], and
    when it ends normally the last thing it printed is the "--- End ---"
    line. *)
Theorem main_looks_up_stripped_name (w : world) (t : list event)
    (line : string) :
  stdin_line w (t ++ [Print BANNER]) = Ok line ->
  PyStr.strip line <> "" ->
  (exists rest,
      snd (main w t)
      = t ++ [Print BANNER; Input PROMPT;
              search_event (PyStr.strip line ++ " exam")%string] ++ rest) /\
  (forall a, fst (main w t) = Returns a ->
             exists before, snd (main w t) = t ++ before ++ [Print END_LINE]) /\
  (forall code, fst (main w t) <> Throws (SystemExit code)).
Proof.
  intros Hline Hq. rewrite (main_nonblank_eq w t Hline Hq).
  set (q := PyStr.strip line).
  set (t2 := t ++ [Print BANNER; Input PROMPT]).
  assert (Hfetch : runs (fetch_exam_info_universal w q true true) any_event
                        (fun _ => True) true).
  { eapply runs_weaken; [apply runs_gated | intros; exact I | auto]. }
  split; [| split].
  - assert (Hs : starts_with (search_event (q ++ " exam")%string)
                   (info <- fetch_exam_info_universal w q true true ;;
                    print_report w info)).
    { apply starts_bind;
        [apply fetch_exam_info_universal_starts | apply runs_print_report]. }
    destruct (Hs t2) as (rest & ->). exists rest. unfold t2.
    rewrite <- app_assoc. reflexivity.
  - intros a Ha.
    assert (He : ends_with (Print END_LINE)
                   (info <- fetch_exam_info_universal w q true true ;;
                    print_report w info)).
    { eapply ends_bind; [exact Hfetch | apply print_report_ends]. }
    destruct (He t2 a Ha) as (before & ->).
    exists ([Print BANNER; Input PROMPT] ++ before). unfold t2.
    rewrite <- !app_assoc. reflexivity.
  - intros code Hexit.
    assert (Hr : runs (info <- fetch_exam_info_universal w q true true ;;
                       print_report w info) any_event (fun _ => True) true).
    { eapply runs_bind; [exact Hfetch | intros; apply runs_print_report]. }
    destruct (Hr t2) as (added & _ & _ & Hres). rewrite Hexit in Hres.
    exact Hres.
Qed.

Lemma main_looks_up_stripped_name_witness :
  (exists rest,
      snd (main padded_world [])
      = [] ++ [Print BANNER; Input PROMPT; search_event "JEE Main exam"]
           ++ rest) /\
  fst (main padded_world []) = Returns tt /\
  exists before,
    snd (main padded_world []) = [] ++ before ++ [Print END_LINE].
Proof.
  assert (Hq : PyStr.strip "  JEE Main  " <> "") by (vm_compute; discriminate).
  destruct (@main_looks_up_stripped_name padded_world [] "  JEE Main  "
              eq_refl Hq) as (Hstart & Hend & _).
  split; [exact Hstart|]. split; [vm_compute; reflexivity|].
  apply (Hend tt). vm_compute; reflexivity.
Defined.

Lemma all_strs_error (items : list pyval) (e : exn) :
  all_strs items = Raise e -> e = TypeError.
Proof.
  induction items as [| v rest IH]; cbn; [discriminate|].
  destruct v; try (intro H; inversion H; reflexivity).
  destruct (all_strs rest) as [l | e']; [discriminate|].
  intro H; inversion H; subst. apply IH; reflexivity.
Qed.

Lemma str_join_error (sep : string) (v : pyval) (e : exn) :
  str_join sep v = Raise e -> e = TypeError.
Proof.
  unfold str_join. destruct v; cbn;
    try (intro H; inversion H; reflexivity);
    match goal with
    | |- context [all_strs ?l] =>
        destruct (all_strs l) as [strs | e'] eqn:Hall; [discriminate|];
        intro H; inversion H; subst; eapply all_strs_error; exact Hall
    end.
Qed.

Lemma print_book_outcome (w : world) (b : book) (t : list event) :
  fst (print_book w b t)
  = if authors_joinable b then Returns tt else Throws (Exc TypeError).
Proof.
  unfold print_book, authors_joinable, bind.
  destruct (str_join ", " _) as [authors | e] eqn:Hjoin; cbn.
  - reflexivity.
  - rewrite (str_join_error _ _ Hjoin). reflexivity.
Qed.

Lemma print_books_outcome (w : world) (books : list book) :
  forall t,
    fst (for_each books (fun _ b => print_book w b) tt t)
    = if forallb authors_joinable books then Returns tt
      else Throws (Exc TypeError).
Proof.
  induction books as [| b rest IH]; intro t; cbn [for_each forallb];
    [reflexivity|].
  unfold bind. pose proof (print_book_outcome w b t) as Hb.
  destruct (print_book w b t) as [[[] | s] t1]; cbn in Hb.
  - destruct (authors_joinable b); [| discriminate]. cbn. apply IH.
  - destruct (authors_joinable b); [discriminate|]. cbn. exact Hb.
Qed.

Lemma runs_unit_returns (c : M unit) (E : event -> Prop) (Q : unit -> Prop)
    (t : list event) :
  runs c E Q false -> fst (c t) = Returns tt.
Proof.
  intro H. destruct (runs_returns H t) as ([] & added & -> & _).
  reflexivity.
Qed.

Lemma bind_unit_outcome (A : Type) (c : M unit) (k : unit -> M A)
    (E : event -> Prop) (Q : unit -> Prop) (t : list event) :
  runs c E Q false -> fst (bind c k t) = fst (k tt (snd (c t))).
Proof.
  intro H. unfold bind. destruct (runs_returns H t) as ([] & added & -> & _).
  reflexivity.
Qed.

Lemma print_wikipedia_total (w : world) (wi : wiki_info) :
  runs (print_wikipedia w wi) any_event (fun _ => True) false.
Proof. unfold print_wikipedia. repeat report_step. Qed.

Lemma print_pyq_total (p : pyq) :
  runs (print_pyq p) any_event (fun _ => True) false.
Proof. unfold print_pyq. repeat report_step. Qed.

(** The outcome of the report on a stream that takes every line, which is
    how [py_print] is written here: the join of the authors is then the one
    step that can raise. *)
Lemma print_report_outcome (w : world) (info : exam_info) (t : list event) :
  fst (print_report w info t)
  = if forallb authors_joinable (info_books info) then Returns tt
    else Throws (Exc TypeError).
Proof.
  unfold print_report.
  rewrite bind_unit_outcome
    with (E := any_event) (Q := fun _ => True) by apply runs_py_print.
  rewrite bind_unit_outcome
    with (E := any_event) (Q := fun _ => True) by apply runs_py_print.
  rewrite bind_unit_outcome
    with (E := any_event) (Q := fun _ => True) by apply print_wikipedia_total.
  rewrite bind_unit_outcome
    with (E := any_event) (Q := fun _ => True) by repeat report_step.
  rewrite bind_unit_outcome
    with (E := any_event) (Q := fun _ => True) by repeat report_step.
  match goal with |- fst (bind _ _ ?t0) = _ => generalize t0 end.
  intro t0. unfold bind at 1.
  destruct (info_books info) as [| b rest] eqn:Hbooks.
  - cbn [forallb]. unfold py_print at 1, emit.
    apply runs_unit_returns with (E := any_event) (Q := fun _ => True).
    apply runs_bind with (Q1 := fun _ => True); [| intros ? _].
    + repeat report_step. all: apply print_pyq_total.
    + apply runs_py_print.
  - pose proof (print_books_outcome w (b :: rest)) as Hloop.
    unfold bind at 1. unfold py_print at 1, emit.
    match goal with
    | |- context [for_each (b :: rest) ?f tt ?t1] =>
        specialize (Hloop t1);
        destruct (for_each (b :: rest) f tt t1) as [[[] | s] t2]
    end; cbn [fst] in Hloop.
    + rewrite <- Hloop.
      apply runs_unit_returns with (E := any_event) (Q := fun _ => True).
      apply runs_bind with (Q1 := fun _ => True); [| intros ? _].
      * repeat report_step. all: apply print_pyq_total.
      * apply runs_py_print.
    + rewrite <- Hloop. reflexivity.
Qed.

(** X17.  A book whose authors field [", ".join] does not accept (a number,
    say, or a list holding a number) keeps the report from being printed to
    its end: [print_report] raises an exception instead of returning. *)
Theorem report_fails_on_unjoinable_authors (w : world) (info : exam_info)
    (t : list event) :
  forallb authors_joinable (info_books info) = false ->
  (exists e, fst (print_report w info t) = Throws (Exc e)) /\
  forall r, fst (print_report w info t) <> Returns r.
Proof.
  intro Hbad. rewrite print_report_outcome, Hbad.
  split; [eexists; reflexivity | discriminate].
Qed.

Lemma report_fails_on_unjoinable_authors_witness :
  (exists e,
      fst (print_report offline_world numeric_authors_info [])
      = Throws (Exc e)) /\
  forall r,
    fst (print_report offline_world numeric_authors_info []) <> Returns r.
Proof.
  exact (@report_fails_on_unjoinable_authors offline_world
           numeric_authors_info [] eq_refl).
Defined.

(** A book whose authors field is the number 3 stops the report after the
    books heading. *)
Example report_fails_on_numeric_authors :
  print_report offline_world numeric_authors_info []
  = (Throws (Exc TypeError),
     [Print (nl ++ "=== Result Summary ===" ++ nl)%string;
      Print "Query: NEET";
      Print (nl ++ "YouTube results not available (no API key or google client).")%string;
      Print (nl ++ "YouTube playlist not available (no API key, google client, or no results).")%string;
      Print (nl ++ "Suggested Books:")%string]).
Proof. vm_compute. reflexivity. Qed.

(* ================================================================== *)
(** * Further properties: letter case and whitespace *)
(* ================================================================== *)

Lemma lower_char_idempotent (c : ascii) :
  PyStr.lower_char (PyStr.lower_char c) = PyStr.lower_char c.
Proof.
  destruct c as [[] [] [] [] [] [] [] []]; reflexivity.
Qed.

Lemma lower_idempotent (s : string) : PyStr.lower (PyStr.lower s) = PyStr.lower s.
Proof.
  induction s as [| c rest IH]; cbn; [reflexivity|].
  rewrite lower_char_idempotent, IH. reflexivity.
Qed.

Lemma string_app_assoc (a b c : string) :
  ((a ++ b) ++ c)%string = (a ++ (b ++ c))%string.
Proof. induction a as [| x a IH]; cbn; [| rewrite IH]; reflexivity. Qed.

Lemma rev_onto_spec (s acc : string) :
  PyStr.rev_onto s acc = (PyStr.rev s ++ acc)%string.
Proof.
  unfold PyStr.rev. revert acc.
  induction s as [| c rest IH]; intro acc; cbn; [reflexivity|].
  rewrite IH, (IH (String c "")), string_app_assoc. reflexivity.
Qed.

Lemma rev_onto_app (a b acc : string) :
  PyStr.rev_onto (a ++ b)%string acc = PyStr.rev_onto b (PyStr.rev_onto a acc).
Proof.
  revert acc. induction a as [| c rest IH]; intro acc; cbn;
    [reflexivity | apply IH].
Qed.

Lemma rev_app_str (a b : string) :
  PyStr.rev (a ++ b)%string = (PyStr.rev b ++ PyStr.rev a)%string.
Proof.
  unfold PyStr.rev at 1. rewrite rev_onto_app, rev_onto_spec. reflexivity.
Qed.

Lemma lstrip_by_head (p : ascii -> bool) (s : string) :
  head_sat p (PyStr.lstrip_by p s) = false.
Proof.
  induction s as [| c rest IH]; cbn [PyStr.lstrip_by]; [reflexivity|].
  destruct (p c) eqn:Hc; [exact IH | exact Hc].
Qed.

Lemma rstrip_by_tail (p : ascii -> bool) (s : string) :
  head_sat p (PyStr.rev (PyStr.rstrip_by p s)) = false.
Proof.
  unfold PyStr.rstrip_by. rewrite rev_involutive_str. apply lstrip_by_head.
Qed.

Lemma lstrip_by_keeps_last (p : ascii -> bool) (a : string) (c : ascii) :
  p c = false ->
  exists u, PyStr.lstrip_by p (a ++ String c "")%string
            = (u ++ String c "")%string.
Proof.
  intro Hc. induction a as [| d rest IH]; cbn.
  - rewrite Hc. exists ""%string. reflexivity.
  - destruct (p d); [exact IH|].
    exists (String d rest). reflexivity.
Qed.

Lemma rstrip_by_keeps_head (p : ascii -> bool) (s : string) :
  head_sat p s = false -> head_sat p (PyStr.rstrip_by p s) = false.
Proof.
  destruct s as [| c rest]; [reflexivity|]. cbn [head_sat]. intro Hc.
  unfold PyStr.rstrip_by.
  assert (Hrev : PyStr.rev (String c rest)
                 = (PyStr.rev rest ++ String c "")%string).
  { unfold PyStr.rev at 1. cbn. apply rev_onto_spec. }
  rewrite Hrev.
  destruct (lstrip_by_keeps_last p (PyStr.rev rest) c Hc) as [u ->].
  rewrite rev_app_str. cbn. exact Hc.
Qed.

Lemma strip_trimmed (s : string) :
  head_sat PyStr.is_space (PyStr.strip s) = false /\
  head_sat PyStr.is_space (PyStr.rev (PyStr.strip s)) = false.
Proof.
  unfold PyStr.strip. split.
  - apply rstrip_by_keeps_head. apply lstrip_by_head.
  - apply rstrip_by_tail.
Qed.

Lemma is_space_lower_char (c : ascii) :
  PyStr.is_space (PyStr.lower_char c) = PyStr.is_space c.
Proof.
  destruct c as [[] [] [] [] [] [] [] []]; reflexivity.
Qed.

Lemma head_sat_lower (s : string) :
  head_sat PyStr.is_space (PyStr.lower s) = head_sat PyStr.is_space s.
Proof. destruct s; cbn; [reflexivity | apply is_space_lower_char]. Qed.

Lemma lower_rev_onto (s acc : string) :
  PyStr.rev_onto (PyStr.lower s) (PyStr.lower acc)
  = PyStr.lower (PyStr.rev_onto s acc).
Proof.
  revert acc. induction s as [| c rest IH]; intro acc; cbn; [reflexivity|].
  rewrite <- IH. reflexivity.
Qed.

Lemma lower_strip_normalized (s : string) :
  normalized_key (PyStr.lower (PyStr.strip s)).
Proof.
  destruct (strip_trimmed s) as [Hhead Htail].
  split; [apply lower_idempotent|]. split.
  - rewrite head_sat_lower. exact Hhead.
  - unfold PyStr.rev. change ""%string with (PyStr.lower "") at 1.
    rewrite lower_rev_onto, head_sat_lower. exact Htail.
Qed.

Lemma first_occurrences_In (l acc : list string) (k : string) :
  In k (fold_left
          (fun acc k => if existsb (String.eqb k) acc then acc else acc ++ [k])
          l acc) ->
  In k acc \/ In k l.
Proof.
  revert acc. induction l as [| x rest IH]; intros acc Hin; cbn in Hin;
    [left; exact Hin|].
  destruct (IH _ Hin) as [Hacc | Hrest]; [| right; right; exact Hrest].
  destruct (existsb (String.eqb x) acc); [left; exact Hacc|].
  apply in_app_or in Hacc. destruct Hacc as [H | [<- | []]];
    [left; exact H | right; left; reflexivity].
Qed.

(** X18.  Every key of the mapping returned by
    [extract_sections_from_wiki_html] is normalized: it is lowercase and has
    no whitespace at its start or end, so a heading written "  Syllabus "
    is found under "syllabus". *)
Theorem section_keys_normalized (w : world) (html : string) :
  Forall normalized_key (PyDict.keys (extract_sections_from_wiki_html w html)).
Proof.
  rewrite sections_key_order. apply Forall_forall. intros k Hin.
  unfold first_occurrences in Hin. apply first_occurrences_In in Hin.
  destruct Hin as [[] | Hin]. apply in_app_or in Hin.
  destruct Hin as [Hin | [<- | []]].
  - apply in_map_iff in Hin. destruct Hin as (h & <- & _).
    apply lower_strip_normalized.
  - repeat split.
Qed.

(* ================================================================== *)
(** * Further properties: how many requests one call makes *)
(* ================================================================== *)

Lemma at_most_ret (A : Type) (a : A) : at_most 0 (ret a).
Proof. intro t. exists []. cbn. rewrite app_nil_r. auto. Qed.

Lemma at_most_weaken (A : Type) (c : M A) (n m : nat) :
  at_most n c -> (n <= m)%nat -> at_most m c.
Proof.
  intros Hc Hnm t. destruct (Hc t) as (added & Ht & Hlen).
  exists added. split; [exact Ht | eapply Nat.le_trans; eassumption].
Qed.

Lemma at_most_bind (A B : Type) (c : M A) (k : A -> M B) (n m : nat) :
  at_most n c -> (forall a, at_most m (k a)) -> at_most (n + m) (bind c k).
Proof.
  intros Hc Hk t. unfold bind. destruct (Hc t) as (a1 & Ht & Hlen).
  destruct (c t) as [[a | s] t1]; cbn in Ht; subst t1.
  - destruct (Hk a (t ++ a1)) as (a2 & -> & Hlen2).
    exists (a1 ++ a2). rewrite app_assoc, length_app.
    split; [reflexivity | apply Nat.add_le_mono; assumption].
  - exists a1. split; [reflexivity|].
    eapply Nat.le_trans; [exact Hlen | apply Nat.le_add_r].
Qed.

Lemma at_most_find_relevant_wiki_info (w : world) (query : string) :
  at_most 3 (find_relevant_wiki_info w query).
Proof.
  intro t. rewrite find_relevant_wiki_info_eq. unfold resolved_title.
  destruct (PyVal.truthy (title_of_reply _)).
  - destruct (title_of_reply _);
      try (eexists; cbn [snd]; split; [reflexivity | cbn; auto]).
    eexists. cbn [snd]. rewrite <- app_assoc.
    split; [reflexivity | cbn; auto].
  - destruct (title_of_reply
                (requests_get w (t ++ _) WIKIPEDIA_SEARCH_API _));
      try (eexists; cbn [snd]; rewrite <- app_assoc;
           split; [reflexivity | cbn; auto]).
    eexists. cbn [snd]. rewrite <- !app_assoc.
    split; [reflexivity | cbn; auto].
Qed.

Lemma at_most_search_youtube_videos (w : world) (query : string) (n : Z) :
  at_most 1 (search_youtube_videos w query n).
Proof.
  intro t. destruct (no_youtube w) eqn:Hno.
  - exists []. unfold search_youtube_videos. rewrite Hno. cbn.
    rewrite app_nil_r. auto.
  - rewrite search_youtube_videos_eq by exact Hno.
    eexists. split; [reflexivity | cbn; auto].
Qed.

Lemma at_most_search_youtube_playlist (w : world) (query : string) :
  at_most 1 (search_youtube_playlist w query).
Proof.
  intro t. destruct (no_youtube w) eqn:Hno.
  - exists []. unfold search_youtube_playlist. rewrite Hno. cbn.
    rewrite app_nil_r. auto.
  - rewrite search_youtube_playlist_eq by exact Hno.
    eexists. split; [reflexivity | cbn; auto].
Qed.

Lemma at_most_search_google_books (w : world) (query : string) (n : Z) :
  at_most 1 (search_google_books w query n).
Proof.
  intro t. rewrite search_google_books_eq.
  eexists. split; [reflexivity | cbn; auto].
Qed.

Lemma at_most_fetch_free_pyqs_links (w : world) (exam_query : string) :
  at_most 2 (fetch_free_pyqs_links w exam_query).
Proof.
  intro t. rewrite fetch_free_pyqs_links_eq.
  eexists. split; [reflexivity|]. unfold registered_links.
  destruct (PyStr.contains "neet" (PyStr.lower exam_query));
    [| destruct (PyStr.contains "jee" (PyStr.lower exam_query))];
    cbn; auto.
Qed.

(** X19.  One call of the aggregate makes at least one and at most eight
    external requests: at most three to Wikipedia, two more to the video API
    when [include_videos] is set, and three more (one for books, two for
    archive pages) when [include_books] is set. *)
Theorem aggregate_request_budget (w : world) (exam_query : string)
    (include_videos include_books : bool) (t : list event) :
  exists added,
    snd (fetch_exam_info_universal w exam_query include_videos include_books t)
      = t ++ added /\
    (1 <= List.length added)%nat /\
    (List.length added
     <= 3 + (if include_videos then 2 else 0)
        + (if include_books then 3 else 0))%nat.
Proof.
  assert (H : at_most
                (3 + ((if include_videos then 1 else 0)
                      + ((if include_videos then 1 else 0)
                         + ((if include_books then 1 else 0)
                            + ((if include_books then 2 else 0) + 0)))))
                (fetch_exam_info_universal w exam_query
                   include_videos include_books)).
  { unfold fetch_exam_info_universal.
    apply at_most_bind; [apply at_most_find_relevant_wiki_info|].
    intro wikipedia. apply at_most_bind.
    { destruct include_videos;
        [apply at_most_search_youtube_videos | apply at_most_ret]. }
    intro videos. apply at_most_bind.
    { destruct include_videos;
        [apply at_most_search_youtube_playlist | apply at_most_ret]. }
    intro playlist. apply at_most_bind.
    { destruct include_books;
        [apply at_most_search_google_books | apply at_most_ret]. }
    intro books. apply at_most_bind.
    { destruct include_books;
        [apply at_most_fetch_free_pyqs_links | apply at_most_ret]. }
    intro free_pyqs. apply at_most_ret. }
  destruct (H t) as (added & Ht & Hlen).
  exists added. split; [exact Ht|]. split.
  - destruct (fetch_exam_info_universal_starts w exam_query
                include_videos include_books t) as (rest & Hstart).
    rewrite Ht in Hstart. apply app_inv_head in Hstart. subst added.
    cbn. apply le_n_S, Nat.le_0_l.
  - eapply Nat.le_trans; [exact Hlen|].
    destruct include_videos, include_books; cbn; auto.
Qed.

(* ================================================================== *)
(** * Further properties: where the summary comes from *)
(* ================================================================== *)

Lemma heading_sections_get_truthy (soup : list node) (k v : string) :
  PyDict.get k (heading_sections soup) = Some v -> PyStr.truthy v = true.
Proof.
  intro Hget. apply get_In in Hget.
  pose proof (heading_sections_values soup) as Hv.
  rewrite Forall_forall in Hv. exact (Hv _ Hget).
Qed.

Lemma get_app_other (V : Type) (k k' : string) (v : V) (d : dict V) :
  k' <> k -> PyDict.get k' (d ++ [(k, v)]) = PyDict.get k' d.
Proof.
  intro Hne. induction d as [| [k0 v0] rest IH]; cbn.
  - destruct (String.eqb_spec k' k); [contradiction | reflexivity].
  - destruct (String.eqb k' k0); [reflexivity | exact IH].
Qed.

(** X20.  The summary of a record built from a fetched page is, in this
    order of preference: the text under a heading named "summary"; else the
    lead paragraph when it is not empty; else the text under a heading
    named "introduction"; else None.  So an "Introduction" section is used
    only when the page has no "summary" heading and its first paragraph is
    empty. *)
Theorem summary_precedence (w : world) (query : string)
    (t t' : list event) (out : wiki_info) (html : string) :
  find_relevant_wiki_info w query t = (Returns out, t') ->
  wiki_other_sections out = extract_sections_from_wiki_html w html ->
  let soup := Soup.remove_tables (html_parser w html) in
  wiki_summary out
  = match PyDict.get "summary" (heading_sections soup) with
    | Some s => Some s
    | None =>
        if PyStr.truthy (lead_para soup) then Some (lead_para soup)
        else PyDict.get "introduction" (heading_sections soup)
    end.
Proof.
  intros Hrun Hsec soup.
  assert (Hs : wiki_summary out =
               opt_or (opt_or (PyDict.get "summary" (wiki_other_sections out))
                              (PyDict.get "introduction" (wiki_other_sections out)))
                      None).
  { apply find_relevant_wiki_info_cases in Hrun.
    destruct Hrun as [-> | [[title ->] | (title & html' & ->)]];
      reflexivity. }
  rewrite Hs, Hsec. unfold extract_sections_from_wiki_html.
  rewrite sections_of_soup_shape. cbn zeta. fold soup.
  unfold PyDict.mem.
  destruct (PyDict.get "summary" (heading_sections soup)) as [s |] eqn:Hsum.
  - rewrite Hsum. pose proof (heading_sections_get_truthy _ _ Hsum) as Ht.
    unfold opt_or. cbn. rewrite Ht. cbn. rewrite Ht. reflexivity.
  - rewrite get_app_fresh by (apply mem_false_get; exact Hsum).
    rewrite get_app_other by discriminate.
    rewrite String.eqb_refl.
    unfold opt_or. cbn [opt_truthy].
    destruct (PyStr.truthy (lead_para soup)) eqn:Hl; cbn [opt_truthy].
    + rewrite Hl. reflexivity.
    + destruct (PyDict.get "introduction" (heading_sections soup))
        as [s |] eqn:Hint; cbn [opt_truthy]; [| reflexivity].
      rewrite (heading_sections_get_truthy _ _ Hint). reflexivity.
Qed.

Lemma summary_precedence_witness :
  (exists out t',
      find_relevant_wiki_info (wiki_world (PStr "NEET") introduction_page)
        "NEET" [] = (Returns out, t') /\
      wiki_summary out = Some "Lead paragraph.") /\
  (exists out t',
      find_relevant_wiki_info (wiki_world (PStr "NEET") introduction_only_page)
        "NEET" [] = (Returns out, t') /\
      wiki_summary out = Some "Introductory section.").
Proof.
  split.
  - pose (w := wiki_world (PStr "NEET") introduction_page).
    pose (run := find_relevant_wiki_info w "NEET" []).
    exists (match fst run with Returns o => o | Throws _ => empty_wiki_info end),
           (snd run).
    assert (Hrun : find_relevant_wiki_info w "NEET" []
                   = (Returns (match fst run with
                               | Returns o => o
                               | Throws _ => empty_wiki_info
                               end), snd run))
      by (vm_compute; reflexivity).
    split; [exact Hrun|].
    refine (eq_trans (summary_precedence w "NEET" [] "<html>" Hrun _) _);
      vm_compute; reflexivity.
  - pose (w := wiki_world (PStr "NEET") introduction_only_page).
    pose (run := find_relevant_wiki_info w "NEET" []).
    exists (match fst run with Returns o => o | Throws _ => empty_wiki_info end),
           (snd run).
    assert (Hrun : find_relevant_wiki_info w "NEET" []
                   = (Returns (match fst run with
                               | Returns o => o
                               | Throws _ => empty_wiki_info
                               end), snd run))
      by (vm_compute; reflexivity).
    split; [exact Hrun|].
    refine (eq_trans (summary_precedence w "NEET" [] "<html>" Hrun _) _);
      vm_compute; reflexivity.
Defined.

(* ================================================================== *)
(** * C6 and C10: the link stored for a kept anchor *)
(* ================================================================== *)








Lemma registered_pages_no_trailing_slash (exam_query : string) (item : archive) :
  In item (registered_links exam_query) ->
  PyStr.rstrip_slash (archive_link item) = archive_link item /\
  PyStr.startswith (archive_link item) "https://" = true.
Proof.
  unfold registered_links.
  destruct (PyStr.contains "neet" (PyStr.lower exam_query));
    [| destruct (PyStr.contains "jee" (PyStr.lower exam_query))];
    cbn [app In]; intro Hin;
    repeat (destruct Hin as [<- | Hin]; [split; vm_compute; reflexivity|]);
    destruct Hin.
Qed.




Lemma prefix_is_absolute (a b : string) :
  PyStr.startswith a "https://" = true ->
  is_absolute_url (a ++ b)%string = true.
Proof.
  intro H. unfold is_absolute_url, PyStr.startswith in *.
  rewrite (prefix_app _ _ b H). apply orb_true_r.
Qed.

(** C10, as the code has it.  For every query and every reply of the
    archive sites the scraper returns, and the link of every entry it
    returns begins with "http": an href that already starts with "http" is
    stored unchanged, any other href is appended to the page URL, and every
    registered page URL is an absolute "https://" URL.  So the link stored
    on a registered page for an href that does not start with "http" is an
    absolute URL, and the link stored for an href that starts with "http"
    is absolute exactly when that href is. *)
Theorem pyq_links_start_with_http (w : world) (exam_query : string)
    (t : list event) :
  (exists l t',
      fetch_free_pyqs_links w exam_query t = (Returns l, t') /\
      Forall (fun e => PyStr.startswith (pyq_link e) "http" = true) l) /\
  Forall (fun item => PyStr.startswith (archive_link item) "https" = true)
         (registered_links exam_query) /\
  (forall page href,
      PyStr.startswith href "http" = true -> resolve_href page href = href) /\
  (forall page href,
      PyStr.startswith href "http" = false ->
      resolve_href page href
      = (PyStr.rstrip_slash page ++ "/" ++ PyStr.lstrip_slash href)%string) /\
  (forall item href,
      In item (registered_links exam_query) ->
      is_absolute_url (resolve_href (archive_link item) href)
      = if PyStr.startswith href "http" then is_absolute_url href else true).
Proof.
  pose proof (registered_links_https exam_query) as Hreg.
  split; [| split; [| split; [| split]]].
  - eexists. eexists. split; [apply fetch_free_pyqs_links_eq|].
    apply Forall_firstn_keep. apply all_matches_http.
    eapply Forall_impl; [| exact Hreg]. intros item [_ H]; exact H.
  - eapply Forall_impl; [| exact Hreg]. intros item [H _]; exact H.
  - exact resolve_href_absolute.
  - exact resolve_href_relative.
  - intros item href Hin.
    destruct (PyStr.startswith href "http") eqn:Hh.
    + rewrite resolve_href_absolute by exact Hh. reflexivity.
    + rewrite resolve_href_relative by exact Hh.
      destruct (registered_pages_no_trailing_slash _ _ Hin) as [Hstrip Habs].
      rewrite Hstrip. apply prefix_is_absolute. exact Habs.
Qed.

Lemma pyq_links_start_with_http_witness :
  (exists l t',
      fetch_free_pyqs_links online_world "NEET" [] = (Returns l, t') /\
      Forall (fun e => PyStr.startswith (pyq_link e) "http" = true) l) /\
  map pyq_link
      (match fst (fetch_free_pyqs_links online_world "NEET" []) with
       | Returns l => l
       | Throws _ => []
       end)
    = [(neet_url ++ "/papers/2023.pdf")%string;
       (neet_self ++ "/papers/2023.pdf")%string] /\
  resolve_href neet_url "https://cdn.example/p.pdf" = "https://cdn.example/p.pdf"
  /\
  resolve_href neet_url "p.pdf" = (neet_url ++ "/p.pdf")%string /\
  is_absolute_url (resolve_href neet_url "p.pdf") = true.
Proof.
  destruct (pyq_links_start_with_http online_world "NEET" [])
    as (Hret & _ & Habs & Hrel & Hurl).
  split; [exact Hret|]. split; [vm_compute; reflexivity|].
  split; [apply Habs; reflexivity|].
  split; [rewrite Hrel by reflexivity; reflexivity|].
  exact (Hurl examsnet_neet "p.pdf" (or_introl eq_refl)).
Defined.

(** On pages holding an anchor whose href is the file name
    "https-2023.pdf", the scraper returns that file name as a link: it
    begins with "http" and is relative. *)
Lemma pyq_links_start_with_http_counterexample :
  fetch_free_pyqs_links hyphen_world "neet" []
    = (Returns
         [{| pyq_site := "Examsnet"; pyq_exam := "NEET";
             pyq_title := "2023 paper"; pyq_link := "https-2023.pdf" |};
          {| pyq_site := "Selfstudys"; pyq_exam := "NEET";
             pyq_title := "2023 paper"; pyq_link := "https-2023.pdf" |}],
       [HttpGet neet_url []; HttpGet neet_self []]) /\
  PyStr.startswith "https-2023.pdf" "http" = true /\
  is_absolute_url "https-2023.pdf" = false /\
  ~ (exists l t',
        fetch_free_pyqs_links hyphen_world "neet" [] = (Returns l, t') /\
        no_relative_link l).
Proof.
  assert (H : fetch_free_pyqs_links hyphen_world "neet" []
              = (Returns
                   [{| pyq_site := "Examsnet"; pyq_exam := "NEET";
                       pyq_title := "2023 paper";
                       pyq_link := "https-2023.pdf" |};
                    {| pyq_site := "Selfstudys"; pyq_exam := "NEET";
                       pyq_title := "2023 paper";
                       pyq_link := "https-2023.pdf" |}],
                 [HttpGet neet_url []; HttpGet neet_self []]))
    by (vm_compute; reflexivity).
  split; [exact H|]. split; [reflexivity|]. split; [reflexivity|].
  intros (l & t' & Hrun & Hall). rewrite H in Hrun.
  inversion Hrun; subst. inversion Hall as [| e rest He _]; subst.
  discriminate He.
Qed.
